(** * Night batch flow builders (app/application/night_batch_flow.py)

    A shallow embedding of the two flow builders [build_run_type_flow] and
    [build_night_batch_flow], of the closures they register, and of the part
    of the orchestration primitive (AsyncFlow, Context) they call into. *)

From stdpp Require Import gmap strings list pretty relations.

Open Scope string_scope.
Open Scope list_scope.

(** ** Python values

    The values that reach the builders through [params]: JSON-like data.
    A dict keeps its items in insertion order; [assoc_get] returns the first
    binding of a key. *)

#[warnings="-register-all"]
Inductive pyval : Type :=
| VNone
| VBool (b : bool)
| VInt (z : Z)
| VStr (s : string)
| VList (items : list pyval)
| VDict (items : list (string * pyval)).

Inductive exn : Type :=
| DuplicateNodeError (id : string)
| AttributeError
| TypeError
| NameError.

Inductive result (A : Type) : Type :=
| Ok (a : A)
| Raise (e : exn).

Arguments Ok {A} a.
Arguments Raise {A} e.

Fixpoint assoc_get (k : string) (d : list (string * pyval)) : option pyval :=
  match d with
  | [] => None
  | (k', v) :: d' => if String.eqb k k' then Some v else assoc_get k d'
  end.

(** [o.get(k, dflt)]: only a dict has the method. *)
Definition py_get (o : pyval) (k : string) (dflt : pyval) : result pyval :=
  match o with
  | VDict d => Ok (default dflt (assoc_get k d))
  | _ => Raise AttributeError
  end.

Fixpoint chars (s : string) : list pyval :=
  match s with
  | EmptyString => []
  | String c s' => VStr (String c EmptyString) :: chars s'
  end.

(** [for x in o]: a list yields its items, a str its characters, a dict its
    keys; the other values are not iterable. *)
Definition py_iter (o : pyval) : result (list pyval) :=
  match o with
  | VList l => Ok l
  | VStr s => Ok (chars s)
  | VDict d => Ok (VStr <$> d.*1)
  | _ => Raise TypeError
  end.

(** [len(o)] *)
Definition py_len (o : pyval) : result nat :=
  match o with
  | VList l => Ok (length l)
  | VStr s => Ok (String.length s)
  | VDict d => Ok (length d)
  | _ => Raise TypeError
  end.

(** [a == b] on these values.  A bool is the int it stands for
    ([True == 1]), a list compares item by item, a dict compares as a
    mapping: the same keys with equal values, in any order. *)
Fixpoint py_eq (a b : pyval) : bool :=
  match a, b with
  | VNone, VNone => true
  | VBool x, VBool y => Z.eqb (Z.b2z x) (Z.b2z y)
  | VBool x, VInt z => Z.eqb (Z.b2z x) z
  | VInt z, VBool y => Z.eqb z (Z.b2z y)
  | VInt x, VInt y => Z.eqb x y
  | VStr s, VStr t => String.eqb s t
  | VList l, VList k =>
      (fix items l k :=
         match l, k with
         | [], [] => true
         | x :: l', y :: k' => py_eq x y && items l' k'
         | _, _ => false
         end) l k
  | VDict d, VDict e =>
      Nat.eqb (length d) (length e) &&
      forallb (fun '(key, v) =>
                 match assoc_get key e with
                 | Some v' => py_eq v v'
                 | None => false
                 end) d
  | _, _ => false
  end.

(** ** The objects the builders create *)

Inductive code : Type :=
| Fn_prepare_data
| Fn_build_library_image
| Fn_run_library_pricing
| Fn_calculate_differences
| Fn_notify_complete
| Fn_prepare_batch_data
| Fn_execute_run_type_flow
| Fn_notify_batch_complete.

(** A function object: the code of a nested [def] and the address of the
    frame of the enclosing builder call.  The free variables of the code are
    looked up in that frame when the function is called. *)
Record closure : Type := Closure { fn_code : code; fn_env : nat }.

Inductive node_kind : Type :=
| Task (fn : closure)
| Subflow (fn : closure) (params : pyval).

Record Node : Type := mkNode {
  node_id : string;
  display_name : string;
  depends_on : list string;
  kind : node_kind
}.

(** Modelled from the spec: the Flow object of app.infra.flow (AsyncFlow),
    which is not part of the sources.  [flow_nodes] is the id-keyed mapping
    of section 3, kept in registration order; [flow_addr] is the identity of
    the object and [flow_store] the address of the Store it is bound to. *)
Record Flow : Type := mkFlow {
  flow_addr : nat;
  flow_name : string;
  flow_store : nat;
  flow_nodes : list Node
}.

Definition node_ids (f : Flow) : list string := node_id <$> flow_nodes f.

Definition find_node (id : string) (f : Flow) : option Node :=
  find (fun n => String.eqb (node_id n) id) (flow_nodes f).

(** Modelled from the spec: the Context of app.infra.flow (section 3): the
    state mapping of one run and the messages logged so far. *)
Record Context : Type := mkContext {
  state : gmap string pyval;
  logs : list string
}.

Inductive flow_call : Type :=
| Call_build_firebird_image_flow (name : string)
| Call_build_pricing_flow (name : string)
| Call_build_run_type_flow (params run_type : pyval).

(** What the interpreter observes: a registration call on a Flow (with the
    ids registered in it when the call is made), a call on a Context, a call
    of a flow builder from inside a callable. *)
Inductive event : Type :=
| EvRegister (registered : list string) (n : Node)
| EvLog (msg : string)
| EvPush (partial : list (string * pyval))
| EvCall (c : flow_call).

(** ** The interpreter state

    [frames] holds the cell variables of every builder call made so far (a
    closure points into it), [next_flow] is the allocator of Flow objects and
    [trace] records the calls made on a Context and to the flow builders. *)
Record world : Type := mkWorld {
  frames : list (gmap string pyval);
  next_flow : nat;
  trace : list event
}.

Definition M (A : Type) : Type := world → result A * world.

Definition ret {A} (a : A) : M A := fun w => (Ok a, w).

Definition bind {A B} (m : M A) (k : A → M B) : M B :=
  fun w => match m w with
           | (Ok a, w') => k a w'
           | (Raise e, w') => (Raise e, w')
           end.

Definition lift {A} (r : result A) : M A := fun w => (r, w).

Notation "'let!' x ':=' m 'in' k" := (bind m (fun x => k))
  (at level 10, x name, m at level 100, k at level 200,
   format "'[v' 'let!'  x  :=  m  'in' '/' k ']'").
Notation "'do!' m 'in' k" := (bind m (fun _ => k))
  (at level 10, m at level 100, k at level 200,
   format "'[v' 'do!'  m  'in' '/' k ']'").

Fixpoint for_each {S A} (body : S → A → M S) (items : list A) (s : S) : M S :=
  match items with
  | [] => ret s
  | x :: items' => let! s' := body s x in for_each body items' s'
  end.

Definition emit (e : event) : M unit :=
  fun w => (Ok tt, mkWorld (frames w) (next_flow w) (trace w ++ [e])).

(** Entering a function allocates the frame of its cell variables. *)
Definition new_frame (cells : gmap string pyval) : M nat :=
  fun w => (Ok (length (frames w)),
            mkWorld (frames w ++ [cells]) (next_flow w) (trace w)).

(** Assignment to a cell variable of frame [env]. *)
Definition set_cell (env : nat) (x : string) (v : pyval) : M unit :=
  fun w => (Ok tt,
            mkWorld (alter (insert x v) env (frames w)) (next_flow w) (trace w)).

(** Read of a free variable through the closure's frame. *)
Definition read_cell (env : nat) (x : string) : M pyval :=
  fun w => match frames w !! env with
           | Some fr => match fr !! x with
                        | Some v => (Ok v, w)
                        | None => (Raise NameError, w)
                        end
           | None => (Raise NameError, w)
           end.

Fixpoint map_result {A B} (f : A → result B) (l : list A) : result (list B) :=
  match l with
  | [] => Ok []
  | x :: l' =>
      match f x with
      | Ok y => match map_result f l' with
                | Ok ys => Ok (y :: ys)
                | Raise e => Raise e
                end
      | Raise e => Raise e
      end
  end.

(** ** The flow API (app.infra.flow) *)

(** Modelled from the spec: [AsyncFlow(name, store)], the new_flow of
    section 4.1: a fresh, empty Flow bound to the given Store. *)
Definition AsyncFlow (name : string) (st : nat) : M Flow :=
  fun w => (Ok (mkFlow (next_flow w) name st []),
            mkWorld (frames w) (S (next_flow w)) (trace w)).

(** Modelled from the spec: registration of a node (section 4.1).  It fails
    with DuplicateNodeError when the id is taken, stores the callable without
    calling it, and leaves the depends_on ids to be validated when the flow
    is run.  [task] and [subflow] record the call before it is carried out. *)
Definition register (n : Node) (f : Flow) : result Flow :=
  if bool_decide (node_id n ∈ node_ids f)
  then Raise (DuplicateNodeError (node_id n))
  else Ok (mkFlow (flow_addr f) (flow_name f) (flow_store f)
                  (flow_nodes f ++ [n])).

(** [@flow.task(id, name=..., depends_on=...)] applied to [fn] *)
Definition task (f : Flow) (id name : string) (deps : list string)
    (fn : closure) : M Flow :=
  let n := mkNode id name deps (Task fn) in
  do! emit (EvRegister (node_ids f) n) in
  lift (register n f).

(** [@flow.subflow(id, name=..., params=..., depends_on=...)] applied to [fn] *)
Definition subflow (f : Flow) (id name : string) (params : pyval)
    (deps : list string) (fn : closure) : M Flow :=
  let n := mkNode id name deps (Subflow fn params) in
  do! emit (EvRegister (node_ids f) n) in
  lift (register n f).

(** Modelled from the spec: [ctx.push(partial)] merges the keys of [partial]
    into the state, a later binding of a key replacing the earlier one. *)
Definition push (partial : list (string * pyval)) (ctx : Context) : M Context :=
  do! emit (EvPush partial) in
  ret (mkContext (foldl (fun st kv => <[kv.1 := kv.2]> st) (state ctx) partial)
                 (logs ctx)).

(** Modelled from the spec: [ctx.log(message)] appends a record; the time
    stamp and the node it is filed under are not part of the model. *)
Definition log (msg : string) (ctx : Context) : M Context :=
  do! emit (EvLog msg) in
  ret (mkContext (state ctx) (logs ctx ++ [msg])).

(** ** What the module imports

    The text Python prints for a list or a dict, [str.upper], the Store
    object of app.application.flow_store and the two flow builders of
    app.application.firebird_image_flow and app.application.pricing_flow are
    taken as given. *)
Class Externals : Type := {
  py_repr : pyval → string;
  str_upper : string → string;
  store : nat;
  build_firebird_image_flow : string → M Flow;
  build_pricing_flow : string → M Flow
}.

Section night_batch_flow.
Context `{Externals}.

(** [str(v)], as an f-string field formats [v]. *)
Definition py_str (v : pyval) : string :=
  match v with
  | VNone => "None"
  | VBool true => "True"
  | VBool false => "False"
  | VInt z => pretty z
  | VStr s => s
  | VList _ | VDict _ => py_repr v
  end.

(** [v.upper()]: only a str has the method. *)
Definition py_upper (v : pyval) : result string :=
  match v with
  | VStr s => Ok (str_upper s)
  | _ => Raise AttributeError
  end.

(** ** build_run_type_flow *)

Definition prepare_id (run_type : pyval) : string :=
  "prepare_" +:+ py_str run_type +:+ "_data".
Definition build_id (run_type version : pyval) : string :=
  "build_" +:+ py_str run_type +:+ "_" +:+ py_str version +:+ "_image".
Definition pricing_id (run_type version : pyval) : string :=
  "run_" +:+ py_str run_type +:+ "_" +:+ py_str version +:+ "_pricing".
Definition diff_id (run_type : pyval) : string :=
  "calculate_" +:+ py_str run_type +:+ "_diff".
Definition notify_id (run_type : pyval) : string :=
  "notify_" +:+ py_str run_type +:+ "_complete".

(** The body of [for library in libraries] (lines 38-62).  The loop state is
    the flow and the list [pricing_flow_tasks]; the list is also a cell of
    the frame, as [calculate_differences] reads it. *)
Definition library_step (env : nat) (run_type : pyval)
    (st : Flow * list string) (library : pyval) : M (Flow * list string) :=
  let! version := lift (py_get library "version" VNone) in
  do! set_cell env "version" version in
  let build_task_id := build_id run_type version in
  let pricing_task_id := pricing_id run_type version in
  let! up := lift (py_upper run_type) in
  let! flow := subflow st.1 build_task_id
                 ("Build " +:+ up +:+ " v" +:+ py_str version +:+ " Image")
                 library [prepare_id run_type]
                 (Closure Fn_build_library_image env) in
  let! up := lift (py_upper run_type) in
  let! flow := subflow flow pricing_task_id
                 ("Run " +:+ up +:+ " v" +:+ py_str version +:+ " Pricing")
                 VNone [build_task_id]
                 (Closure Fn_run_library_pricing env) in
  let pricing_flow_tasks := st.2 ++ [pricing_task_id] in
  do! set_cell env "pricing_flow_tasks" (VList (VStr <$> pricing_flow_tasks)) in
  ret (flow, pricing_flow_tasks).

Definition build_run_type_flow (params run_type : pyval) : M Flow :=
  let! env := new_frame {[ "params" := params; "run_type" := run_type ]} in
  let! flow := AsyncFlow (py_str run_type +:+ "_flow") store in
  let! up := lift (py_upper run_type) in
  let! flow := task flow (prepare_id run_type) ("Prepare " +:+ up +:+ " Data") []
                 (Closure Fn_prepare_data env) in
  let! libraries := lift (py_get params "libraries" (VList [])) in
  do! set_cell env "pricing_flow_tasks" (VList []) in
  let! items := lift (py_iter libraries) in
  let! st := for_each (library_step env run_type) items (flow, []) in
  let! up := lift (py_upper run_type) in
  let! flow := task st.1 (diff_id run_type)
                 ("Calculate " +:+ up +:+ " Differences") st.2
                 (Closure Fn_calculate_differences env) in
  let! up := lift (py_upper run_type) in
  let! flow := task flow (notify_id run_type)
                 ("Notify " +:+ up +:+ " Complete") [diff_id run_type]
                 (Closure Fn_notify_complete env) in
  ret flow.

(** ** build_night_batch_flow *)

Definition run_flow_id (run_type : pyval) : string :=
  "run_" +:+ py_str run_type +:+ "_flow".

(** The body of [for run_type_config in params.get("run_types", [])]
    (lines 111-123); [run_type_flow_tasks] is the second component. *)
Definition run_type_step (env : nat) (st : Flow * list string)
    (run_type_config : pyval) : M (Flow * list string) :=
  let! run_type := lift (py_get run_type_config "type" VNone) in
  do! set_cell env "run_type" run_type in
  let flow_task_id := run_flow_id run_type in
  let! up := lift (py_upper run_type) in
  let! flow := subflow st.1 flow_task_id ("Run " +:+ up +:+ " Flow") VNone
                 ["prepare_batch_data"]
                 (Closure Fn_execute_run_type_flow env) in
  ret (flow, st.2 ++ [flow_task_id]).

(** [params] is [None] when the argument is left out. *)
Definition build_night_batch_flow (arg : option pyval) : M Flow :=
  let params := default VNone arg in
  let! env := new_frame {[ "params" := params ]} in
  let! flow := AsyncFlow "Night Batch Flow" store in
  let! flow := task flow "prepare_batch_data" "Prepare Batch Data" []
                 (Closure Fn_prepare_batch_data env) in
  let! run_types := lift (py_get params "run_types" (VList [])) in
  let! items := lift (py_iter run_types) in
  let! st := for_each (run_type_step env) items (flow, []) in
  let! flow := task st.1 "notify_batch_complete" "Notify Batch Complete" st.2
                 (Closure Fn_notify_batch_complete env) in
  ret flow.

(** ** The registered callables *)

Definition prepare_data (env : nat) (ctx : Context) : M Context :=
  let! run_type := read_cell env "run_type" in
  let! ctx := log ("Preparing data for " +:+ py_str run_type) ctx in
  let! params := read_cell env "params" in
  let! libraries := lift (py_get params "libraries" (VList [])) in
  let! n := lift (py_len libraries) in
  let! libs := lift (py_iter libraries) in
  let! versions := lift (map_result (fun lib => py_get lib "version" VNone) libs) in
  let! ctx := log ("Found " +:+ pretty n +:+ " libraries to process: "
                   +:+ py_str (VList versions)) ctx in
  let! run_type := read_cell env "run_type" in
  push [("libraries", libraries); ("run_type", run_type)] ctx.

Definition build_library_image (env : nat) (ctx : Context) : M Flow :=
  let! run_type := read_cell env "run_type" in
  let! version := read_cell env "version" in
  let name := py_str run_type +:+ "_" +:+ py_str version in
  do! emit (EvCall (Call_build_firebird_image_flow name)) in
  build_firebird_image_flow name.

Definition run_library_pricing (env : nat) (ctx : Context) : M Flow :=
  let! run_type := read_cell env "run_type" in
  let! version := read_cell env "version" in
  let name := py_str run_type +:+ "_" +:+ py_str version +:+ "_pricing" in
  do! emit (EvCall (Call_build_pricing_flow name)) in
  build_pricing_flow name.

Definition calculate_differences (env : nat) (ctx : Context) : M Context :=
  let! run_type := read_cell env "run_type" in
  let! ctx := log ("Calculating differences for " +:+ py_str run_type) ctx in
  let! pricing_flow_tasks := read_cell env "pricing_flow_tasks" in
  let! n := lift (py_len pricing_flow_tasks) in
  log ("Comparing results from " +:+ pretty n +:+ " pricing flows") ctx.

Definition notify_complete (env : nat) (ctx : Context) : M Context :=
  let! run_type := read_cell env "run_type" in
  log ("Sending notification for " +:+ py_str run_type +:+ " completion") ctx.

Definition prepare_batch_data (env : nat) (ctx : Context) : M Context :=
  let! ctx := log "Preparing night batch data" ctx in
  let! params := read_cell env "params" in
  let! run_types := lift (py_get params "run_types" (VList [])) in
  let! params := read_cell env "params" in
  let! libraries := lift (py_get params "libraries" (VList [])) in
  let! rts := lift (py_iter run_types) in
  let! types := lift (map_result (fun rt => py_get rt "type" VNone) rts) in
  let! ctx := log ("Run types: " +:+ py_str (VList types)) ctx in
  let! libs := lift (py_iter libraries) in
  let! versions := lift (map_result (fun lib => py_get lib "version" VNone) libs) in
  let! ctx := log ("Libraries: " +:+ py_str (VList versions)) ctx in
  push [("run_types", run_types); ("libraries", libraries)] ctx.

Definition execute_run_type_flow (env : nat) (ctx : Context) : M Flow :=
  let! params := read_cell env "params" in
  let! run_type := read_cell env "run_type" in
  do! emit (EvCall (Call_build_run_type_flow params run_type)) in
  build_run_type_flow params run_type.

Definition notify_batch_complete (env : nat) (ctx : Context) : M Context :=
  let! ctx := log "Night batch processing complete" ctx in
  log "Sending final Symphony notification" ctx.

(** Calling a registered function object on the Context of the run: a task
    leaves the Context it has written to, a subflow also returns a Flow. *)
Definition invoke (fn : closure) (ctx : Context) : M (Context * option Flow) :=
  let as_task (m : M Context) : M (Context * option Flow) :=
    let! ctx' := m in ret (ctx', None) in
  let as_subflow (m : M Flow) : M (Context * option Flow) :=
    let! f := m in ret (ctx, Some f) in
  match fn_code fn with
  | Fn_prepare_data => as_task (prepare_data (fn_env fn) ctx)
  | Fn_build_library_image => as_subflow (build_library_image (fn_env fn) ctx)
  | Fn_run_library_pricing => as_subflow (run_library_pricing (fn_env fn) ctx)
  | Fn_calculate_differences => as_task (calculate_differences (fn_env fn) ctx)
  | Fn_notify_complete => as_task (notify_complete (fn_env fn) ctx)
  | Fn_prepare_batch_data => as_task (prepare_batch_data (fn_env fn) ctx)
  | Fn_execute_run_type_flow => as_subflow (execute_run_type_flow (fn_env fn) ctx)
  | Fn_notify_batch_complete => as_task (notify_batch_complete (fn_env fn) ctx)
  end.

Definition node_fn (n : Node) : closure :=
  match kind n with Task fn => fn | Subflow fn _ => fn end.

End night_batch_flow.

(** ** Properties of a flow and of a build *)

Definition is_registration (ev : event) : bool :=
  match ev with EvRegister _ _ => true | _ => false end.

(** A registration call that names a dependency which is not registered in
    the flow when the call is made. *)
Definition forward_reference (ev : event) : Prop :=
  match ev with
  | EvRegister registered n => ∃ d, d ∈ depends_on n ∧ d ∉ registered
  | _ => False
  end.

(** The events a computation adds to the trace when run from [w]. *)
Definition events_of {A} (m : M A) (w : world) : list event :=
  drop (length (trace w)) (trace (m w).2).

(** [depends f a b]: the node [a] of [f] lists [b] in its depends_on. *)
Definition depends (f : Flow) (a b : string) : Prop :=
  ∃ n, n ∈ flow_nodes f ∧ node_id n = a ∧ b ∈ depends_on n.

Definition deps_registered (f : Flow) : Prop :=
  ∀ n d, n ∈ flow_nodes f → d ∈ depends_on n → d ∈ node_ids f.

Definition acyclic (f : Flow) : Prop := ∀ a, ¬ tc (depends f) a a.

(** What two flows built from the same arguments have in common: the name,
    the store and, node by node, id, display name, depends_on and params. *)
Definition node_params (n : Node) : option pyval :=
  match kind n with Task _ => None | Subflow _ p => Some p end.

Definition node_shape (n : Node) : string * string * list string * option pyval :=
  (node_id n, display_name n, depends_on n, node_params n).

Definition flow_shape (f : Flow)
    : string * nat * list (string * string * list string * option pyval) :=
  (flow_name f, flow_store f, node_shape <$> flow_nodes f).

(** ** The executor

    Modelled from the spec: the scheduler of section 4.2, which is not part
    of the sources, as a transition relation on the status of the nodes.  A
    Pending node whose dependencies are all Succeeded becomes Ready, a Ready
    node is dispatched, a Running node succeeds or fails, and a failure
    skips every node that depends on the failed one, directly or not.  Any
    interleaving of these steps is a run. *)

Inductive status : Type :=
| Pending | Ready | Running | Succeeded | Failed | Skipped.

Definition run_state : Type := string → status.

Definition initial : run_state := fun _ => Pending.

Definition set_status (id : string) (s : status) (st : run_state) : run_state :=
  fun id' => if String.eqb id' id then s else st id'.

Definition deps_succeeded (st : run_state) (n : Node) : Prop :=
  ∀ d, d ∈ depends_on n → st d = Succeeded.

(** A node of the frontier: not started, every dependency Succeeded. *)
Definition eligible (f : Flow) (st : run_state) (id : string) : Prop :=
  ∃ n, n ∈ flow_nodes f ∧ node_id n = id ∧ st id = Pending ∧ deps_succeeded st n.

(** The node has been dispatched. *)
Definition started (st : run_state) (id : string) : Prop :=
  st id = Running ∨ st id = Succeeded ∨ st id = Failed.

Inductive step (f : Flow) : run_state → run_state → Prop :=
| step_ready st id :
    eligible f st id →
    step f st (set_status id Ready st)
| step_dispatch st id :
    st id = Ready →
    step f st (set_status id Running st)
| step_succeed st id :
    st id = Running →
    step f st (set_status id Succeeded st)
| step_fail st id skip :
    st id = Running →
    (∀ x, skip x = true ↔ tc (depends f) x id) →
    step f st (fun x => if String.eqb x id then Failed
                        else if skip x then Skipped else st x).

Definition reachable (f : Flow) (st : run_state) : Prop :=
  rtc (step f) initial st.

(** ** An instance of the imports, for running the model *)

Definition upper_ascii (c : Ascii.ascii) : Ascii.ascii :=
  let n := Ascii.nat_of_ascii c in
  if bool_decide (97 ≤ n ≤ 122)%nat then Ascii.ascii_of_nat (n - 32) else c.

Fixpoint upper_string (s : string) : string :=
  match s with
  | EmptyString => EmptyString
  | String c s' => String (upper_ascii c) (upper_string s')
  end.

Fixpoint join (sep : string) (l : list string) : string :=
  match l with
  | [] => ""
  | [x] => x
  | x :: l' => x +:+ sep +:+ join sep l'
  end.

Fixpoint quoted_repr (v : pyval) : string :=
  match v with
  | VNone => "None"
  | VBool true => "True"
  | VBool false => "False"
  | VInt z => pretty z
  | VStr s => "'" +:+ s +:+ "'"
  | VList l => "[" +:+ join ", " (map quoted_repr l) +:+ "]"
  | VDict d =>
      "{" +:+ join ", " (map (fun kv => "'" +:+ kv.1 +:+ "': " +:+ quoted_repr kv.2) d)
      +:+ "}"
  end.

(** Upper case of the ASCII letters, a repr that does not escape, the store
    at address 0 and image and pricing builders that return an empty flow. *)
Definition sample_externals : Externals := {|
  py_repr := quoted_repr;
  str_upper := upper_string;
  store := 0;
  build_firebird_image_flow := fun name => AsyncFlow name 0;
  build_pricing_flow := fun name => AsyncFlow name 0
|}.

Definition empty_world : world := mkWorld [] 0 [].
Definition empty_context : Context := mkContext ∅ [].

Definition library (version : pyval) : pyval := VDict [("version", version)].
Definition run_type_config (type : pyval) : pyval := VDict [("type", type)].

(** [{"libraries": [{"version": "1.0"}, {"version": "2.0"}],
      "run_types": [{"type": "ftb"}, {"type": "hpl"}]}] *)
Definition sample_params : pyval :=
  VDict [("libraries", VList [library (VStr "1.0"); library (VStr "2.0")]);
         ("run_types", VList [run_type_config (VStr "ftb");
                              run_type_config (VStr "hpl")])].

(** ** Invariants used in the proofs *)

(** A registration call all of whose dependencies are already registered. *)
Definition in_order (ev : event) : Prop :=
  match ev with
  | EvRegister registered n => ∀ d, d ∈ depends_on n → d ∈ registered
  | _ => False
  end.

(** Ids are unique and every node depends on nodes registered before it. *)
Definition ordered (nodes : list Node) : Prop :=
  NoDup (node_id <$> nodes) ∧
  ∀ i n d, nodes !! i = Some n → d ∈ depends_on n →
           d ∈ node_id <$> take i nodes.

(** The cell [x] of every existing frame keeps its value. *)
Definition keeps (x : string) (w w' : world) : Prop :=
  ∀ a fr, frames w !! a = Some fr →
          ∃ fr', frames w' !! a = Some fr' ∧ fr' !! x = fr !! x.

(** The trace grows by events that satisfy [good]; nothing is allocated. *)
Definition grows (good : event → Prop) (w w' : world) : Prop :=
  next_flow w' = next_flow w ∧
  length (frames w') = length (frames w) ∧
  ∃ evs, trace w' = trace w ++ evs ∧ Forall good evs.

(** The graph of a flow: each node id with its depends_on list, in
    registration order. *)
Definition edges (f : Flow) : list (string * list string) :=
  (fun n => (node_id n, depends_on n)) <$> flow_nodes f.

(** [[lib.get("version") for lib in libs]] *)
Definition versions_of (libs : list pyval) : result (list pyval) :=
  map_result (fun lib => py_get lib "version" VNone) libs.

(** [[cfg.get("type") for cfg in cfgs]] *)
Definition types_of (cfgs : list pyval) : result (list pyval) :=
  map_result (fun cfg => py_get cfg "type" VNone) cfgs.

(** The two nodes of a library of version [v] in the flow of run type [rt]. *)
Definition library_edges `{Externals} (rt v : pyval) : list (string * list string) :=
  [(build_id rt v, [prepare_id rt]); (pricing_id rt v, [build_id rt v])].

(** The graph of the flow of one run type as the spec describes it: the
    prepare node, per library version a build node after prepare and a
    pricing node after that build, the diff node after every pricing node,
    the notify node after diff. *)
Definition run_type_edges `{Externals} (rt : pyval) (versions : list pyval)
    : list (string * list string) :=
  (prepare_id rt, []) :: flat_map (library_edges rt) versions ++
  [(diff_id rt, pricing_id rt <$> versions); (notify_id rt, [diff_id rt])].

(** The graph of the night batch flow as its docstring describes it. *)
Definition night_batch_edges `{Externals} (types : list pyval)
    : list (string * list string) :=
  ("prepare_batch_data", []) ::
  ((fun t => (run_flow_id t, ["prepare_batch_data"])) <$> types) ++
  [("notify_batch_complete", run_flow_id <$> types)].

Definition active (s : status) : Prop :=
  s = Ready ∨ s = Running ∨ s = Succeeded ∨ s = Failed.

(** Every node that has left Pending without being skipped has all its
    dependencies Succeeded. *)
Definition run_inv (f : Flow) (st : run_state) : Prop :=
  ∀ n, n ∈ flow_nodes f → active (st (node_id n)) → deps_succeeded st n.

(** A computation relates the worlds by [R] whatever its outcome, and its
    result satisfies [Q] when there is one. *)
Definition spec {A} (R : world → world → Prop) (m : M A) (Q : A → Prop) : Prop :=
  ∀ w, R w (m w).2 ∧ ∀ a, (m w).1 = Ok a → Q a.

(** Between two points of a build, after the frame and the flow have been
    allocated: only registration calls in dependency order are made, and the
    cells [keys] of the frames are not assigned to. *)
Definition building (keys : list string) (w w' : world) : Prop :=
  grows in_order w w' ∧ ∀ x, x ∈ keys → keeps x w w'.

Definition snoc_node (f : Flow) (n : Node) : Flow :=
  mkFlow (flow_addr f) (flow_name f) (flow_store f) (flow_nodes f ++ [n]).

(** What holds of a flow under construction by a builder call whose frame
    is [env] and whose Flow object is [addr]: ids are unique, dependencies
    point backwards, every callable is a closure over [env], and [first] is
    the id of the node registered first, a task without dependencies. *)
Record under_construction (env addr st : nat) (first : string) (c : code)
    (f : Flow) : Prop := {
  uc_ordered : ordered (flow_nodes f);
  uc_addr : flow_addr f = addr;
  uc_store : flow_store f = st;
  uc_env : Forall (fun n => fn_env (node_fn n) = env) (flow_nodes f);
  uc_first : ∃ name, head (flow_nodes f) =
                     Some (mkNode first name [] (Task (Closure c env)))
}.

Definition run_type_loop_inv `{Externals} (env addr : nat) (run_type : pyval)
    (st : Flow * list string) : Prop :=
  under_construction env addr store (prepare_id run_type) Fn_prepare_data st.1 ∧
  ∀ t, t ∈ st.2 → t ∈ node_ids st.1.

Definition is_dict (v : pyval) : Prop := ∃ d, v = VDict d.
Definition is_str (v : pyval) : Prop := ∃ s, v = VStr s.

(** The outcome of a builder call from [w]: the frame [cells] and one Flow
    object have been allocated, the trace has grown by registration calls in
    dependency order, the cells [keys] of the new frame are as they were on
    entry, and the flow, when one is returned, satisfies [Q]. *)
Definition builder_outcome (cells : gmap string pyval) (keys : list string)
    (Q : Flow → Prop) (w : world) (r : result Flow * world) : Prop :=
  (∃ evs, trace r.2 = trace w ++ evs ∧ Forall in_order evs) ∧
  next_flow r.2 = S (next_flow w) ∧
  length (frames r.2) = S (length (frames w)) ∧
  (∃ fr, frames r.2 !! length (frames w) = Some fr ∧
         ∀ x, x ∈ keys → fr !! x = cells !! x) ∧
  ∀ f, r.1 = Ok f → Q f.

Definition run_type_flow_built `{Externals} (params run_type : pyval) (env addr : nat)
    (f : Flow) : Prop :=
  under_construction env addr store (prepare_id run_type) Fn_prepare_data f ∧
  is_dict params ∧ is_str run_type.

Definition night_batch_loop_inv `{Externals} (env addr : nat) (st : Flow * list string) : Prop :=
  under_construction env addr store "prepare_batch_data" Fn_prepare_batch_data
                     st.1 ∧
  ∀ t, t ∈ st.2 → t ∈ node_ids st.1.

Definition night_batch_flow_built `{Externals} (arg : option pyval) (env addr : nat)
    (f : Flow) : Prop :=
  under_construction env addr store "prepare_batch_data" Fn_prepare_batch_data f ∧
  ∃ params, arg = Some params ∧ is_dict params.

(** The callable registered under [id] by a build with outcome [r], called
    on an empty Context in the world the build has left: what it returns and
    the calls it makes. *)
Definition call_registered `{Externals} (id : string) (r : result Flow * world)
    : option (result (Context * option Flow) * list event) :=
  match r.1 with
  | Ok f =>
      match find_node id f with
      | Some n => Some ((invoke (node_fn n) empty_context r.2).1,
                        events_of (invoke (node_fn n) empty_context) r.2)
      | None => None
      end
  | Raise _ => None
  end.

Definition returned_flow_name (r : result (Context * option Flow)) : option string :=
  match r with
  | Ok (_, Some f) => Some (flow_name f)
  | _ => None
  end.

Definition same_outcome {A} (RA : A → A → Prop) (r1 r2 : result A) : Prop :=
  match r1, r2 with
  | Ok a, Ok b => RA a b
  | Raise e, Raise e' => e = e'
  | _, _ => False
  end.

(** From any two worlds, the two computations end alike: both raise the
    same exception or both return, with results related by [RA]. *)
Definition alike {A} (RA : A → A → Prop) (m1 m2 : M A) : Prop :=
  ∀ w1 w2, same_outcome RA (m1 w1).1 (m2 w2).1.

Definition same_shape (f1 f2 : Flow) : Prop := flow_shape f1 = flow_shape f2.

Definition any {A} (_ _ : A) : Prop := True.

Definition same_loop_state (s1 s2 : Flow * list string) : Prop :=
  same_shape s1.1 s2.1 ∧ s1.2 = s2.2.

(** The nodes of the flow of one run type, written out: [env] is the frame
    of the build, [s] the run type, [lib] a library dict and [v] its
    version. *)
Definition prepare_node `{Externals} (env : nat) (s : string) : Node :=
  mkNode (prepare_id (VStr s)) ("Prepare " +:+ str_upper s +:+ " Data") []
         (Task (Closure Fn_prepare_data env)).

Definition build_node `{Externals} (env : nat) (s : string) (lib v : pyval) : Node :=
  mkNode (build_id (VStr s) v)
         ("Build " +:+ str_upper s +:+ " v" +:+ py_str v +:+ " Image")
         [prepare_id (VStr s)]
         (Subflow (Closure Fn_build_library_image env) lib).

Definition pricing_node `{Externals} (env : nat) (s : string) (v : pyval) : Node :=
  mkNode (pricing_id (VStr s) v)
         ("Run " +:+ str_upper s +:+ " v" +:+ py_str v +:+ " Pricing")
         [build_id (VStr s) v]
         (Subflow (Closure Fn_run_library_pricing env) VNone).

Definition diff_node `{Externals} (env : nat) (s : string) (versions : list pyval) : Node :=
  mkNode (diff_id (VStr s)) ("Calculate " +:+ str_upper s +:+ " Differences")
         (pricing_id (VStr s) <$> versions)
         (Task (Closure Fn_calculate_differences env)).

Definition notify_node `{Externals} (env : nat) (s : string) : Node :=
  mkNode (notify_id (VStr s)) ("Notify " +:+ str_upper s +:+ " Complete")
         [diff_id (VStr s)]
         (Task (Closure Fn_notify_complete env)).

Definition library_nodes `{Externals} (env : nat) (s : string) (lv : pyval * pyval) : list Node :=
  [build_node env s lv.1 lv.2; pricing_node env s lv.2].

Definition run_type_nodes `{Externals} (env : nat) (s : string) (libs versions : list pyval)
    : list Node :=
  prepare_node env s :: flat_map (library_nodes env s) (zip libs versions) ++
  [diff_node env s versions; notify_node env s].

Definition with_nodes (f : Flow) (nodes : list Node) : Flow :=
  mkFlow (flow_addr f) (flow_name f) (flow_store f) nodes.

(** The frame [fr'] is the frame [fr] after the loop over the libraries:
    [version] holds the version of the last library and
    [pricing_flow_tasks] the list [tasks], when there is a library; the
    other cells are untouched. *)
Definition frame_after_loop (x : string) (last_value : option pyval)
    (tasks : list string) (cell : string) (fr fr' : gmap string pyval) : Prop :=
  (∀ y, y ≠ x → y ≠ cell → fr' !! y = fr !! y) ∧
  match last_value with
  | Some v => fr' !! x = Some v ∧
              (cell ≠ x → fr' !! cell = Some (VList (VStr <$> tasks)))
  | None => fr' = fr
  end.

(** The frame that a build of the flow of run type [s] has left. *)
Record run_type_frame `{Externals} (d : list (string * pyval)) (s : string)
    (versions : list pyval) (fr : gmap string pyval) : Prop := {
  rtf_params : fr !! "params" = Some (VDict d);
  rtf_run_type : fr !! "run_type" = Some (VStr s);
  rtf_tasks : fr !! "pricing_flow_tasks" =
              Some (VList (VStr <$> (pricing_id (VStr s) <$> versions)));
  rtf_version : fr !! "version" = last versions
}.


Definition calculate_differences_logs (s : string) (n : nat) : list string :=
  ["Calculating differences for " +:+ s;
   "Comparing results from " +:+ pretty n +:+ " pricing flows"].

(** The nodes of the night batch flow, written out: [env] is the frame of
    the build and [ts] the run types. *)
Definition prepare_batch_node (env : nat) : Node :=
  mkNode "prepare_batch_data" "Prepare Batch Data" []
         (Task (Closure Fn_prepare_batch_data env)).

Definition run_flow_node `{Externals} (env : nat) (t : string) : Node :=
  mkNode (run_flow_id (VStr t)) ("Run " +:+ str_upper t +:+ " Flow")
         ["prepare_batch_data"]
         (Subflow (Closure Fn_execute_run_type_flow env) VNone).

Definition notify_batch_node `{Externals} (env : nat) (ts : list string) : Node :=
  mkNode "notify_batch_complete" "Notify Batch Complete"
         (run_flow_id <$> (VStr <$> ts))
         (Task (Closure Fn_notify_batch_complete env)).

Definition night_batch_nodes `{Externals} (env : nat) (ts : list string) : list Node :=
  prepare_batch_node env :: (run_flow_node env <$> ts) ++
  [notify_batch_node env ts].

Definition prepare_batch_data_logs `{Externals} (types versions : list pyval) : list string :=
  ["Preparing night batch data";
   "Run types: " +:+ py_str (VList types);
   "Libraries: " +:+ py_str (VList versions)].

(** The flow [build_run_type_flow] returns for [sample_params] and "ftb",
    and the world it leaves. *)
Definition sample_flow : Flow :=
  mkFlow 0 "ftb_flow" 0
    (run_type_nodes (H:=sample_externals) 0 "ftb"
       [library (VStr "1.0"); library (VStr "2.0")] [VStr "1.0"; VStr "2.0"]).

Definition sample_world : world :=
  (build_run_type_flow (H:=sample_externals) sample_params (VStr "ftb") empty_world).2.

(** The flow [build_night_batch_flow] returns for [sample_params], and the
    world it leaves. *)
Definition sample_night_flow : Flow :=
  mkFlow 0 "Night Batch Flow" 0
    (night_batch_nodes (H:=sample_externals) 0 ["ftb"; "hpl"]).

Definition sample_night_world : world :=
  (build_night_batch_flow (H:=sample_externals) (Some sample_params) empty_world).2.

(** [{"run_types": [{"type": "ftb"}], "libraries": 5}]: a flow is built, and
    prepare_batch_data raises when it is run. *)
Definition unchecked_params : pyval :=
  VDict [("run_types", VList [run_type_config (VStr "ftb")]); ("libraries", VInt 5)].

(** * Proofs *)

Section monad_lemmas.
Context {S A : Type}.

Lemma for_each_app (body : S → A → M S) (l1 l2 : list A) (s : S) (w : world) :
  for_each body (l1 ++ l2) s w =
  bind (for_each body l1 s) (for_each body l2) w.
Proof.
  revert s w. induction l1 as [|x l1 IH]; intros s w; simpl.
  - reflexivity.
  - unfold bind. destruct (body s x w) as [[s'|e] w1]; [|reflexivity].
    rewrite IH. reflexivity.
Qed.

Lemma for_each_invariant (I : S → Prop) (R : world → world → Prop)
    (body : S → A → M S) :
  Reflexive R → Transitive R →
  (∀ s x w, I s → R w (body s x w).2 ∧
                  ∀ s', (body s x w).1 = Ok s' → I s') →
  ∀ items s w, I s →
    R w (for_each body items s w).2 ∧
    ∀ s', (for_each body items s w).1 = Ok s' → I s'.
Proof.
  intros HR HT Hbody items. induction items as [|x items IH]; intros s w Hs.
  - simpl. split; [reflexivity|]. intros s' [= <-]. exact Hs.
  - simpl. unfold bind. destruct (Hbody s x w Hs) as [Hw Hok].
    destruct (body s x w) as [[s1|e] w1]; simpl in *.
    + destruct (IH s1 w1 (Hok s1 eq_refl)) as [Hw' Hok'].
      split; [etrans; eassumption | exact Hok'].
    + split; [exact Hw | intros s' [=]].
Qed.

End monad_lemmas.

Lemma bind_ok {A B} (m : M A) (k : A → M B) w b w' :
  bind m k w = (Ok b, w') ↔ ∃ a w1, m w = (Ok a, w1) ∧ k a w1 = (Ok b, w').
Proof.
  unfold bind. destruct (m w) as [[a|e] w1]; split.
  - intros Hk. exists a, w1. auto.
  - intros (a' & w2 & [= <- <-] & Hk). exact Hk.
  - intros [=].
  - intros (a' & w2 & [=] & _).
Qed.

#[local] Instance grows_refl good : Reflexive (grows good).
Proof. intros w. repeat split. exists []. rewrite app_nil_r. auto. Qed.

#[local] Instance grows_trans good : Transitive (grows good).
Proof.
  intros w1 w2 w3 (Hn & Hl & evs & Ht & Hg) (Hn' & Hl' & evs' & Ht' & Hg').
  repeat split; [congruence..|].
  exists (evs ++ evs'). rewrite Ht', Ht, app_assoc. split; [done|].
  apply Forall_app; auto.
Qed.

#[local] Instance keeps_refl x : Reflexive (keeps x).
Proof. intros w a fr Hfr. eauto. Qed.

#[local] Instance keeps_trans x : Transitive (keeps x).
Proof.
  intros w1 w2 w3 H12 H23 a fr Hfr.
  destruct (H12 a fr Hfr) as (fr2 & Hfr2 & E2).
  destruct (H23 a fr2 Hfr2) as (fr3 & Hfr3 & E3).
  exists fr3. split; [done | congruence].
Qed.

Lemma grows_mono (good good' : event → Prop) w w' :
  (∀ ev, good ev → good' ev) → grows good w w' → grows good' w w'.
Proof.
  intros Hi (Hn & Hl & evs & Ht & Hg). repeat split; [done..|].
  exists evs. split; [done|]. eapply Forall_impl; eauto.
Qed.

Lemma grows_events_of {A} good (m : M A) w :
  grows good w (m w).2 → Forall good (events_of m w).
Proof.
  intros (_ & _ & evs & Ht & Hg). unfold events_of.
  rewrite Ht, drop_app_length. exact Hg.
Qed.

Section spec_rules.
Context (R : world → world → Prop) `{!Reflexive R, !Transitive R}.

Lemma spec_ret {A} (a : A) (Q : A → Prop) : Q a → spec R (ret a) Q.
Proof. intros Ha w. simpl. split; [reflexivity|]. intros a' [= <-]. exact Ha. Qed.

Lemma spec_lift {A} (r : result A) (Q : A → Prop) :
  (∀ a, r = Ok a → Q a) → spec R (lift r) Q.
Proof. intros Hr w. simpl. split; [reflexivity | exact Hr]. Qed.

Lemma spec_bind {A B} (m : M A) (k : A → M B) (Q1 : A → Prop) (Q2 : B → Prop) :
  spec R m Q1 → (∀ a, Q1 a → spec R (k a) Q2) → spec R (bind m k) Q2.
Proof.
  intros Hm Hk w. unfold bind. destruct (Hm w) as [Hw Hok].
  destruct (m w) as [[a|e] w1]; simpl in *.
  - destruct (Hk a (Hok a eq_refl) w1) as [Hw' Hok'].
    split; [etrans; eassumption | exact Hok'].
  - split; [exact Hw | intros b [=]].
Qed.

Lemma spec_for_each {S A} (I : S → Prop) (body : S → A → M S) :
  (∀ s x, I s → spec R (body s x) I) →
  ∀ items s, I s → spec R (for_each body items s) I.
Proof.
  intros Hbody items s Hs w.
  apply (for_each_invariant I R body); try assumption.
  intros s0 x w0 Hs0. apply Hbody, Hs0.
Qed.

Lemma spec_weaken {A} (m : M A) (Q Q' : A → Prop) :
  spec R m Q → (∀ a, Q a → Q' a) → spec R m Q'.
Proof. intros Hm HQ w. destruct (Hm w) as [Hw Hok]. split; [done|]. eauto. Qed.

End spec_rules.

(** *** Registration *)

Lemma register_ok n f f' :
  register n f = Ok f' →
  (node_id n ∉ node_ids f) ∧
  f' = mkFlow (flow_addr f) (flow_name f) (flow_store f) (flow_nodes f ++ [n]).
Proof.
  unfold register. case_bool_decide as Hin; [intros [=]|].
  intros [= <-]. auto.
Qed.

Lemma register_raise n f e :
  register n f = Raise e →
  node_id n ∈ node_ids f ∧ e = DuplicateNodeError (node_id n).
Proof.
  unfold register. case_bool_decide as Hin; [|intros [=]].
  intros [= <-]. auto.
Qed.

Lemma register_fresh n f :
  node_id n ∉ node_ids f →
  register n f =
  Ok (mkFlow (flow_addr f) (flow_name f) (flow_store f) (flow_nodes f ++ [n])).
Proof. intros Hn. unfold register. rewrite bool_decide_eq_false_2; done. Qed.

Lemma ordered_nil : ordered [].
Proof. split; [constructor|]. intros i n d Hi. done. Qed.

Lemma ordered_snoc nodes n :
  ordered nodes →
  node_id n ∉ node_id <$> nodes →
  (∀ d, d ∈ depends_on n → d ∈ node_id <$> nodes) →
  ordered (nodes ++ [n]).
Proof.
  intros [Hnd Hdeps] Hfresh Hn. split.
  - rewrite fmap_app. apply NoDup_app. repeat split; [done| |].
    + intros x Hx Hx'. apply list_elem_of_singleton in Hx'. by subst.
    + apply NoDup_singleton.
  - intros i m d Hi Hd.
    destruct (decide (i < length nodes)) as [Hlt|Hge].
    + rewrite lookup_app_l in Hi by done.
      rewrite take_app_le by lia. eauto.
    + rewrite lookup_app_r in Hi by lia.
      apply list_lookup_singleton_Some in Hi as [Hi <-].
      replace i with (length nodes) by lia.
      rewrite take_app_length. auto.
Qed.

(** *** The world during a build *)

#[local] Instance building_refl keys : Reflexive (building keys).
Proof. intros w. split; [reflexivity|]. intros x _. reflexivity. Qed.

#[local] Instance building_trans keys : Transitive (building keys).
Proof.
  intros w1 w2 w3 [Hg Hk] [Hg' Hk']. split; [etrans; eassumption|].
  intros x Hx. etrans; eauto.
Qed.

Lemma spec_emit keys ev :
  in_order ev → spec (building keys) (emit ev) (fun _ => True).
Proof.
  intros Hev w. split; [|done]. split.
  - repeat split. exists [ev]. split; [done|]. by constructor.
  - intros x _ a fr Hfr. eauto.
Qed.

Lemma spec_set_cell keys env x v :
  x ∉ keys → spec (building keys) (set_cell env x v) (fun _ => True).
Proof.
  intros Hx w. split; [|done]. split.
  - repeat split; simpl.
    + by rewrite length_alter.
    + exists []. by rewrite app_nil_r.
  - intros y Hy a fr Hfr. simpl.
    destruct (decide (a = env)) as [->|Hne].
    + exists (<[x:=v]> fr). split.
      * by rewrite list_lookup_alter_eq, Hfr.
      * apply lookup_insert_ne. intros ->. contradiction.
    + exists fr. by rewrite list_lookup_alter_ne.
Qed.

Lemma spec_register keys f n :
  (∀ d, d ∈ depends_on n → d ∈ node_ids f) →
  spec (building keys)
       (do! emit (EvRegister (node_ids f) n) in lift (register n f))
       (fun f' => f' = snoc_node f n ∧ node_id n ∉ node_ids f).
Proof.
  intros Hdeps. eapply spec_bind; [apply _| |].
  - apply spec_emit. exact Hdeps.
  - intros _ _. apply spec_lift; [apply _|].
    intros f' Hf'. apply register_ok in Hf' as [? ->]. done.
Qed.

Lemma spec_task keys f id name deps fn :
  (∀ d, d ∈ deps → d ∈ node_ids f) →
  spec (building keys) (task f id name deps fn)
       (fun f' => f' = snoc_node f (mkNode id name deps (Task fn)) ∧
                  id ∉ node_ids f).
Proof. intros Hdeps. apply (spec_register keys f (mkNode _ _ _ _)), Hdeps. Qed.

Lemma spec_subflow keys f id name params deps fn :
  (∀ d, d ∈ deps → d ∈ node_ids f) →
  spec (building keys) (subflow f id name params deps fn)
       (fun f' => f' = snoc_node f (mkNode id name deps (Subflow fn params)) ∧
                  id ∉ node_ids f).
Proof. intros Hdeps. apply (spec_register keys f (mkNode _ _ _ _)), Hdeps. Qed.

Lemma node_ids_snoc f n : node_ids (snoc_node f n) = node_ids f ++ [node_id n].
Proof. unfold node_ids. simpl. by rewrite fmap_app. Qed.

Lemma under_construction_snoc env addr st first c f n :
  under_construction env addr st first c f →
  node_id n ∉ node_ids f →
  (∀ d, d ∈ depends_on n → d ∈ node_ids f) →
  fn_env (node_fn n) = env →
  under_construction env addr st first c (snoc_node f n).
Proof.
  intros [Ho Ha Hs He [name Hf]] Hfresh Hdeps Hn. split; simpl; try done.
  - by apply ordered_snoc.
  - apply Forall_app. split; [done|]. by constructor.
  - exists name. destruct (flow_nodes f); [done|]. exact Hf.
Qed.

Lemma under_construction_first env addr st first c f :
  under_construction env addr st first c f → first ∈ node_ids f.
Proof.
  intros [_ _ _ _ [name Hf]]. unfold node_ids.
  destruct (flow_nodes f) as [|n l]; [done|].
  injection Hf as ->. simpl. left.
Qed.

Section builders.
Context `{Externals}.

(** *** build_run_type_flow: what every run of it satisfies *)

Ltac spec_step :=
  eapply spec_bind; [apply _| |].

Ltac spec_pure :=
  apply spec_lift; [apply _|]; intros ? _; exact I.

Ltac not_a_key :=
  rewrite !not_elem_of_cons; repeat split; try done; apply not_elem_of_nil.

Lemma library_step_spec env addr run_type st lib :
  run_type_loop_inv env addr run_type st →
  spec (building ["params"; "run_type"]) (library_step env run_type st lib)
       (run_type_loop_inv env addr run_type).
Proof.
  intros [Huc Htasks]. unfold library_step.
  spec_step; [spec_pure|]. intros version _.
  spec_step; [apply spec_set_cell; not_a_key|]. intros _ _.
  spec_step; [spec_pure|]. intros up _.
  spec_step.
  { apply spec_subflow. intros d Hd. apply list_elem_of_singleton in Hd as ->.
    eapply under_construction_first, Huc. }
  intros flow [-> Hfresh]. simpl in Hfresh.
  spec_step; [spec_pure|]. intros up' _.
  spec_step.
  { apply spec_subflow. intros d Hd. apply list_elem_of_singleton in Hd as ->.
    rewrite node_ids_snoc. apply elem_of_app. right. left. }
  intros flow' [-> Hfresh']. simpl in Hfresh'.
  spec_step; [apply spec_set_cell; not_a_key|]. intros _ _.
  apply spec_ret; [apply _|]. split; simpl.
  - apply under_construction_snoc; [apply under_construction_snoc| | |];
      try done; simpl.
    + intros d Hd. apply list_elem_of_singleton in Hd as ->.
      eapply under_construction_first, Huc.
    + intros d Hd. apply list_elem_of_singleton in Hd as ->.
      rewrite node_ids_snoc. apply elem_of_app. right. left.
  - intros t Ht. rewrite !node_ids_snoc. simpl.
    apply elem_of_app in Ht as [Ht|Ht].
    + apply elem_of_app. left. apply elem_of_app. left. auto.
    + apply elem_of_app. right. exact Ht.
Qed.

Lemma py_get_ok o k dflt v : py_get o k dflt = Ok v → is_dict o.
Proof. destruct o; try discriminate. intros _. by eexists. Qed.

Lemma py_upper_ok v s : py_upper v = Ok s → is_str v.
Proof. destruct v; try discriminate. intros _. by eexists. Qed.

Lemma bind_new_frame {A} cells (k : nat → M A) w :
  bind (new_frame cells) k w =
  k (length (frames w)) (mkWorld (frames w ++ [cells]) (next_flow w) (trace w)).
Proof. reflexivity. Qed.

Lemma bind_AsyncFlow {A} name st (k : Flow → M A) w :
  bind (AsyncFlow name st) k w =
  k (mkFlow (next_flow w) name st [])
    (mkWorld (frames w) (S (next_flow w)) (trace w)).
Proof. reflexivity. Qed.

Lemma builder_outcome_intro cells keys Q w (m : M Flow) :
  spec (building keys) m Q →
  builder_outcome cells keys Q w
    (m (mkWorld (frames w ++ [cells]) (S (next_flow w)) (trace w))).
Proof.
  intros Hm.
  destruct (Hm (mkWorld (frames w ++ [cells]) (S (next_flow w)) (trace w)))
    as [[(Hn & Hl & Hev) Hkeep] Hok]. simpl in *.
  repeat split; try done.
  - rewrite Hl, length_app. simpl. lia.
  - assert (Hc : (frames w ++ [cells]) !! length (frames w) = Some cells).
    { rewrite lookup_app_r by lia. by rewrite Nat.sub_diag. }
    destruct keys as [|k0 keys'].
    + assert (Hlt : length (frames w) < length (frames (m (mkWorld (frames w ++ [cells]) (S (next_flow w)) (trace w))).2)).
      { rewrite Hl, length_app. simpl. lia. }
      apply lookup_lt_is_Some in Hlt as [fr Hfr]. exists fr. split; [done|].
      intros x Hx. by apply elem_of_nil in Hx.
    + destruct (Hkeep k0 (list_elem_of_here _ _) _ _ Hc) as (fr & Hfr & _).
      exists fr. split; [done|]. intros x Hx.
      destruct (Hkeep x Hx _ _ Hc) as (fr' & Hfr' & Hx'). congruence.
Qed.

Lemma build_run_type_flow_outcome params run_type w :
  builder_outcome {[ "params" := params; "run_type" := run_type ]}
    ["params"; "run_type"]
    (run_type_flow_built params run_type (length (frames w)) (next_flow w))
    w (build_run_type_flow params run_type w).
Proof.
  unfold build_run_type_flow. rewrite bind_new_frame, bind_AsyncFlow.
  cbn [frames next_flow trace]. apply builder_outcome_intro.
  set (env := length (frames w)). set (addr := next_flow w).
  eapply spec_bind with (Q1 := fun _ => is_str run_type); [apply _| |].
  { apply spec_lift; [apply _|]. intros up Hup. eapply py_upper_ok, Hup. }
  intros up Hstr.
  spec_step; [apply spec_task; intros d Hd; by apply elem_of_nil in Hd|].
  intros flow [-> _].
  eapply spec_bind with (Q1 := fun _ => is_dict params); [apply _| |].
  { apply spec_lift; [apply _|]. intros v Hv. eapply py_get_ok, Hv. }
  intros libraries Hdict.
  spec_step; [apply spec_set_cell; not_a_key|]. intros _ _.
  spec_step; [spec_pure|]. intros items _.
  spec_step.
  { apply (spec_for_each _ (run_type_loop_inv env addr run_type)).
    - intros st lib Hst. by apply library_step_spec.
    - split; [|intros t Ht; by apply elem_of_nil in Ht].
      split; simpl; try done.
      + apply (ordered_snoc []); [apply ordered_nil| |]; simpl.
        * apply not_elem_of_nil.
        * intros d Hd. by apply elem_of_nil in Hd.
      + by repeat constructor.
      + by eexists. }
  intros st [Huc Htasks].
  spec_step; [spec_pure|]. intros up1 _.
  spec_step; [apply spec_task, Htasks|].
  intros flow1 [-> Hfresh].
  spec_step; [spec_pure|]. intros up2 _.
  spec_step.
  { apply spec_task. intros d Hd. apply list_elem_of_singleton in Hd as ->.
    rewrite node_ids_snoc. apply elem_of_app. right. left. }
  intros flow2 [-> Hfresh2].
  apply spec_ret; [apply _|]. split; [|done].
  apply under_construction_snoc; [apply under_construction_snoc| | |];
    try done; simpl.
  intros d Hd. apply list_elem_of_singleton in Hd as ->.
  rewrite node_ids_snoc. apply elem_of_app. right. left.
Qed.

(** *** build_night_batch_flow: what every run of it satisfies *)

Lemma run_type_step_spec env addr st cfg :
  night_batch_loop_inv env addr st →
  spec (building ["params"]) (run_type_step env st cfg)
       (night_batch_loop_inv env addr).
Proof.
  intros [Huc Htasks]. unfold run_type_step.
  spec_step; [spec_pure|]. intros run_type _.
  spec_step; [apply spec_set_cell; not_a_key|]. intros _ _.
  spec_step; [spec_pure|]. intros up _.
  spec_step.
  { apply spec_subflow. intros d Hd. apply list_elem_of_singleton in Hd as ->.
    eapply under_construction_first, Huc. }
  intros flow [-> Hfresh].
  apply spec_ret; [apply _|]. split; simpl.
  - apply under_construction_snoc; try done; simpl.
    intros d Hd. apply list_elem_of_singleton in Hd as ->.
    eapply under_construction_first, Huc.
  - intros t Ht. rewrite node_ids_snoc. simpl.
    apply elem_of_app in Ht as [Ht|Ht].
    + apply elem_of_app. left. auto.
    + apply elem_of_app. right. exact Ht.
Qed.

Lemma build_night_batch_flow_outcome arg w :
  builder_outcome {[ "params" := default VNone arg ]} ["params"]
    (night_batch_flow_built arg (length (frames w)) (next_flow w))
    w (build_night_batch_flow arg w).
Proof.
  unfold build_night_batch_flow. cbv zeta.
  rewrite bind_new_frame, bind_AsyncFlow.
  cbn [frames next_flow trace]. apply builder_outcome_intro.
  set (env := length (frames w)). set (addr := next_flow w).
  spec_step; [apply spec_task; intros d Hd; by apply elem_of_nil in Hd|].
  intros flow [-> _].
  eapply spec_bind with (Q1 := fun _ => is_dict (default VNone arg));
    [apply _| |].
  { apply spec_lift; [apply _|]. intros v Hv. eapply py_get_ok, Hv. }
  intros run_types Hdict.
  spec_step; [spec_pure|]. intros items _.
  spec_step.
  { apply (spec_for_each _ (night_batch_loop_inv env addr)).
    - intros st cfg Hst. by apply run_type_step_spec.
    - split; [|intros t Ht; by apply elem_of_nil in Ht].
      split; simpl; try done.
      + apply (ordered_snoc []); [apply ordered_nil| |]; simpl.
        * apply not_elem_of_nil.
        * intros d Hd. by apply elem_of_nil in Hd.
      + by repeat constructor.
      + by eexists. }
  intros st [Huc Htasks].
  spec_step; [apply spec_task, Htasks|].
  intros flow1 [-> Hfresh].
  apply spec_ret; [apply _|]. split.
  - apply under_construction_snoc; try done.
  - destruct arg as [params|]; simpl in Hdict.
    + by exists params.
    + destruct Hdict as [d [=]].
Qed.

End builders.

(** *** Ordered node lists are well-formed dependency graphs *)

Lemma ordered_deps_registered f : ordered (flow_nodes f) → deps_registered f.
Proof.
  intros [_ Hdeps] n d Hn Hd.
  apply list_elem_of_lookup in Hn as [i Hi].
  specialize (Hdeps i n d Hi Hd). unfold node_ids.
  rewrite fmap_take in Hdeps. eapply subseteq_take, Hdeps.
Qed.

Lemma ordered_depends_earlier f a b i :
  ordered (flow_nodes f) → depends f a b → node_ids f !! i = Some a →
  ∃ j, j < i ∧ node_ids f !! j = Some b.
Proof.
  intros [Hnd Hdeps] (n & Hn & <- & Hb) Hi.
  apply list_elem_of_lookup in Hn as [i' Hi'].
  assert (i' = i) as ->.
  { eapply NoDup_lookup; [exact Hnd| |exact Hi].
    by rewrite list_lookup_fmap, Hi'. }
  specialize (Hdeps i n b Hi' Hb).
  apply list_elem_of_lookup in Hdeps as [j Hj].
  assert (Hlt : j < i).
  { apply lookup_lt_Some in Hj. rewrite length_fmap, length_take in Hj. lia. }
  exists j. split; [done|]. unfold node_ids.
  rewrite fmap_take, lookup_take_lt in Hj by done. exact Hj.
Qed.

Lemma ordered_tc_earlier f a b :
  ordered (flow_nodes f) → tc (depends f) a b →
  ∀ i, node_ids f !! i = Some a → ∃ j, j < i ∧ node_ids f !! j = Some b.
Proof.
  intros Hord Htc. induction Htc as [a b Hab|a c b Hac _ IH]; intros i Hi.
  - eapply ordered_depends_earlier; eauto.
  - destruct (ordered_depends_earlier f a c i Hord Hac Hi) as (j & Hj & Hc).
    destruct (IH j Hc) as (k & Hk & Hb). exists k. split; [lia|done].
Qed.

Lemma ordered_acyclic f : ordered (flow_nodes f) → acyclic f.
Proof.
  intros Hord a Htc.
  assert (Ha : a ∈ node_ids f).
  { inversion Htc as [? ? (n & Hn & <- & _)|? ? ? (n & Hn & <- & _)]; subst;
      unfold node_ids; apply list_elem_of_fmap; eauto. }
  apply list_elem_of_lookup in Ha as [i Hi].
  destruct (ordered_tc_earlier f a a Hord Htc i Hi) as (j & Hj & Hj').
  destruct Hord as [Hnd _].
  assert (i = j) by (eapply NoDup_lookup; eauto). lia.
Qed.

(** *** The events of a build *)

Lemma builder_outcome_events cells keys Q w (m : M Flow) :
  builder_outcome cells keys Q w (m w) →
  trace (m w).2 = trace w ++ events_of m w ∧ Forall in_order (events_of m w).
Proof.
  intros ((evs & Ht & Hev) & _). unfold events_of.
  rewrite Ht, drop_app_length. done.
Qed.

Lemma in_order_registration ev : in_order ev → is_registration ev = true.
Proof. by destruct ev. Qed.

Lemma in_order_not_forward ev : in_order ev → ¬ forward_reference ev.
Proof.
  destruct ev as [registered n| | |]; try done.
  intros Hin (d & Hd & Hnot). auto.
Qed.

Lemma build_events_in_order `{Externals} params run_type arg w ev :
  ev ∈ events_of (build_run_type_flow params run_type) w ∨
  ev ∈ events_of (build_night_batch_flow arg) w →
  in_order ev.
Proof.
  intros [Hev|Hev].
  - pose proof (build_run_type_flow_outcome params run_type w) as Ho.
    apply builder_outcome_events in Ho as [_ Ho].
    rewrite Forall_forall in Ho. auto.
  - pose proof (build_night_batch_flow_outcome arg w) as Ho.
    apply builder_outcome_events in Ho as [_ Ho].
    rewrite Forall_forall in Ho. auto.
Qed.

(** * The claims *)

(** C3. Flow invariant of the built graphs: in a Flow returned by
    [build_run_type_flow] or by [build_night_batch_flow], whatever the
    arguments, every id in a node's depends_on is the id of a node of that
    Flow, and the dependency relation has no cycle. *)
Theorem built_flow_invariant `{Externals} params run_type arg w f :
  (build_run_type_flow params run_type w).1 = Ok f ∨
  (build_night_batch_flow arg w).1 = Ok f →
  deps_registered f ∧ acyclic f.
Proof.
  intros Hf.
  assert (Hord : ordered (flow_nodes f)).
  { destruct Hf as [Hf|Hf].
    - destruct (build_run_type_flow_outcome params run_type w)
        as (_ & _ & _ & _ & Hok).
      destruct (Hok f Hf) as [[Hord] _]. exact Hord.
    - destruct (build_night_batch_flow_outcome arg w)
        as (_ & _ & _ & _ & Hok).
      destruct (Hok f Hf) as [[Hord] _]. exact Hord. }
  split; [by apply ordered_deps_registered | by apply ordered_acyclic].
Qed.

Lemma built_flow_invariant_witness :
  ∃ f g,
    (build_run_type_flow (H:=sample_externals) sample_params (VStr "ftb")
       empty_world).1 = Ok f ∧
    (build_night_batch_flow (H:=sample_externals) (Some sample_params)
       empty_world).1 = Ok g ∧
    (deps_registered f ∧ acyclic f) ∧ (deps_registered g ∧ acyclic g).
Proof.
  eexists. eexists.
  split; [vm_compute; reflexivity|]. split; [vm_compute; reflexivity|].
  split.
  - apply (built_flow_invariant (H:=sample_externals) sample_params
             (VStr "ftb") None empty_world).
    left. vm_compute. reflexivity.
  - apply (built_flow_invariant (H:=sample_externals) VNone VNone
             (Some sample_params) empty_world).
    right. vm_compute. reflexivity.
Defined.

(** C4, as amended.  Every registration call that a build makes (the ones
    of a build that fails included) names in its depends_on only ids that
    are registered in the Flow when the call is made: the builders register
    their nodes in dependency order. *)
Theorem registrations_in_dependency_order `{Externals} params run_type arg w ev :
  ev ∈ events_of (build_run_type_flow params run_type) w ∨
  ev ∈ events_of (build_night_batch_flow arg) w →
  ∃ registered n,
    ev = EvRegister registered n ∧
    ∀ d, d ∈ depends_on n → d ∈ registered.
Proof.
  intros Hev. apply build_events_in_order in Hev.
  destruct ev as [registered n| | |]; try done. eauto.
Qed.

Lemma registrations_in_dependency_order_witness :
  let n := mkNode "calculate_ftb_diff" "Calculate FTB Differences"
             ["run_ftb_1.0_pricing"; "run_ftb_2.0_pricing"]
             (Task (Closure Fn_calculate_differences 0)) in
  let ev := EvRegister ["prepare_ftb_data"; "build_ftb_1.0_image";
                        "run_ftb_1.0_pricing"; "build_ftb_2.0_image";
                        "run_ftb_2.0_pricing"] n in
  ev ∈ events_of (build_run_type_flow (H:=sample_externals) sample_params
                    (VStr "ftb")) empty_world ∧
  ∃ registered n',
    ev = EvRegister registered n' ∧
    ∀ d, d ∈ depends_on n' → d ∈ registered.
Proof.
  intros n ev.
  assert (Hev : ev ∈ events_of (build_run_type_flow (H:=sample_externals)
                                  sample_params (VStr "ftb")) empty_world).
  { vm_compute. do 5 right. left. }
  split; [exact Hev|].
  apply (registrations_in_dependency_order (H:=sample_externals) sample_params
           (VStr "ftb") None empty_world ev).
  left. exact Hev.
Defined.

(** C4, as stated, does not hold: no build makes a registration call with a
    forward reference. *)
Lemma no_forward_reference :
  ¬ ∃ (H : Externals) params run_type arg w ev,
      (ev ∈ events_of (build_run_type_flow params run_type) w ∨
       ev ∈ events_of (build_night_batch_flow arg) w) ∧
      forward_reference ev.
Proof.
  intros (H & params & run_type & arg & w & ev & Hev & Hfwd).
  apply build_events_in_order in Hev.
  by apply in_order_not_forward in Hev.
Qed.

(** C6. The build phase calls nothing but the registration API: whatever
    the arguments and whether or not the build succeeds, the calls it adds
    to the trace are registration calls only: no ctx.log, no ctx.push, no
    call of build_firebird_image_flow, build_pricing_flow or
    build_run_type_flow from a registered callable. *)
Theorem build_invokes_nothing `{Externals} params run_type arg w :
  (trace (build_run_type_flow params run_type w).2 =
     trace w ++ events_of (build_run_type_flow params run_type) w ∧
   Forall (fun ev => is_registration ev = true)
          (events_of (build_run_type_flow params run_type) w)) ∧
  (trace (build_night_batch_flow arg w).2 =
     trace w ++ events_of (build_night_batch_flow arg) w ∧
   Forall (fun ev => is_registration ev = true)
          (events_of (build_night_batch_flow arg) w)).
Proof.
  split.
  - pose proof (build_run_type_flow_outcome params run_type w) as Ho.
    apply builder_outcome_events in Ho as [Ht Ho]. split; [exact Ht|].
    eapply Forall_impl; [exact Ho|]. apply in_order_registration.
  - pose proof (build_night_batch_flow_outcome arg w) as Ho.
    apply builder_outcome_events in Ho as [Ht Ho]. split; [exact Ht|].
    eapply Forall_impl; [exact Ho|]. apply in_order_registration.
Qed.

(** C9. Without an argument [params] is None and [build_night_batch_flow]
    raises (AttributeError, from [params.get("run_types", [])]) after the
    registration of prepare_batch_data and before anything else: no Flow is
    returned and no callable has run.  Either builder returns a Flow only
    when [params] is a dict. *)
Theorem night_batch_default_params_fails `{Externals} :
  (∀ w,
     (build_night_batch_flow None w).1 = Raise AttributeError ∧
     events_of (build_night_batch_flow None) w =
       [EvRegister []
          (mkNode "prepare_batch_data" "Prepare Batch Data" []
             (Task (Closure Fn_prepare_batch_data (length (frames w)))))]) ∧
  (∀ arg w f,
     (build_night_batch_flow arg w).1 = Ok f → ∃ d, arg = Some (VDict d)) ∧
  (∀ params run_type w f,
     (build_run_type_flow params run_type w).1 = Ok f → ∃ d, params = VDict d).
Proof.
  split; [|split].
  - intros w. split; [reflexivity|].
    unfold events_of. simpl. by rewrite drop_app_length.
  - intros arg w f Hf.
    destruct (build_night_batch_flow_outcome arg w) as (_ & _ & _ & _ & Hok).
    destruct (Hok f Hf) as [_ (params & -> & d & ->)]. eauto.
  - intros params run_type w f Hf.
    destruct (build_run_type_flow_outcome params run_type w)
      as (_ & _ & _ & _ & Hok).
    destruct (Hok f Hf) as (_ & Hd & _). exact Hd.
Qed.

(** *** Running a callable *)

Lemma bind_read_cell {A} env x v fr (k : pyval → M A) w :
  frames w !! env = Some fr → fr !! x = Some v →
  bind (read_cell env x) k w = k v w.
Proof. intros Hfr Hx. unfold bind, read_cell. by rewrite Hfr, Hx. Qed.

Lemma bind_log {A} msg ctx (k : Context → M A) w :
  bind (log msg ctx) k w =
  k (mkContext (state ctx) (logs ctx ++ [msg]))
    (mkWorld (frames w) (next_flow w) (trace w ++ [EvLog msg])).
Proof. reflexivity. Qed.

Lemma bind_lift_ok {A B} (r : result A) (k : A → M B) w b w' :
  bind (lift r) k w = (Ok b, w') → ∃ a, r = Ok a ∧ k a w = (Ok b, w').
Proof. unfold bind, lift. destruct r as [a|e]; [eauto|intros [=]]. Qed.


Section callables.
Context `{Externals}.




End callables.



(** C1 fails on the code.  With two libraries, versions "1.0" and "2.0",
    and run type "ftb", the callable registered under build_ftb_1.0_image,
    called after the build, calls build_firebird_image_flow("ftb_2.0") and
    the one registered under run_ftb_1.0_pricing calls
    build_pricing_flow("ftb_2.0_pricing"): both read [version] from the frame
    of the build, where the loop has left the last version.  In the same
    way, with run types "ftb" and "hpl", the callable registered under
    run_ftb_flow calls build_run_type_flow(params, "hpl"). *)
Theorem registered_callables_read_last_iteration :
  let build := build_run_type_flow (H:=sample_externals) sample_params (VStr "ftb") in
  let night := build_night_batch_flow (H:=sample_externals) (Some sample_params) in
  call_registered (H:=sample_externals) "build_ftb_1.0_image" (build empty_world) =
    Some (Ok (empty_context, Some (mkFlow 1 "ftb_2.0" 0 [])),
          [EvCall (Call_build_firebird_image_flow "ftb_2.0")]) ∧
  call_registered (H:=sample_externals) "run_ftb_1.0_pricing" (build empty_world) =
    Some (Ok (empty_context, Some (mkFlow 1 "ftb_2.0_pricing" 0 [])),
          [EvCall (Call_build_pricing_flow "ftb_2.0_pricing")]) ∧
  (fun p => (returned_flow_name p.1, head p.2)) <$>
    call_registered (H:=sample_externals) "run_ftb_flow" (night empty_world) =
    Some (Some "hpl_flow",
          Some (EvCall (Call_build_run_type_flow sample_params (VStr "hpl")))).
Proof.
  intros build night. subst build night. split; [|split]; vm_compute; reflexivity.
Qed.

(** *** Node ids *)

Lemma string_app_nil t : "" +:+ t = t.
Proof. reflexivity. Qed.

Lemma string_app_cons c s t : String c s +:+ t = String c (s +:+ t).
Proof. reflexivity. Qed.

Lemma string_app_length s t :
  String.length (s +:+ t) = String.length s + String.length t.
Proof.
  induction s as [|c s IH]; [done|].
  rewrite string_app_cons. simpl. by rewrite IH.
Qed.

Lemma string_app_inj_r s1 s2 t : s1 +:+ t = s2 +:+ t → s1 = s2.
Proof.
  revert s2. induction s1 as [|c s1 IH]; intros [|c' s2] Heq.
  - done.
  - apply (f_equal String.length) in Heq.
    rewrite !string_app_length in Heq. simpl in Heq. lia.
  - apply (f_equal String.length) in Heq.
    rewrite !string_app_length in Heq. simpl in Heq. lia.
  - rewrite !string_app_cons in Heq. injection Heq as -> Heq.
    f_equal. by apply IH.
Qed.

Ltac id_prefix H := unfold build_id, pricing_id, prepare_id, diff_id, notify_id,
                      run_flow_id in H;
                    rewrite ?string_app_cons, ?string_app_nil in H.

Section ids.
Context `{Externals}.

Lemma build_id_inj rt v v' : build_id rt v = build_id rt v' → py_str v = py_str v'.
Proof.
  intros Heq. id_prefix Heq. injection Heq as Heq.
  apply (inj (String.app _)) in Heq.
  rewrite ?string_app_cons, ?string_app_nil in Heq. injection Heq as Heq.
  by apply string_app_inj_r in Heq.
Qed.

Lemma pricing_id_inj rt v v' :
  pricing_id rt v = pricing_id rt v' → py_str v = py_str v'.
Proof.
  intros Heq. id_prefix Heq. injection Heq as Heq.
  apply (inj (String.app _)) in Heq.
  rewrite ?string_app_cons, ?string_app_nil in Heq. injection Heq as Heq.
  by apply string_app_inj_r in Heq.
Qed.

Lemma run_flow_id_inj t t' : run_flow_id t = run_flow_id t' → py_str t = py_str t'.
Proof.
  intros Heq. id_prefix Heq. injection Heq as Heq.
  by apply string_app_inj_r in Heq.
Qed.

Lemma build_id_not_pricing rt v v' : build_id rt v ≠ pricing_id rt v'.
Proof. intros Heq. id_prefix Heq. discriminate. Qed.

Lemma prepare_id_not_build rt v : prepare_id rt ≠ build_id rt v.
Proof. intros Heq. id_prefix Heq. discriminate. Qed.

Lemma prepare_id_not_pricing rt v : prepare_id rt ≠ pricing_id rt v.
Proof. intros Heq. id_prefix Heq. discriminate. Qed.

Lemma diff_id_not_prepare rt : diff_id rt ≠ prepare_id rt.
Proof. intros Heq. id_prefix Heq. discriminate. Qed.

Lemma diff_id_not_build rt v : diff_id rt ≠ build_id rt v.
Proof. intros Heq. id_prefix Heq. discriminate. Qed.

Lemma diff_id_not_pricing rt v : diff_id rt ≠ pricing_id rt v.
Proof. intros Heq. id_prefix Heq. discriminate. Qed.

Lemma notify_id_not_prepare rt : notify_id rt ≠ prepare_id rt.
Proof. intros Heq. id_prefix Heq. discriminate. Qed.

Lemma notify_id_not_build rt v : notify_id rt ≠ build_id rt v.
Proof. intros Heq. id_prefix Heq. discriminate. Qed.

Lemma notify_id_not_pricing rt v : notify_id rt ≠ pricing_id rt v.
Proof. intros Heq. id_prefix Heq. discriminate. Qed.

Lemma notify_id_not_diff rt : notify_id rt ≠ diff_id rt.
Proof. intros Heq. id_prefix Heq. discriminate. Qed.

Lemma run_flow_id_not_prepare t : run_flow_id t ≠ "prepare_batch_data".
Proof. intros Heq. id_prefix Heq. discriminate. Qed.

Lemma run_flow_id_not_notify t : run_flow_id t ≠ "notify_batch_complete".
Proof. intros Heq. id_prefix Heq. discriminate. Qed.

End ids.

(** *** The builds that succeed *)

Lemma map_result_cons {A B} (f : A → result B) x l ys :
  map_result f (x :: l) = Ok ys →
  ∃ y ys', f x = Ok y ∧ map_result f l = Ok ys' ∧ ys = y :: ys'.
Proof.
  simpl. destruct (f x) as [y|e]; [|done].
  destruct (map_result f l) as [ys'|e]; [|done].
  intros [= <-]. eauto.
Qed.

Lemma edges_snoc f n : edges (snoc_node f n) = edges f ++ [(node_id n, depends_on n)].
Proof. unfold edges. simpl. by rewrite fmap_app. Qed.

Lemma register_snoc n f :
  node_id n ∉ node_ids f → register n f = Ok (snoc_node f n).
Proof. apply register_fresh. Qed.

Lemma bind_eq_ok {A B} (m : M A) (k : A → M B) w a w1 :
  m w = (Ok a, w1) → bind m k w = k a w1.
Proof. intros Hm. unfold bind. by rewrite Hm. Qed.

Lemma bind_eq_raise {A B} (m : M A) (k : A → M B) w e w1 :
  m w = (Raise e, w1) → bind m k w = (Raise e, w1).
Proof. intros Hm. unfold bind. by rewrite Hm. Qed.

Lemma for_each_cons {S A} (body : S → A → M S) x l s w :
  for_each body (x :: l) s w = bind (body s x) (for_each body l) w.
Proof. reflexivity. Qed.

Section forward.
Context `{Externals}.

Lemma library_step_ok env s st d w :
  let v := default VNone (assoc_get "version" d) in
  build_id (VStr s) v ∉ node_ids st.1 →
  pricing_id (VStr s) v ∉ node_ids st.1 →
  ∃ w' n1 n2,
    library_step env (VStr s) st (VDict d) w =
      (Ok (snoc_node (snoc_node st.1 n1) n2, st.2 ++ [pricing_id (VStr s) v]), w') ∧
    [(node_id n1, depends_on n1); (node_id n2, depends_on n2)] =
      library_edges (VStr s) v.
Proof.
  intros v Hb Hp. unfold library_step, subflow.
  cbn [py_get py_upper lift bind emit set_cell fst snd]. fold v.
  rewrite register_snoc by done. cbn [fst snd].
  rewrite register_snoc.
  2:{ rewrite node_ids_snoc. simpl. rewrite elem_of_app, list_elem_of_singleton.
      intros [?|Heq]; [done|]. symmetry in Heq. by apply build_id_not_pricing in Heq. }
  unfold ret. do 3 eexists. split; [reflexivity|]. reflexivity.
Qed.

Lemma for_each_library_step_ok env s libs : ∀ versions st w,
  versions_of libs = Ok versions →
  NoDup (py_str <$> versions) →
  (∀ v, v ∈ versions →
        (build_id (VStr s) v ∉ node_ids st.1) ∧
        pricing_id (VStr s) v ∉ node_ids st.1) →
  ∃ w' flow',
    for_each (library_step env (VStr s)) libs st w =
      (Ok (flow', st.2 ++ (pricing_id (VStr s) <$> versions)), w') ∧
    edges flow' = edges st.1 ++ flat_map (library_edges (VStr s)) versions ∧
    flow_addr flow' = flow_addr st.1 ∧ flow_name flow' = flow_name st.1 ∧
    flow_store flow' = flow_store st.1.
Proof.
  induction libs as [|lib libs IH]; intros versions st w Hv Hnd Hfresh.
  - injection Hv as <-. simpl. exists w, st.1.
    rewrite !app_nil_r. by destruct st.
  - apply map_result_cons in Hv as (v & vs & Hlib & Hvs & ->).
    destruct lib as [| | | | |d]; try discriminate. injection Hlib as Hv.
    rewrite fmap_cons in Hnd. apply NoDup_cons in Hnd as [Hv_new Hnd].
    destruct (Hfresh v (list_elem_of_here _ _)) as [Hb Hp].
    rewrite <- Hv in Hb, Hp.
    destruct (library_step_ok env s st d w Hb Hp) as (w1 & n1 & n2 & Hstep & Hedges).
    rewrite Hv in Hstep, Hedges.
    injection Hedges as Hid1 Hd1 Hid2 Hd2.
    rewrite for_each_cons. erewrite bind_eq_ok by exact Hstep.
    destruct (IH vs (snoc_node (snoc_node st.1 n1) n2,
                     st.2 ++ [pricing_id (VStr s) v]) w1 Hvs Hnd)
      as (w' & flow' & Hloop & He & Ha & Hn & Hs).
    { intros v' Hv'. destruct (Hfresh v' (list_elem_of_further _ _ _ Hv')) as [Hb' Hp'].
      assert (Hne : py_str v' ≠ py_str v).
      { intros Heq. apply Hv_new. rewrite <- Heq. apply list_elem_of_fmap. eauto. }
      cbn [fst]. rewrite !node_ids_snoc, Hid1, Hid2.
      rewrite !elem_of_app, !list_elem_of_singleton. split.
      - intros [[?|Heq]|Heq]; [done| |].
        + by apply build_id_inj in Heq.
        + by apply build_id_not_pricing in Heq.
      - intros [[?|Heq]|Heq]; [done| |].
        + symmetry in Heq. by apply build_id_not_pricing in Heq.
        + by apply pricing_id_inj in Heq. }
    exists w', flow'. split.
    { rewrite Hloop. cbn [fst snd]. by rewrite fmap_cons, <- app_assoc. }
    cbn [fst snd] in *.
    rewrite He, !edges_snoc, Hid1, Hd1, Hid2, Hd2. simpl.
    rewrite <- !app_assoc. done.
Qed.

End forward.

(** *** The ordering invariant of the executor *)

Lemma set_status_eq id s st : set_status id s st id = s.
Proof. unfold set_status. by rewrite String.eqb_refl. Qed.

Lemma set_status_ne id s st x : x ≠ id → set_status id s st x = st x.
Proof.
  intros Hne. unfold set_status.
  destruct (String.eqb_spec x id); [done|reflexivity].
Qed.

Lemma node_id_unique f n m :
  NoDup (node_ids f) → n ∈ flow_nodes f → m ∈ flow_nodes f →
  node_id n = node_id m → n = m.
Proof.
  intros Hnd Hn Hm Heq.
  apply list_elem_of_lookup in Hn as [i Hi]. apply list_elem_of_lookup in Hm as [j Hj].
  assert (i = j).
  { eapply NoDup_lookup; [exact Hnd| |]; unfold node_ids;
      rewrite list_lookup_fmap; [by rewrite Hi | by rewrite Hj, Heq]. }
  congruence.
Qed.

Lemma run_inv_tc f st x y :
  run_inv f st → active (st x) → tc (depends f) x y → st y = Succeeded.
Proof.
  intros Hinv Hx Htc. induction Htc as [x y (n & Hn & <- & Hy)|x z y (n & Hn & <- & Hz) _ IH].
  - by apply (Hinv n).
  - apply IH. right. right. left. by apply (Hinv n).
Qed.

Lemma run_inv_step f st st' :
  NoDup (node_ids f) → run_inv f st → step f st st' → run_inv f st'.
Proof.
  intros Hnd Hinv Hstep.
  destruct Hstep as [st id (n & Hn & <- & Hpend & Hdeps)|st id Hready|st id Hrun
                    |st id skip Hrun Hskip]; intros m Hm Hact d Hd.
  - assert (Hd' : st d = Succeeded).
    { destruct (decide (node_id m = node_id n)) as [Heq|Hne].
      + apply (node_id_unique f m n Hnd Hm Hn) in Heq as ->. by apply Hdeps.
      + rewrite set_status_ne in Hact by done. by apply (Hinv m). }
    rewrite set_status_ne; [done|]. intros ->. congruence.
  - assert (Hd' : st d = Succeeded).
    { apply (Hinv m); [done| |done].
      destruct (decide (node_id m = id)) as [->|Hne].
      + left. done.
      + by rewrite set_status_ne in Hact. }
    rewrite set_status_ne; [done|]. intros ->. congruence.
  - destruct (decide (d = id)) as [->|Hne]; [by rewrite set_status_eq|].
    rewrite set_status_ne by done.
    apply (Hinv m); [done| |done].
    destruct (decide (node_id m = id)) as [->|Hne'].
    + right. left. done.
    + by rewrite set_status_ne in Hact.
  - assert (Hm_act : active (st (node_id m))).
    { simpl in Hact. destruct (String.eqb_spec (node_id m) id) as [->|Hne].
      - right. left. done.
      - destruct (skip (node_id m)); [|done].
        destruct Hact as [?|[?|[?|?]]]; done. }
    assert (Hd' : st d = Succeeded) by (by apply (Hinv m)).
    simpl. destruct (String.eqb_spec d id) as [->|Hne]; [congruence|].
    destruct (skip d) eqn:Hsk; [|done].
    apply Hskip in Hsk.
    assert (st id = Succeeded); [|congruence].
    eapply run_inv_tc; [exact Hinv| |exact Hsk].
    right. right. left. done.
Qed.

Lemma run_inv_reachable f st :
  NoDup (node_ids f) → reachable f st → run_inv f st.
Proof.
  intros Hnd. unfold reachable. revert st.
  apply (rtc_ind_r (run_inv f) initial).
  - intros n _ [?|[?|[?|?]]]; done.
  - intros st st' _ Hstep IH. eapply run_inv_step; eauto.
Qed.

Lemma started_active st id : started st id → active (st id).
Proof. intros [?|[?|?]]; unfold active; auto. Qed.

(** The ordering guarantee: a dispatched node has every node it depends on,
    directly or not, Succeeded. *)
Lemma started_after_dependencies f st x y :
  NoDup (node_ids f) → reachable f st → started st x →
  tc (depends f) x y → st y = Succeeded.
Proof.
  intros Hnd Hreach Hx Htc.
  eapply run_inv_tc; [by apply run_inv_reachable|by apply started_active|done].
Qed.

Section forward2.
Context `{Externals}.

Lemma node_ids_edges f : node_ids f = (edges f).*1.
Proof. unfold node_ids, edges. rewrite <- list_fmap_compose. done. Qed.

Lemma library_edges_ids rt versions id :
  id ∈ (flat_map (library_edges rt) versions).*1 →
  ∃ v, v ∈ versions ∧ (id = build_id rt v ∨ id = pricing_id rt v).
Proof.
  induction versions as [|v vs IH]; simpl; [by intros ?%elem_of_nil|].
  rewrite !elem_of_cons. intros [->|[->|Hin]].
  - exists v. split; [left|by left].
  - exists v. split; [left|by right].
  - destruct (IH Hin) as (v' & Hv' & Hid). exists v'. split; [by right|done].
Qed.

Lemma build_run_type_flow_ok d s libraries libs versions w :
  py_get (VDict d) "libraries" (VList []) = Ok libraries →
  py_iter libraries = Ok libs →
  versions_of libs = Ok versions →
  NoDup (py_str <$> versions) →
  ∃ f w',
    build_run_type_flow (VDict d) (VStr s) w = (Ok f, w') ∧
    edges f = run_type_edges (VStr s) versions ∧
    flow_addr f = next_flow w ∧ flow_name f = s +:+ "_flow" ∧
    flow_store f = store.
Proof.
  intros Hlibs Hiter Hv Hnd. unfold build_run_type_flow.
  rewrite bind_new_frame, bind_AsyncFlow. unfold task.
  cbn [py_upper lift bind emit set_cell fst snd frames next_flow trace].
  rewrite register_snoc by apply not_elem_of_nil.
  rewrite Hlibs. cbn [lift bind set_cell]. rewrite Hiter.
  match goal with |- context [bind (for_each ?b libs ?st) ?k ?w1] =>
    destruct (for_each_library_step_ok (length (frames w)) s libs versions st w1 Hv Hnd)
      as (w2 & flow2 & Hloop & He & Ha & Hn & Hs)
  end.
  { intros v _. cbn [fst]. rewrite node_ids_snoc. simpl.
    rewrite !list_elem_of_singleton. split; intros Heq; symmetry in Heq.
    - by apply prepare_id_not_build in Heq.
    - by apply prepare_id_not_pricing in Heq. }
  erewrite bind_eq_ok by exact Hloop.
  cbn [py_upper lift bind emit set_cell fst snd frames next_flow trace app] in *.
  rewrite edges_snoc in He. simpl in He.
  rewrite register_snoc.
  2:{ rewrite node_ids_edges, He. simpl. rewrite elem_of_cons.
      intros [Heq|Hin]; [by apply diff_id_not_prepare in Heq|].
      apply library_edges_ids in Hin as (v & _ & [Heq|Heq]).
      - by apply diff_id_not_build in Heq.
      - by apply diff_id_not_pricing in Heq. }
  rewrite register_snoc.
  2:{ rewrite node_ids_snoc, elem_of_app, list_elem_of_singleton.
      rewrite node_ids_edges, He. simpl. rewrite elem_of_cons.
      intros [[Heq|Hin]|Heq]; [by apply notify_id_not_prepare in Heq| |].
      - apply library_edges_ids in Hin as (v & _ & [Heq|Heq]).
        + by apply notify_id_not_build in Heq.
        + by apply notify_id_not_pricing in Heq.
      - by apply notify_id_not_diff in Heq. }
  unfold ret. do 2 eexists. split; [reflexivity|].
  rewrite !edges_snoc, He. simpl. unfold run_type_edges.
  rewrite <- !app_assoc. simpl. done.
Qed.

Lemma depends_edges f a ds b : (a, ds) ∈ edges f → b ∈ ds → depends f a b.
Proof.
  intros Ha Hb. unfold edges in Ha.
  apply list_elem_of_fmap in Ha as (n & [= -> ->] & Hn). by exists n.
Qed.

Lemma library_edges_in rt versions v :
  v ∈ versions →
  (build_id rt v, [prepare_id rt]) ∈ flat_map (library_edges rt) versions ∧
  (pricing_id rt v, [build_id rt v]) ∈ flat_map (library_edges rt) versions.
Proof.
  intros Hv. split; apply list_elem_of_In, in_flat_map;
    exists v; (split; [by apply list_elem_of_In|]); simpl; auto.
Qed.

End forward2.


(** C2, as amended.  When [params] is a dict whose libraries are a list of
    dicts, the texts of whose versions (as an f-string prints them) are
    pairwise distinct, [build_run_type_flow] returns a Flow with unique ids
    and exactly the graph [run_type_edges]: prepare; per version a build node
    depending only on prepare and a pricing node depending only on that
    build; diff depending exactly on all the pricing ids; notify depending
    only on diff.  Hence in every run, diff is dispatched only when every
    pricing node has Succeeded, and notify only when diff, every pricing and
    every build node, and with them prepare, have Succeeded. *)
Theorem run_type_flow_graph `{Externals} d s libs versions w :
  py_get (VDict d) "libraries" (VList []) = Ok (VList libs) →
  versions_of libs = Ok versions →
  NoDup (py_str <$> versions) →
  ∃ f,
    (build_run_type_flow (VDict d) (VStr s) w).1 = Ok f ∧
    NoDup (node_ids f) ∧
    edges f = run_type_edges (VStr s) versions ∧
    ∀ st, reachable f st →
      (started st (diff_id (VStr s)) →
       ∀ v, v ∈ versions → st (pricing_id (VStr s) v) = Succeeded) ∧
      (started st (notify_id (VStr s)) →
       st (diff_id (VStr s)) = Succeeded ∧
       ∀ v, v ∈ versions →
         st (pricing_id (VStr s) v) = Succeeded ∧
         st (build_id (VStr s) v) = Succeeded ∧
         st (prepare_id (VStr s)) = Succeeded).
Proof.
  intros Hlibs Hv Hnd.
  destruct (build_run_type_flow_ok d s (VList libs) libs versions w
              Hlibs eq_refl Hv Hnd) as (f & w' & Hrun & He & _).
  assert (Hf : (build_run_type_flow (VDict d) (VStr s) w).1 = Ok f) by (by rewrite Hrun).
  assert (Hids : NoDup (node_ids f)).
  { destruct (build_run_type_flow_outcome (VDict d) (VStr s) w) as (_ & _ & _ & _ & Hok).
    destruct (Hok f Hf) as ([[Hids _] _ _ _ _] & _). exact Hids. }
  assert (Hnotify : depends f (notify_id (VStr s)) (diff_id (VStr s))).
  { apply (depends_edges f _ [diff_id (VStr s)]); [|by left].
    rewrite He. unfold run_type_edges. right.
    apply elem_of_app. right. right. left. }
  assert (Hdiff : ∀ v, v ∈ versions →
            depends f (diff_id (VStr s)) (pricing_id (VStr s) v)).
  { intros v Hin. apply (depends_edges f _ (pricing_id (VStr s) <$> versions)).
    - rewrite He. unfold run_type_edges. right. apply elem_of_app. right. left.
    - apply list_elem_of_fmap. eauto. }
  assert (Hlib : ∀ v, v ∈ versions →
            depends f (pricing_id (VStr s) v) (build_id (VStr s) v) ∧
            depends f (build_id (VStr s) v) (prepare_id (VStr s))).
  { intros v Hin. destruct (library_edges_in (VStr s) versions v Hin) as [Hb Hp].
    split.
    - apply (depends_edges f _ [build_id (VStr s) v]); [|by left].
      rewrite He. unfold run_type_edges. right. apply elem_of_app. by left.
    - apply (depends_edges f _ [prepare_id (VStr s)]); [|by left].
      rewrite He. unfold run_type_edges. right. apply elem_of_app. by left. }
  exists f. split; [done|]. split; [done|]. split; [done|].
  intros st Hreach. split.
  - intros Hstart v Hin.
    eapply started_after_dependencies; eauto. apply tc_once. auto.
  - intros Hstart. split.
    + eapply started_after_dependencies; eauto. by apply tc_once.
    + intros v Hin. destruct (Hlib v Hin) as [Hpb Hbp].
      assert (Hnp : tc (depends f) (notify_id (VStr s)) (pricing_id (VStr s) v)).
      { eapply tc_l; [exact Hnotify|]. apply tc_once. auto. }
      assert (Hnb : tc (depends f) (notify_id (VStr s)) (build_id (VStr s) v)).
      { eapply tc_r; eauto. }
      repeat split.
      * eapply started_after_dependencies; eauto.
      * eapply started_after_dependencies; eauto.
      * eapply started_after_dependencies; eauto. eapply tc_r; eauto.
Qed.

Lemma run_type_flow_graph_witness :
  let d := [("libraries", VList [library (VStr "1.0"); library (VStr "2.0")])] in
  let versions := [VStr "1.0"; VStr "2.0"] in
  ∃ f,
    (build_run_type_flow (H:=sample_externals) (VDict d) (VStr "ftb") empty_world).1
      = Ok f ∧
    NoDup (node_ids f) ∧
    edges f = run_type_edges (H:=sample_externals) (VStr "ftb") versions ∧
    ∀ st, reachable f st →
      (started st (diff_id (H:=sample_externals) (VStr "ftb")) →
       ∀ v, v ∈ versions →
            st (pricing_id (H:=sample_externals) (VStr "ftb") v) = Succeeded) ∧
      (started st (notify_id (H:=sample_externals) (VStr "ftb")) →
       st (diff_id (H:=sample_externals) (VStr "ftb")) = Succeeded ∧
       ∀ v, v ∈ versions →
         st (pricing_id (H:=sample_externals) (VStr "ftb") v) = Succeeded ∧
         st (build_id (H:=sample_externals) (VStr "ftb") v) = Succeeded ∧
         st (prepare_id (H:=sample_externals) (VStr "ftb")) = Succeeded).
Proof.
  intros d versions.
  apply (run_type_flow_graph (H:=sample_externals) d "ftb"
           [library (VStr "1.0"); library (VStr "2.0")] versions empty_world).
  - reflexivity.
  - reflexivity.
  - refine (bool_decide_unpack _ _). vm_compute. exact I.
Defined.

Section forward3.
Context `{Externals}.

Lemma run_type_step_ok env st d t w :
  default VNone (assoc_get "type" d) = VStr t →
  run_flow_id (VStr t) ∉ node_ids st.1 →
  ∃ w' n,
    run_type_step env st (VDict d) w =
      (Ok (snoc_node st.1 n, st.2 ++ [run_flow_id (VStr t)]), w') ∧
    (node_id n, depends_on n) = (run_flow_id (VStr t), ["prepare_batch_data"]).
Proof.
  intros Ht Hfresh. unfold run_type_step, subflow.
  cbn [py_get lift bind emit set_cell fst snd]. rewrite Ht.
  cbn [py_upper lift bind emit set_cell fst snd].
  rewrite register_snoc by done.
  unfold ret. do 2 eexists. split; reflexivity.
Qed.

Lemma for_each_run_type_step_ok env cfgs : ∀ types st w,
  types_of cfgs = Ok types →
  Forall is_str types →
  NoDup (py_str <$> types) →
  (∀ t, t ∈ types → run_flow_id t ∉ node_ids st.1) →
  ∃ w' flow',
    for_each (run_type_step env) cfgs st w =
      (Ok (flow', st.2 ++ (run_flow_id <$> types)), w') ∧
    edges flow' =
      edges st.1 ++ ((fun t => (run_flow_id t, ["prepare_batch_data"])) <$> types) ∧
    flow_addr flow' = flow_addr st.1 ∧ flow_name flow' = flow_name st.1 ∧
    flow_store flow' = flow_store st.1.
Proof.
  induction cfgs as [|cfg cfgs IH]; intros types st w Ht Hstr Hnd Hfresh.
  - injection Ht as <-. simpl. exists w, st.1.
    rewrite !app_nil_r. by destruct st.
  - apply map_result_cons in Ht as (t & ts & Hcfg & Hts & ->).
    destruct cfg as [| | | | |d]; try discriminate. injection Hcfg as Ht.
    apply Forall_cons in Hstr as [[t' ->] Hstr].
    rewrite fmap_cons in Hnd. apply NoDup_cons in Hnd as [Ht_new Hnd].
    pose proof (Hfresh _ (list_elem_of_here _ _)) as Hf.
    destruct (run_type_step_ok env st d t' w Ht Hf) as (w1 & n & Hstep & Hedge).
    injection Hedge as Hid Hd.
    rewrite for_each_cons. erewrite bind_eq_ok by exact Hstep.
    destruct (IH ts (snoc_node st.1 n, st.2 ++ [run_flow_id (VStr t')]) w1 Hts Hstr Hnd)
      as (w' & flow' & Hloop & He & Ha & Hn & Hs).
    { intros t Hin. cbn [fst]. rewrite node_ids_snoc, Hid.
      rewrite elem_of_app, list_elem_of_singleton.
      intros [Hold|Heq].
      - by apply (Hfresh t (list_elem_of_further _ _ _ Hin)).
      - apply run_flow_id_inj in Heq. apply Ht_new. rewrite <- Heq.
        apply list_elem_of_fmap. eauto. }
    exists w', flow'. split.
    { rewrite Hloop. cbn [fst snd]. by rewrite fmap_cons, <- app_assoc. }
    cbn [fst snd] in *.
    rewrite He, edges_snoc, Hid, Hd. simpl. rewrite <- !app_assoc. done.
Qed.

Lemma build_night_batch_flow_ok d run_types cfgs types w :
  py_get (VDict d) "run_types" (VList []) = Ok run_types →
  py_iter run_types = Ok cfgs →
  types_of cfgs = Ok types →
  Forall is_str types →
  NoDup (py_str <$> types) →
  ∃ f w',
    build_night_batch_flow (Some (VDict d)) w = (Ok f, w') ∧
    edges f = night_batch_edges types ∧
    flow_addr f = next_flow w ∧ flow_name f = "Night Batch Flow" ∧
    flow_store f = store.
Proof.
  intros Hrt Hiter Ht Hstr Hnd. unfold build_night_batch_flow.
  cbv zeta. change (default VNone (Some (VDict d))) with (VDict d).
  rewrite bind_new_frame, bind_AsyncFlow. unfold task.
  cbn [lift bind emit fst snd frames next_flow trace].
  rewrite register_snoc by apply not_elem_of_nil.
  rewrite Hrt. cbn [lift bind]. rewrite Hiter.
  match goal with |- context [bind (for_each ?b cfgs ?st) ?k ?w1] =>
    destruct (for_each_run_type_step_ok (length (frames w)) cfgs types st w1
                Ht Hstr Hnd)
      as (w2 & flow2 & Hloop & He & Ha & Hn & Hs)
  end.
  { intros t _. cbn [fst]. rewrite node_ids_snoc. simpl.
    rewrite list_elem_of_singleton. apply run_flow_id_not_prepare. }
  erewrite bind_eq_ok by exact Hloop.
  cbn [lift bind emit fst snd frames next_flow trace app] in *.
  rewrite edges_snoc in He. simpl in He.
  rewrite register_snoc.
  2:{ rewrite node_ids_edges, He. simpl. rewrite elem_of_cons.
      intros [Heq|Hin]; [discriminate|].
      rewrite <- list_fmap_compose in Hin.
      apply list_elem_of_fmap in Hin as (t & Heq & _). simpl in Heq.
      symmetry in Heq. by apply run_flow_id_not_notify in Heq. }
  unfold ret. do 2 eexists. split; [reflexivity|].
  rewrite edges_snoc, He. simpl. done.
Qed.

End forward3.

Lemma depends_inv f a b : depends f a b → ∃ ds, (a, ds) ∈ edges f ∧ b ∈ ds.
Proof.
  intros (n & Hn & <- & Hb). exists (depends_on n). split; [|done].
  unfold edges. apply list_elem_of_fmap. eauto.
Qed.

Lemma tc_depends_first f a b : tc (depends f) a b → ∃ c, depends f a c.
Proof. intros [? ? Hab|? c ? Hac _]; eauto. Qed.

Lemma eligible_initial f id :
  (id, []) ∈ edges f → eligible f initial id.
Proof.
  intros Hin. unfold edges in Hin.
  apply list_elem_of_fmap in Hin as (n & [= -> Hd] & Hn).
  exists n. repeat split; try done.
  intros d Hdep. rewrite <- Hd in Hdep. by apply elem_of_nil in Hdep.
Qed.

(** C10. When [params.get("libraries", [])] is empty, the flow that
    [build_run_type_flow] returns is prepare, diff, notify, and the
    depends_on of calculate_{run_type}_diff is empty: the node is in the
    frontier of a run from the start, as prepare_{run_type}_data is, and
    neither depends on the other.  When [params.get("run_types", [])] is
    empty the same holds of notify_batch_complete and prepare_batch_data in
    the flow of [build_night_batch_flow]. *)
Theorem empty_loop_leaves_join_node_without_dependencies `{Externals} :
  (∀ d s libraries w,
     py_get (VDict d) "libraries" (VList []) = Ok libraries →
     py_iter libraries = Ok [] →
     ∃ f,
       (build_run_type_flow (VDict d) (VStr s) w).1 = Ok f ∧
       edges f = [(prepare_id (VStr s), []); (diff_id (VStr s), []);
                  (notify_id (VStr s), [diff_id (VStr s)])] ∧
       eligible f initial (diff_id (VStr s)) ∧
       eligible f initial (prepare_id (VStr s)) ∧
       ¬ tc (depends f) (diff_id (VStr s)) (prepare_id (VStr s)) ∧
       ¬ tc (depends f) (prepare_id (VStr s)) (diff_id (VStr s))) ∧
  (∀ d run_types w,
     py_get (VDict d) "run_types" (VList []) = Ok run_types →
     py_iter run_types = Ok [] →
     ∃ f,
       (build_night_batch_flow (Some (VDict d)) w).1 = Ok f ∧
       edges f = [("prepare_batch_data", []); ("notify_batch_complete", [])] ∧
       eligible f initial "notify_batch_complete" ∧
       eligible f initial "prepare_batch_data" ∧
       ¬ tc (depends f) "notify_batch_complete" "prepare_batch_data" ∧
       ¬ tc (depends f) "prepare_batch_data" "notify_batch_complete").
Proof.
  split.
  - intros d s libraries w Hlibs Hiter.
    destruct (build_run_type_flow_ok d s libraries [] [] w Hlibs Hiter eq_refl)
      as (f & w' & Hrun & He & _); [constructor|].
    exists f. rewrite Hrun. split; [done|]. unfold run_type_edges in He.
    simpl in He. split; [done|].
    assert (Hno : ∀ a b, a = diff_id (VStr s) ∨ a = prepare_id (VStr s) →
                         ¬ depends f a b).
    { intros a b Ha Hab. apply depends_inv in Hab as (ds & Hin & Hb).
      rewrite He in Hin. rewrite !elem_of_cons in Hin.
      destruct Hin as [[= _ ->]|[[= _ ->]|[[= -> _]|Hin]]].
      - by apply elem_of_nil in Hb.
      - by apply elem_of_nil in Hb.
      - destruct Ha as [Ha|Ha].
        + by apply notify_id_not_diff in Ha.
        + by apply notify_id_not_prepare in Ha.
      - by apply elem_of_nil in Hin. }
    repeat split.
    + apply eligible_initial. rewrite He. right. left.
    + apply eligible_initial. rewrite He. left.
    + intros Htc. apply tc_depends_first in Htc as [c Hc].
      apply (Hno _ c) in Hc; auto.
    + intros Htc. apply tc_depends_first in Htc as [c Hc].
      apply (Hno _ c) in Hc; auto.
  - intros d run_types w Hrt Hiter.
    destruct (build_night_batch_flow_ok d run_types [] [] w Hrt Hiter eq_refl)
      as (f & w' & Hrun & He & _); [constructor|constructor|].
    exists f. rewrite Hrun. split; [done|]. unfold night_batch_edges in He.
    simpl in He. split; [done|].
    assert (Hno : ∀ a b, ¬ depends f a b).
    { intros a b Hab. apply depends_inv in Hab as (ds & Hin & Hb).
      rewrite He in Hin. rewrite !elem_of_cons in Hin.
      destruct Hin as [[= _ ->]|[[= _ ->]|Hin]].
      - by apply elem_of_nil in Hb.
      - by apply elem_of_nil in Hb.
      - by apply elem_of_nil in Hin. }
    repeat split.
    + apply eligible_initial. rewrite He. right. left.
    + apply eligible_initial. rewrite He. left.
    + intros Htc. apply tc_depends_first in Htc as [c Hc]. by apply Hno in Hc.
    + intros Htc. apply tc_depends_first in Htc as [c Hc]. by apply Hno in Hc.
Qed.

Lemma empty_loop_leaves_join_node_without_dependencies_witness :
  (∃ f,
     (build_run_type_flow (H:=sample_externals) (VDict [("libraries", VList [])])
        (VStr "ftb") empty_world).1 = Ok f ∧
     edges f = [("prepare_ftb_data", []); ("calculate_ftb_diff", []);
                ("notify_ftb_complete", ["calculate_ftb_diff"])] ∧
     eligible f initial "calculate_ftb_diff" ∧
     eligible f initial "prepare_ftb_data" ∧
     ¬ tc (depends f) "calculate_ftb_diff" "prepare_ftb_data" ∧
     ¬ tc (depends f) "prepare_ftb_data" "calculate_ftb_diff") ∧
  (∃ f,
     (build_night_batch_flow (H:=sample_externals) (Some (VDict [])) empty_world).1
       = Ok f ∧
     edges f = [("prepare_batch_data", []); ("notify_batch_complete", [])] ∧
     eligible f initial "notify_batch_complete" ∧
     eligible f initial "prepare_batch_data" ∧
     ¬ tc (depends f) "notify_batch_complete" "prepare_batch_data" ∧
     ¬ tc (depends f) "prepare_batch_data" "notify_batch_complete").
Proof.
  split.
  - apply (proj1 (empty_loop_leaves_join_node_without_dependencies
                    (H:=sample_externals))
             [("libraries", VList [])] "ftb" (VList []) empty_world);
      reflexivity.
  - apply (proj2 (empty_loop_leaves_join_node_without_dependencies
                    (H:=sample_externals))
             [] (VList []) empty_world); reflexivity.
Defined.

(** C2, as stated, does not hold.  The versions 1 (an int) and "1" (a str)
    are distinct, yet both libraries get the id build_ftb_1_image and the
    build fails at the second one.  And with no library at all, there is a
    run in which notify has been dispatched while prepare is still Pending:
    notify is then not the last node to start. *)
Lemma distinct_versions_same_id :
  let libs := [library (VInt 1); library (VStr "1")] in
  let build := build_run_type_flow (H:=sample_externals) in
  (versions_of libs = Ok [VInt 1; VStr "1"] ∧
   NoDup [VInt 1; VStr "1"] ∧
   (build (VDict [("libraries", VList libs)]) (VStr "ftb") empty_world).1 =
     Raise (DuplicateNodeError "build_ftb_1_image")) ∧
  (∃ f st,
     (build (VDict [("libraries", VList [])]) (VStr "ftb") empty_world).1 = Ok f ∧
     reachable f st ∧
     started st "notify_ftb_complete" ∧
     st "prepare_ftb_data" = Pending).
Proof.
  intros libs build. subst libs build. split.
  - split; [reflexivity|]. split; [|vm_compute; reflexivity].
    apply NoDup_cons. split; [|apply NoDup_singleton].
    intros Hin. apply list_elem_of_singleton in Hin. discriminate.
  - eexists.
    exists (set_status "notify_ftb_complete" Running
             (set_status "notify_ftb_complete" Ready
                (set_status "calculate_ftb_diff" Succeeded
                   (set_status "calculate_ftb_diff" Running
                      (set_status "calculate_ftb_diff" Ready initial))))).
    split; [vm_compute; reflexivity|]. split; [|split; [by left|reflexivity]].
    unfold reachable.
    eapply rtc_l.
    { apply (step_ready _ _ "calculate_ftb_diff").
      eexists. split; [right; left|].
      repeat split. intros d Hd. by apply elem_of_nil in Hd. }
    eapply rtc_l; [apply (step_dispatch _ _ "calculate_ftb_diff"); reflexivity|].
    eapply rtc_l; [apply (step_succeed _ _ "calculate_ftb_diff"); reflexivity|].
    eapply rtc_l.
    { apply (step_ready _ _ "notify_ftb_complete").
      eexists. split; [right; right; left|].
      repeat split. intros d Hd. by apply list_elem_of_singleton in Hd as ->. }
    eapply rtc_l; [apply (step_dispatch _ _ "notify_ftb_complete"); reflexivity|].
    apply rtc_refl.
Qed.

(** *** The builds that hit a registered id *)

Lemma first_duplicate (l : list string) :
  ¬ NoDup l → ∃ k x, l !! k = Some x ∧ NoDup (take k l) ∧ x ∈ take k l.
Proof.
  induction l as [|x l IH] using rev_ind; intros Hdup.
  - destruct Hdup. constructor.
  - destruct (decide (NoDup l)) as [Hnd|Hnd].
    + exists (length l), x. rewrite lookup_app_r, Nat.sub_diag by lia.
      rewrite take_app_length. repeat split; [done|].
      destruct (decide (x ∈ l)) as [Hin|Hnin]; [done|].
      destruct Hdup. apply NoDup_app. repeat split; [done| |apply NoDup_singleton].
      intros y Hy Hy'. apply list_elem_of_singleton in Hy' as ->. done.
    + destruct (IH Hnd) as (k & y & Hk & Hndk & Hin).
      assert (Hlt : k < length l) by (by apply lookup_lt_Some in Hk).
      exists k, y. rewrite lookup_app_l by done.
      rewrite take_app_le by lia. done.
Qed.

Lemma map_result_app_inv {A B} (f : A → result B) l1 l2 ys :
  map_result f (l1 ++ l2) = Ok ys →
  ∃ ys1 ys2, map_result f l1 = Ok ys1 ∧ map_result f l2 = Ok ys2 ∧
             ys = ys1 ++ ys2.
Proof.
  revert ys. induction l1 as [|x l1 IH]; intros ys Hys.
  - exists [], ys. done.
  - simpl in Hys. apply map_result_cons in Hys as (y & ys' & Hx & Hl & ->).
    destruct (IH ys' Hl) as (ys1 & ys2 & H1 & H2 & ->).
    exists (y :: ys1), ys2. simpl. by rewrite Hx, H1.
Qed.

Lemma map_result_length {A B} (f : A → result B) l ys :
  map_result f l = Ok ys → length ys = length l.
Proof.
  revert ys. induction l as [|x l IH]; intros ys Hys.
  - by injection Hys as <-.
  - apply map_result_cons in Hys as (y & ys' & _ & Hl & ->).
    simpl. f_equal. by apply IH.
Qed.

(** Splitting the iteration at position [k] of the result. *)
Lemma map_result_split {A B} (f : A → result B) l ys k y :
  map_result f l = Ok ys → ys !! k = Some y →
  ∃ x, l = take k l ++ x :: drop (S k) l ∧
       map_result f (take k l) = Ok (take k ys) ∧ f x = Ok y.
Proof.
  intros Hys Hk.
  assert (Hlt : k < length l).
  { apply lookup_lt_Some in Hk. by rewrite (map_result_length f l ys) in Hk. }
  apply lookup_lt_is_Some in Hlt as [x Hx].
  exists x. pose proof (take_drop_middle l k x Hx) as Hsplit.
  split; [done|].
  rewrite <- Hsplit in Hys.
  apply map_result_app_inv in Hys as (ys1 & ys2 & H1 & H2 & ->).
  apply map_result_cons in H2 as (y' & ys2' & Hfx & _ & ->).
  assert (Hlen : length ys1 = k).
  { rewrite (map_result_length _ _ _ H1), length_take. apply lookup_lt_Some in Hx. lia. }
  rewrite take_app_length' by done.
  rewrite lookup_app_r, Hlen, Nat.sub_diag in Hk by lia.
  injection Hk as <-. done.
Qed.

Lemma for_each_raise_at {S A} (body : S → A → M S) l1 x l2 s s1 w w1 e w2 :
  for_each body l1 s w = (Ok s1, w1) →
  body s1 x w1 = (Raise e, w2) →
  for_each body (l1 ++ x :: l2) s w = (Raise e, w2).
Proof.
  intros H1 Hx. rewrite for_each_app. erewrite bind_eq_ok by exact H1.
  rewrite for_each_cons. by erewrite bind_eq_raise.
Qed.

Section duplicates.
Context `{Externals}.

Lemma build_id_ext rt v v' : py_str v = py_str v' → build_id rt v = build_id rt v'.
Proof. unfold build_id. by intros ->. Qed.

Lemma run_flow_id_ext t t' : py_str t = py_str t' → run_flow_id t = run_flow_id t'.
Proof. unfold run_flow_id. by intros ->. Qed.

Lemma library_step_duplicate env s st d w :
  let v := default VNone (assoc_get "version" d) in
  build_id (VStr s) v ∈ node_ids st.1 →
  ∃ w', library_step env (VStr s) st (VDict d) w =
        (Raise (DuplicateNodeError (build_id (VStr s) v)), w').
Proof.
  intros v Hin. unfold library_step, subflow.
  cbn [py_get py_upper lift bind emit set_cell fst snd]. fold v.
  unfold register. cbn [node_id]. rewrite bool_decide_eq_true_2 by done.
  eexists. reflexivity.
Qed.

Lemma run_type_step_duplicate env st d t w :
  default VNone (assoc_get "type" d) = VStr t →
  run_flow_id (VStr t) ∈ node_ids st.1 →
  ∃ w', run_type_step env st (VDict d) w =
        (Raise (DuplicateNodeError (run_flow_id (VStr t))), w').
Proof.
  intros Ht Hin. unfold run_type_step, subflow.
  cbn [py_get lift bind emit set_cell fst snd]. rewrite Ht.
  cbn [py_upper lift bind emit set_cell fst snd].
  unfold register. cbn [node_id]. rewrite bool_decide_eq_true_2 by done.
  eexists. reflexivity.
Qed.

Lemma library_edges_build_id rt versions v :
  v ∈ versions → build_id rt v ∈ (flat_map (library_edges rt) versions).*1.
Proof.
  intros Hv. destruct (library_edges_in rt versions v Hv) as [Hb _].
  apply list_elem_of_fmap. by exists (build_id rt v, [prepare_id rt]).
Qed.

Lemma build_run_type_flow_duplicate_prefix d s libraries libs rest versions w :
  py_get (VDict d) "libraries" (VList []) = Ok libraries →
  py_iter libraries = Ok (libs ++ rest) →
  versions_of libs = Ok versions →
  ¬ NoDup (py_str <$> versions) →
  ∃ k v,
    versions !! k = Some v ∧
    NoDup (py_str <$> take k versions) ∧
    py_str v ∈ py_str <$> take k versions ∧
    (build_run_type_flow (VDict d) (VStr s) w).1 =
      Raise (DuplicateNodeError (build_id (VStr s) v)).
Proof.
  intros Hlibs Hiter Hv Hdup.
  destruct (first_duplicate _ Hdup) as (k & x & Hk & Hnd & Hin).
  rewrite list_lookup_fmap in Hk.
  destruct (versions !! k) as [v|] eqn:Hvk; [|done]. injection Hk as <-.
  rewrite <- fmap_take in Hnd, Hin.
  exists k, v. split; [done|]. split; [done|]. split; [done|].
  destruct (map_result_split _ libs versions k v Hv Hvk) as (lib & Hsplit & Hpre & Hlib).
  destruct lib as [| | | | |dl]; try discriminate. injection Hlib as Hver.
  remember (take k libs) as l1 eqn:Hl1. remember (drop (S k) libs) as l2 eqn:Hl2.
  clear Hl1 Hl2. subst libs.
  rewrite <- app_assoc, <- app_comm_cons in Hiter.
  unfold build_run_type_flow.
  rewrite bind_new_frame, bind_AsyncFlow. unfold task.
  cbn [py_upper lift bind emit set_cell fst snd frames next_flow trace].
  rewrite register_snoc by apply not_elem_of_nil.
  rewrite Hlibs. cbn [lift bind set_cell]. rewrite Hiter.
  match goal with |- context [bind (for_each ?b _ ?st) ?kont ?w1] =>
    destruct (for_each_library_step_ok (length (frames w)) s l1 (take k versions)
                st w1 Hpre Hnd)
      as (w2 & flow2 & Hloop & He & _)
  end.
  { intros v0 _. cbn [fst]. rewrite node_ids_snoc. simpl.
    rewrite !list_elem_of_singleton. split; intros Heq; symmetry in Heq.
    - by apply prepare_id_not_build in Heq.
    - by apply prepare_id_not_pricing in Heq. }
  apply list_elem_of_fmap in Hin as (v0 & Hstr & Hv0).
  match type of Hloop with _ = (Ok ?st2, _) =>
    destruct (library_step_duplicate (length (frames w)) s st2 dl w2) as [w3 Hstep]
  end.
  { cbn [fst]. rewrite Hver, node_ids_edges, He, fmap_app.
    apply elem_of_app. right.
    rewrite (build_id_ext _ v v0) by done. by apply library_edges_build_id. }
  rewrite Hver in Hstep.
  erewrite bind_eq_raise; [reflexivity|].
  eapply for_each_raise_at; eauto.
Qed.

Lemma build_run_type_flow_duplicate d s libraries libs versions w :
  py_get (VDict d) "libraries" (VList []) = Ok libraries →
  py_iter libraries = Ok libs →
  versions_of libs = Ok versions →
  ¬ NoDup (py_str <$> versions) →
  ∃ k v,
    versions !! k = Some v ∧
    NoDup (py_str <$> take k versions) ∧
    py_str v ∈ py_str <$> take k versions ∧
    (build_run_type_flow (VDict d) (VStr s) w).1 =
      Raise (DuplicateNodeError (build_id (VStr s) v)).
Proof.
  intros Hlibs Hiter. rewrite <- (app_nil_r libs) in Hiter.
  by apply (build_run_type_flow_duplicate_prefix d s libraries libs []).
Qed.

Lemma build_night_batch_flow_duplicate_prefix d run_types cfgs rest types w :
  py_get (VDict d) "run_types" (VList []) = Ok run_types →
  py_iter run_types = Ok (cfgs ++ rest) →
  types_of cfgs = Ok types →
  Forall is_str types →
  ¬ NoDup (py_str <$> types) →
  ∃ k t,
    types !! k = Some t ∧
    NoDup (py_str <$> take k types) ∧
    py_str t ∈ py_str <$> take k types ∧
    (build_night_batch_flow (Some (VDict d)) w).1 =
      Raise (DuplicateNodeError (run_flow_id t)).
Proof.
  intros Hrt Hiter Ht Hstr Hdup.
  destruct (first_duplicate _ Hdup) as (k & x & Hk & Hnd & Hin).
  rewrite list_lookup_fmap in Hk.
  destruct (types !! k) as [t|] eqn:Htk; [|done]. injection Hk as <-.
  rewrite <- fmap_take in Hnd, Hin.
  exists k, t. split; [done|]. split; [done|]. split; [done|].
  destruct (map_result_split _ cfgs types k t Ht Htk) as (cfg & Hsplit & Hpre & Hcfg).
  destruct cfg as [| | | | |dc]; try discriminate. injection Hcfg as Hty.
  assert (Ht_str : is_str t).
  { rewrite Forall_forall in Hstr. apply Hstr. by eapply list_elem_of_lookup_2. }
  destruct Ht_str as [t' ->].
  assert (Hstr_pre : Forall is_str (take k types)) by (by apply Forall_take).
  remember (take k cfgs) as l1 eqn:Hl1. remember (drop (S k) cfgs) as l2 eqn:Hl2.
  clear Hl1 Hl2. subst cfgs.
  rewrite <- app_assoc, <- app_comm_cons in Hiter.
  unfold build_night_batch_flow.
  cbv zeta. change (default VNone (Some (VDict d))) with (VDict d).
  rewrite bind_new_frame, bind_AsyncFlow. unfold task.
  cbn [lift bind emit fst snd frames next_flow trace].
  rewrite register_snoc by apply not_elem_of_nil.
  rewrite Hrt. cbn [lift bind]. rewrite Hiter.
  match goal with |- context [bind (for_each ?b _ ?st) ?kont ?w1] =>
    destruct (for_each_run_type_step_ok (length (frames w)) l1 (take k types)
                st w1 Hpre Hstr_pre Hnd)
      as (w2 & flow2 & Hloop & He & _)
  end.
  { intros t0 _. cbn [fst]. rewrite node_ids_snoc. simpl.
    rewrite list_elem_of_singleton. apply run_flow_id_not_prepare. }
  apply list_elem_of_fmap in Hin as (t0 & Hs0 & Ht0).
  match type of Hloop with _ = (Ok ?st2, _) =>
    destruct (run_type_step_duplicate (length (frames w)) st2 dc t' w2 Hty)
      as [w3 Hstep]
  end.
  { cbn [fst]. rewrite node_ids_edges, He, fmap_app.
    apply elem_of_app. right. rewrite <- list_fmap_compose.
    apply list_elem_of_fmap. exists t0. split; [|done].
    simpl. by apply run_flow_id_ext. }
  erewrite bind_eq_raise; [reflexivity|].
  eapply for_each_raise_at; eauto.
Qed.

Lemma build_night_batch_flow_duplicate d run_types cfgs types w :
  py_get (VDict d) "run_types" (VList []) = Ok run_types →
  py_iter run_types = Ok cfgs →
  types_of cfgs = Ok types →
  Forall is_str types →
  ¬ NoDup (py_str <$> types) →
  ∃ k t,
    types !! k = Some t ∧
    NoDup (py_str <$> take k types) ∧
    py_str t ∈ py_str <$> take k types ∧
    (build_night_batch_flow (Some (VDict d)) w).1 =
      Raise (DuplicateNodeError (run_flow_id t)).
Proof.
  intros Hrt Hiter. rewrite <- (app_nil_r cfgs) in Hiter.
  by apply (build_night_batch_flow_duplicate_prefix d run_types cfgs []).
Qed.

End duplicates.

(** C5, as amended.  The ids are made of the text that an f-string gives
    a value, so what collides is that text.  When [run_type] is a str and
    the libraries value of the dict [params] yields items of which the
    first ones, up to some position, are dicts and two of these have
    versions with the same text str(version), [build_run_type_flow] raises
    DuplicateNodeError for a build id, at the second registration of that
    id: the error names the id of the first library [k] whose version text
    has been seen, every library before it having been registered under an
    id of its own.  When the run types value yields items of which the
    first ones are dicts whose types are strings, two of them the same,
    [build_night_batch_flow] raises DuplicateNodeError for a run_{type}_flow
    id in the same way.  The items after these ([rest]) are not reached and
    may be anything. *)
Theorem duplicate_ids_raise `{Externals} :
  (∀ d s libraries libs rest versions w i j vi vj,
     py_get (VDict d) "libraries" (VList []) = Ok libraries →
     py_iter libraries = Ok (libs ++ rest) →
     versions_of libs = Ok versions →
     i < j → versions !! i = Some vi → versions !! j = Some vj →
     py_str vi = py_str vj →
     ∃ k v',
       versions !! k = Some v' ∧
       NoDup (py_str <$> take k versions) ∧
       py_str v' ∈ py_str <$> take k versions ∧
       (build_run_type_flow (VDict d) (VStr s) w).1 =
         Raise (DuplicateNodeError (build_id (VStr s) v'))) ∧
  (∀ d run_types cfgs rest types w i j t,
     py_get (VDict d) "run_types" (VList []) = Ok run_types →
     py_iter run_types = Ok (cfgs ++ rest) →
     types_of cfgs = Ok types →
     Forall is_str types →
     i < j → types !! i = Some (VStr t) → types !! j = Some (VStr t) →
     ∃ k t',
       types !! k = Some t' ∧
       NoDup (py_str <$> take k types) ∧
       py_str t' ∈ py_str <$> take k types ∧
       (build_night_batch_flow (Some (VDict d)) w).1 =
         Raise (DuplicateNodeError (run_flow_id t'))).
Proof.
  split.
  - intros d s libraries libs rest versions w i j vi vj Hlibs Hiter Hv Hij Hi Hj Heq.
    apply (build_run_type_flow_duplicate_prefix d s libraries libs rest versions w);
      try done.
    intros Hnd.
    assert (i = j); [|lia].
    eapply (NoDup_lookup _ i j (py_str vi) Hnd);
      rewrite list_lookup_fmap; [by rewrite Hi | by rewrite Hj, Heq].
  - intros d run_types cfgs rest types w i j t Hrt Hiter Ht Hstr Hij Hi Hj.
    apply (build_night_batch_flow_duplicate_prefix d run_types cfgs rest types w);
      try done.
    intros Hnd.
    assert (i = j); [|lia].
    eapply (NoDup_lookup _ i j t Hnd);
      rewrite list_lookup_fmap; [by rewrite Hi | by rewrite Hj].
Qed.

(** The libraries 1, "2.0", "1" and then an item that is no dict: the
    versions 1 and "1" are different values with the same text.  The run
    types "ftb", "ftb" and then a type that is no str. *)
Lemma duplicate_ids_raise_witness :
  (∃ k v',
     [VInt 1; VStr "2.0"; VStr "1"] !! k = Some v' ∧
     NoDup (py_str (H:=sample_externals) <$> take k [VInt 1; VStr "2.0"; VStr "1"]) ∧
     py_str (H:=sample_externals) v' ∈
       py_str (H:=sample_externals) <$> take k [VInt 1; VStr "2.0"; VStr "1"] ∧
     (build_run_type_flow (H:=sample_externals)
        (VDict [("libraries", VList [library (VInt 1); library (VStr "2.0");
                                     library (VStr "1"); VInt 7])])
        (VStr "ftb") empty_world).1 =
       Raise (DuplicateNodeError (build_id (H:=sample_externals) (VStr "ftb") v'))) ∧
  (∃ k t',
     [VStr "ftb"; VStr "ftb"] !! k = Some t' ∧
     NoDup (py_str (H:=sample_externals) <$> take k [VStr "ftb"; VStr "ftb"]) ∧
     py_str (H:=sample_externals) t' ∈
       py_str (H:=sample_externals) <$> take k [VStr "ftb"; VStr "ftb"] ∧
     (build_night_batch_flow (H:=sample_externals)
        (Some (VDict [("run_types", VList [run_type_config (VStr "ftb");
                                           run_type_config (VStr "ftb");
                                           run_type_config (VInt 1)])]))
        empty_world).1 =
       Raise (DuplicateNodeError (run_flow_id (H:=sample_externals) t'))).
Proof.
  split.
  - apply (proj1 (duplicate_ids_raise (H:=sample_externals))
             [("libraries", VList [library (VInt 1); library (VStr "2.0");
                                   library (VStr "1"); VInt 7])]
             "ftb"
             (VList [library (VInt 1); library (VStr "2.0"); library (VStr "1");
                     VInt 7])
             [library (VInt 1); library (VStr "2.0"); library (VStr "1")]
             [VInt 7]
             [VInt 1; VStr "2.0"; VStr "1"] empty_world
             0 2 (VInt 1) (VStr "1")); try reflexivity. lia.
  - apply (proj2 (duplicate_ids_raise (H:=sample_externals))
             [("run_types", VList [run_type_config (VStr "ftb");
                                   run_type_config (VStr "ftb");
                                   run_type_config (VInt 1)])]
             (VList [run_type_config (VStr "ftb"); run_type_config (VStr "ftb");
                     run_type_config (VInt 1)])
             [run_type_config (VStr "ftb"); run_type_config (VStr "ftb")]
             [run_type_config (VInt 1)]
             [VStr "ftb"; VStr "ftb"] empty_world 0 1 "ftb");
      try reflexivity; [|lia].
    repeat constructor; by eexists.
Defined.

(** C5, as stated, does not hold.  For the run types: two entries of type 1
    (an int) have equal types, and the build raises AttributeError at
    [run_type.upper()] in the first iteration, not DuplicateNodeError.  For
    the libraries: the versions 1 and True are equal ([1 == True]) and give
    the ids build_ftb_1_image and build_ftb_True_image, so nothing collides
    and the build returns a Flow. *)
Lemma equal_entries_without_duplicate_error :
  let cfgs := [run_type_config (VInt 1); run_type_config (VInt 1)] in
  let libs := [library (VInt 1); library (VBool true)] in
  (types_of cfgs = Ok [VInt 1; VInt 1] ∧
   (build_night_batch_flow (H:=sample_externals)
      (Some (VDict [("run_types", VList cfgs)])) empty_world).1 =
     Raise AttributeError) ∧
  (py_eq (VInt 1) (VBool true) = true ∧
   ∃ f,
     (build_run_type_flow (H:=sample_externals)
        (VDict [("libraries", VList libs)]) (VStr "ftb") empty_world).1 = Ok f ∧
     node_ids f = ["prepare_ftb_data";
                   "build_ftb_1_image"; "run_ftb_1_pricing";
                   "build_ftb_True_image"; "run_ftb_True_pricing";
                   "calculate_ftb_diff"; "notify_ftb_complete"]).
Proof.
  intros cfgs libs. subst cfgs libs. split.
  - split; vm_compute; reflexivity.
  - split; [vm_compute; reflexivity|].
    eexists. split; vm_compute; reflexivity.
Qed.


(** *** Two runs of a computation *)

Lemma alike_ret {A} (RA : A → A → Prop) a b : RA a b → alike RA (ret a) (ret b).
Proof. intros Hab w1 w2. exact Hab. Qed.

Lemma alike_lift {A} (RA : A → A → Prop) r1 r2 :
  same_outcome RA r1 r2 → alike RA (lift r1) (lift r2).
Proof. intros Hr w1 w2. exact Hr. Qed.

Lemma alike_bind {A B} (RA : A → A → Prop) (RB : B → B → Prop)
    (m1 m2 : M A) (k1 k2 : A → M B) :
  alike RA m1 m2 → (∀ a b, RA a b → alike RB (k1 a) (k2 b)) →
  alike RB (bind m1 k1) (bind m2 k2).
Proof.
  intros Hm Hk w1 w2. unfold bind. specialize (Hm w1 w2).
  destruct (m1 w1) as [[a|e] w1'], (m2 w2) as [[b|e'] w2']; simpl in *; try done.
  by apply Hk.
Qed.

Lemma alike_for_each {S A} (RS : S → S → Prop) (body1 body2 : S → A → M S) :
  (∀ s1 s2 x, RS s1 s2 → alike RS (body1 s1 x) (body2 s2 x)) →
  ∀ items s1 s2, RS s1 s2 →
    alike RS (for_each body1 items s1) (for_each body2 items s2).
Proof.
  intros Hbody items. induction items as [|x items IH]; intros s1 s2 Hs.
  - by apply alike_ret.
  - simpl. eapply alike_bind; [by apply Hbody|]. intros a b Hab. by apply IH.
Qed.

Lemma alike_emit ev1 ev2 : alike any (emit ev1) (emit ev2).
Proof. intros w1 w2. exact I. Qed.

Lemma alike_set_cell env1 env2 x v1 v2 :
  alike any (set_cell env1 x v1) (set_cell env2 x v2).
Proof. intros w1 w2. exact I. Qed.

Lemma alike_new_frame cells1 cells2 : alike any (new_frame cells1) (new_frame cells2).
Proof. intros w1 w2. exact I. Qed.

Lemma alike_AsyncFlow name st : alike same_shape (AsyncFlow name st) (AsyncFlow name st).
Proof. intros w1 w2. reflexivity. Qed.

Lemma same_shape_ids f1 f2 : same_shape f1 f2 → node_ids f1 = node_ids f2.
Proof.
  unfold same_shape, flow_shape, node_ids. intros [= _ _ Hn].
  apply (f_equal (fmap (fun x => x.1.1.1))) in Hn.
  by rewrite <- !list_fmap_compose in Hn.
Qed.

Lemma alike_register f1 f2 n1 n2 :
  same_shape f1 f2 → node_shape n1 = node_shape n2 →
  same_outcome same_shape (register n1 f1) (register n2 f2).
Proof.
  intros Hf Hn. unfold register. rewrite (same_shape_ids f1 f2 Hf).
  assert (Hid : node_id n1 = node_id n2) by (by injection Hn).
  rewrite Hid. case_bool_decide; simpl; [done|].
  unfold same_shape, flow_shape in *. simpl. injection Hf as Hname Hstore Hnodes.
  rewrite !fmap_app, Hname, Hstore, Hnodes. simpl. by rewrite Hn.
Qed.

Lemma alike_task f1 f2 id name deps fn1 fn2 :
  same_shape f1 f2 →
  alike same_shape (task f1 id name deps fn1) (task f2 id name deps fn2).
Proof.
  intros Hf. unfold task. eapply alike_bind; [apply alike_emit|].
  intros _ _ _. by apply alike_lift, alike_register.
Qed.

Lemma alike_subflow f1 f2 id name params deps fn1 fn2 :
  same_shape f1 f2 →
  alike same_shape (subflow f1 id name params deps fn1)
                   (subflow f2 id name params deps fn2).
Proof.
  intros Hf. unfold subflow. eapply alike_bind; [apply alike_emit|].
  intros _ _ _. by apply alike_lift, alike_register.
Qed.

Lemma same_outcome_refl {A} (r : result A) : same_outcome eq r r.
Proof. by destruct r. Qed.

Lemma alike_pure {A} (r : result A) : alike eq (lift r) (lift r).
Proof. apply alike_lift, same_outcome_refl. Qed.

Section two_builds.
Context `{Externals}.

Lemma alike_library_step env1 env2 run_type st1 st2 lib :
  same_loop_state st1 st2 →
  alike same_loop_state (library_step env1 run_type st1 lib)
                        (library_step env2 run_type st2 lib).
Proof.
  intros [Hf Ht]. unfold library_step.
  eapply alike_bind; [apply alike_pure|]. intros version ? <-.
  eapply alike_bind; [apply alike_set_cell|]. intros _ _ _.
  eapply alike_bind; [apply alike_pure|]. intros up ? <-.
  eapply alike_bind; [by apply alike_subflow|]. intros f1 f2 Hf'.
  eapply alike_bind; [apply alike_pure|]. intros up' ? <-.
  eapply alike_bind; [by apply alike_subflow|]. intros f1' f2' Hf''.
  eapply alike_bind; [apply alike_set_cell|]. intros _ _ _.
  apply alike_ret. split; simpl; [done|by rewrite Ht].
Qed.

Lemma alike_build_run_type_flow params run_type :
  alike same_shape (build_run_type_flow params run_type)
                   (build_run_type_flow params run_type).
Proof.
  unfold build_run_type_flow.
  eapply alike_bind; [apply alike_new_frame|]. intros env1 env2 _.
  eapply alike_bind; [apply alike_AsyncFlow|]. intros f1 f2 Hf.
  eapply alike_bind; [apply alike_pure|]. intros up ? <-.
  eapply alike_bind; [by apply alike_task|]. intros f1' f2' Hf'.
  eapply alike_bind; [apply alike_pure|]. intros libraries ? <-.
  eapply alike_bind; [apply alike_set_cell|]. intros _ _ _.
  eapply alike_bind; [apply alike_pure|]. intros items ? <-.
  eapply alike_bind.
  { apply (alike_for_each same_loop_state).
    - intros s1 s2 x Hs. by apply alike_library_step.
    - by split. }
  intros st1 st2 [Hst Htasks].
  eapply alike_bind; [apply alike_pure|]. intros up1 ? <-.
  rewrite Htasks.
  eapply alike_bind; [by apply alike_task|]. intros g1 g2 Hg.
  eapply alike_bind; [apply alike_pure|]. intros up2 ? <-.
  eapply alike_bind; [by apply alike_task|]. intros g1' g2' Hg'.
  by apply alike_ret.
Qed.

Lemma alike_run_type_step env1 env2 st1 st2 cfg :
  same_loop_state st1 st2 →
  alike same_loop_state (run_type_step env1 st1 cfg) (run_type_step env2 st2 cfg).
Proof.
  intros [Hf Ht]. unfold run_type_step.
  eapply alike_bind; [apply alike_pure|]. intros run_type ? <-.
  eapply alike_bind; [apply alike_set_cell|]. intros _ _ _.
  eapply alike_bind; [apply alike_pure|]. intros up ? <-.
  eapply alike_bind; [by apply alike_subflow|]. intros f1 f2 Hf'.
  apply alike_ret. split; simpl; [done|by rewrite Ht].
Qed.

Lemma alike_build_night_batch_flow arg :
  alike same_shape (build_night_batch_flow arg) (build_night_batch_flow arg).
Proof.
  unfold build_night_batch_flow. cbv zeta.
  eapply alike_bind; [apply alike_new_frame|]. intros env1 env2 _.
  eapply alike_bind; [apply alike_AsyncFlow|]. intros f1 f2 Hf.
  eapply alike_bind; [by apply alike_task|]. intros f1' f2' Hf'.
  eapply alike_bind; [apply alike_pure|]. intros run_types ? <-.
  eapply alike_bind; [apply alike_pure|]. intros items ? <-.
  eapply alike_bind.
  { apply (alike_for_each same_loop_state).
    - intros s1 s2 x Hs. by apply alike_run_type_step.
    - by split. }
  intros st1 st2 [Hst Htasks]. rewrite Htasks.
  eapply alike_bind; [by apply alike_task|]. intros g1 g2 Hg.
  by apply alike_ret.
Qed.

End two_builds.

(** C8, as amended.  The builders are deterministic and keep no cache.
    Two calls with the same arguments (the same values, not only values
    that [==] holds equal), from any two worlds, end alike: both raise the same
    exception, or both return a Flow, and the two Flows have the same name
    and, node by node, the same ids, display names, depends_on lists and
    subflow params; each Flow is a new object (its address is the next free
    one of the world the call started from, so a call made after another
    returns a different object) and both are bound to the module's store. *)
Theorem builders_are_cache_free `{Externals} :
  (∀ params run_type w w',
     let r1 := build_run_type_flow params run_type w in
     let r2 := build_run_type_flow params run_type w' in
     same_outcome
       (fun f1 f2 =>
          flow_shape f1 = flow_shape f2 ∧
          flow_store f1 = store ∧ flow_store f2 = store ∧
          flow_addr f1 = next_flow w ∧ flow_addr f2 = next_flow w' ∧
          (w' = r1.2 → flow_addr f1 ≠ flow_addr f2))
       r1.1 r2.1) ∧
  (∀ arg w w',
     let r1 := build_night_batch_flow arg w in
     let r2 := build_night_batch_flow arg w' in
     same_outcome
       (fun f1 f2 =>
          flow_shape f1 = flow_shape f2 ∧
          flow_store f1 = store ∧ flow_store f2 = store ∧
          flow_addr f1 = next_flow w ∧ flow_addr f2 = next_flow w' ∧
          (w' = r1.2 → flow_addr f1 ≠ flow_addr f2))
       r1.1 r2.1).
Proof.
  split.
  - intros params run_type w w' r1 r2.
    pose proof (alike_build_run_type_flow params run_type w w') as Halike.
    destruct (build_run_type_flow_outcome params run_type w)
      as (_ & Hnext & _ & _ & Hok1).
    destruct (build_run_type_flow_outcome params run_type w')
      as (_ & _ & _ & _ & Hok2).
    fold r1 in Halike, Hnext, Hok1. fold r2 in Halike, Hok2.
    destruct r1.1 as [f1|e1], r2.1 as [f2|e2]; simpl in *; try done.
    destruct (Hok1 f1 eq_refl) as ([_ Ha1 Hs1 _ _] & _).
    destruct (Hok2 f2 eq_refl) as ([_ Ha2 Hs2 _ _] & _).
    repeat split; try done. intros ->. rewrite Ha1, Ha2, Hnext. lia.
  - intros arg w w' r1 r2.
    pose proof (alike_build_night_batch_flow arg w w') as Halike.
    destruct (build_night_batch_flow_outcome arg w)
      as (_ & Hnext & _ & _ & Hok1).
    destruct (build_night_batch_flow_outcome arg w')
      as (_ & _ & _ & _ & Hok2).
    fold r1 in Halike, Hnext, Hok1. fold r2 in Halike, Hok2.
    destruct r1.1 as [f1|e1], r2.1 as [f2|e2]; simpl in *; try done.
    destruct (Hok1 f1 eq_refl) as ([_ Ha1 Hs1 _ _] & _).
    destruct (Hok2 f2 eq_refl) as ([_ Ha2 Hs2 _ _] & _).
    repeat split; try done. intros ->. rewrite Ha1, Ha2, Hnext. lia.
Qed.

(** C8, as stated, does not hold for arguments that are only equal.  The
    params {"libraries": [{"version": 1}]} and
    {"libraries": [{"version": True}]} are equal ([1 == True]), and the two
    Flows have different node ids, display names and subflow params: the
    ids are made of str(version), "1" for the one and "True" for the
    other. *)
Lemma equal_params_different_ids :
  let p1 := VDict [("libraries", VList [library (VInt 1)])] in
  let p2 := VDict [("libraries", VList [library (VBool true)])] in
  py_eq p1 p2 = true ∧
  ∃ f1 f2,
    (build_run_type_flow (H:=sample_externals) p1 (VStr "ftb") empty_world).1 = Ok f1 ∧
    (build_run_type_flow (H:=sample_externals) p2 (VStr "ftb") empty_world).1 = Ok f2 ∧
    node_ids f1 = ["prepare_ftb_data"; "build_ftb_1_image"; "run_ftb_1_pricing";
                   "calculate_ftb_diff"; "notify_ftb_complete"] ∧
    node_ids f2 = ["prepare_ftb_data"; "build_ftb_True_image"; "run_ftb_True_pricing";
                   "calculate_ftb_diff"; "notify_ftb_complete"] ∧
    flow_shape f1 ≠ flow_shape f2.
Proof.
  intros p1 p2. subst p1 p2. split; [vm_compute; reflexivity|].
  eexists. eexists.
  split; [vm_compute; reflexivity|]. split; [vm_compute; reflexivity|].
  split; [vm_compute; reflexivity|]. split; [vm_compute; reflexivity|].
  vm_compute. discriminate.
Qed.

(** * Further properties of the builders and of the callables *)

Lemma zip_snoc {A B} (l : list A) (k : list B) a b :
  length l = length k → zip (l ++ [a]) (k ++ [b]) = zip l k ++ [(a, b)].
Proof.
  revert k. induction l as [|x l IH]; intros [|y k] Hlen; simpl in *; try lia.
  - done.
  - f_equal. apply IH. lia.
Qed.

Section forward_nodes.
Context `{Externals}.

Lemma library_step_nodes env s st d w :
  let v := default VNone (assoc_get "version" d) in
  build_id (VStr s) v ∉ node_ids st.1 →
  pricing_id (VStr s) v ∉ node_ids st.1 →
  library_step env (VStr s) st (VDict d) w =
    (Ok (snoc_node (snoc_node st.1 (build_node env s (VDict d) v))
                   (pricing_node env s v),
         st.2 ++ [pricing_id (VStr s) v]),
     mkWorld (alter (insert "pricing_flow_tasks"
                       (VList (VStr <$> st.2 ++ [pricing_id (VStr s) v])))
                env (alter (insert "version" v) env (frames w)))
             (next_flow w)
             (trace w ++ [EvRegister (node_ids st.1) (build_node env s (VDict d) v);
                          EvRegister (node_ids st.1 ++ [build_id (VStr s) v])
                                     (pricing_node env s v)])).
Proof.
  intros v Hb Hp. unfold library_step, subflow.
  cbn [py_get py_upper lift bind emit set_cell fst snd]. fold v.
  rewrite register_snoc by done. cbn [fst snd].
  rewrite register_snoc.
  2:{ rewrite node_ids_snoc. simpl. rewrite elem_of_app, list_elem_of_singleton.
      intros [?|Heq]; [done|]. symmetry in Heq. by apply build_id_not_pricing in Heq. }
  unfold ret. cbn [frames next_flow trace]. rewrite node_ids_snoc.
  rewrite <- app_assoc. reflexivity.
Qed.

Lemma for_each_library_step_nodes env s libs : ∀ versions st w fr,
  versions_of libs = Ok versions →
  NoDup (py_str <$> versions) →
  (∀ v, v ∈ versions →
        (build_id (VStr s) v ∉ node_ids st.1) ∧
        pricing_id (VStr s) v ∉ node_ids st.1) →
  frames w !! env = Some fr →
  ∃ w' fr',
    for_each (library_step env (VStr s)) libs st w =
      (Ok (with_nodes st.1 (flow_nodes st.1 ++
                            flat_map (library_nodes env s) (zip libs versions)),
           st.2 ++ (pricing_id (VStr s) <$> versions)), w') ∧
    next_flow w' = next_flow w ∧
    length (frames w') = length (frames w) ∧
    frames w' !! env = Some fr' ∧
    (∀ a, a ≠ env → frames w' !! a = frames w !! a) ∧
    frame_after_loop "version" (last versions)
      (st.2 ++ (pricing_id (VStr s) <$> versions)) "pricing_flow_tasks" fr fr'.
Proof.
  induction libs as [|lib libs IH]; intros versions st w fr Hv Hnd Hfresh Hfr.
  - injection Hv as <-. simpl. exists w, fr. rewrite !app_nil_r.
    destruct st as [[a n st0 nodes] tasks]. repeat split; done.
  - apply map_result_cons in Hv as (v & vs & Hlib & Hvs & ->).
    destruct lib as [| | | | |d]; try discriminate. injection Hlib as Hv.
    rewrite fmap_cons in Hnd. apply NoDup_cons in Hnd as [Hv_new Hnd].
    destruct (Hfresh v (list_elem_of_here _ _)) as [Hb Hp].
    rewrite <- Hv in Hb, Hp.
    pose proof (library_step_nodes env s st d w Hb Hp) as Hstep.
    cbv zeta in Hstep. rewrite Hv in Hstep.
    rewrite for_each_cons. erewrite bind_eq_ok by exact Hstep.
    set (fr1 := <["pricing_flow_tasks" :=
                   VList (VStr <$> st.2 ++ [pricing_id (VStr s) v])]>
                  (<["version" := v]> fr)).
    match goal with |- context [for_each _ libs ?st1 ?w1] =>
      destruct (IH vs st1 w1 fr1 Hvs Hnd) as (w' & fr' & Hloop & Hn & Hl & Hfr' & Hoth & Hafter)
    end.
    { intros v' Hv'. destruct (Hfresh v' (list_elem_of_further _ _ _ Hv')) as [Hb' Hp'].
      assert (Hne : py_str v' ≠ py_str v).
      { intros Heq. apply Hv_new. rewrite <- Heq. apply list_elem_of_fmap. eauto. }
      cbn [fst]. rewrite !node_ids_snoc. simpl.
      rewrite !elem_of_app, !list_elem_of_singleton. split.
      - intros [[?|Heq]|Heq]; [done| |].
        + by apply build_id_inj in Heq.
        + by apply build_id_not_pricing in Heq.
      - intros [[?|Heq]|Heq]; [done| |].
        + symmetry in Heq. by apply build_id_not_pricing in Heq.
        + by apply pricing_id_inj in Heq. }
    { cbn [frames]. rewrite list_lookup_alter_eq, list_lookup_alter_eq, Hfr. done. }
    exists w', fr'. rewrite Hloop. cbn [fst snd frames next_flow] in *.
    rewrite !length_alter in Hl.
    split.
    { rewrite fmap_cons, <- (app_assoc st.2). unfold with_nodes, snoc_node.
      simpl. by rewrite <- !app_assoc. }
    split; [done|]. split; [done|]. split; [done|]. split.
    { intros a Ha. rewrite Hoth by done. by rewrite !list_lookup_alter_ne. }
    destruct Hafter as [Hkeep Hlast]. split.
    + intros y Hy1 Hy2. rewrite Hkeep by done. unfold fr1.
      by rewrite !lookup_insert_ne.
    + rewrite fmap_cons. rewrite <- app_assoc in Hlast. simpl in Hlast.
      destruct vs as [|v1 vs'].
      * cbn [last] in Hlast. subst fr'. cbn [last]. unfold fr1. split.
        -- rewrite lookup_insert_ne by done. by rewrite lookup_insert_eq.
        -- intros _. by rewrite lookup_insert_eq.
      * change (last (v :: v1 :: vs')) with (last (v1 :: vs')).
        destruct (last (v1 :: vs')) eqn:Elast; [exact Hlast|].
        by apply last_None in Elast.
Qed.

Lemma library_nodes_ids env s libs versions id :
  id ∈ node_id <$> flat_map (library_nodes env s) (zip libs versions) →
  ∃ v, v ∈ versions ∧ (id = build_id (VStr s) v ∨ id = pricing_id (VStr s) v).
Proof.
  revert versions. induction libs as [|lib libs IH]; intros [|v vs]; simpl;
    try (by intros ?%elem_of_nil).
  rewrite !elem_of_cons. intros [->|[->|Hin]].
  - exists v. split; [left|by left].
  - exists v. split; [left|by right].
  - destruct (IH vs Hin) as (v' & Hv' & Hid). exists v'. split; [by right|done].
Qed.

Lemma build_run_type_flow_nodes d s libraries libs versions w :
  py_get (VDict d) "libraries" (VList []) = Ok libraries →
  py_iter libraries = Ok libs →
  versions_of libs = Ok versions →
  NoDup (py_str <$> versions) →
  ∃ w' fr',
    build_run_type_flow (VDict d) (VStr s) w =
      (Ok (mkFlow (next_flow w) (s +:+ "_flow") store
                  (run_type_nodes (length (frames w)) s libs versions)), w') ∧
    next_flow w' = S (next_flow w) ∧
    length (frames w') = S (length (frames w)) ∧
    frames w' !! length (frames w) = Some fr' ∧
    (∀ a, a ≠ length (frames w) → frames w' !! a = frames w !! a) ∧
    fr' !! "params" = Some (VDict d) ∧
    fr' !! "run_type" = Some (VStr s) ∧
    fr' !! "pricing_flow_tasks" =
      Some (VList (VStr <$> (pricing_id (VStr s) <$> versions))) ∧
    fr' !! "version" = last versions.
Proof.
  intros Hlibs Hiter Hv Hnd. unfold build_run_type_flow.
  rewrite bind_new_frame, bind_AsyncFlow. unfold task.
  cbn [py_upper lift bind emit set_cell fst snd frames next_flow trace].
  rewrite register_snoc by apply not_elem_of_nil.
  rewrite Hlibs. cbn [lift bind set_cell]. rewrite Hiter.
  set (env := length (frames w)).
  set (fr0 := <["pricing_flow_tasks" := VList []]>
                ({["params" := VDict d; "run_type" := VStr s]} : gmap string pyval)).
  match goal with |- context [bind (for_each ?b libs ?st) ?kont ?w1] =>
    destruct (for_each_library_step_nodes env s libs versions st w1 fr0 Hv Hnd)
      as (w2 & fr' & Hloop & Hn & Hl & Hfr' & Hoth & Hkeep & Hlast)
  end.
  { intros v _. cbn [fst]. rewrite node_ids_snoc. simpl.
    rewrite !list_elem_of_singleton. split; intros Heq; symmetry in Heq.
    - by apply prepare_id_not_build in Heq.
    - by apply prepare_id_not_pricing in Heq. }
  { cbn [frames next_flow trace]. rewrite list_lookup_alter_eq.
    rewrite lookup_app_r by (unfold env; lia).
    unfold env. by rewrite Nat.sub_diag. }
  erewrite bind_eq_ok by exact Hloop.
  cbn [py_upper lift bind emit set_cell fst snd frames next_flow trace app] in *.
  rewrite register_snoc.
  2:{ unfold node_ids, with_nodes. simpl. rewrite elem_of_cons.
      intros [Heq|Hin]; [by apply diff_id_not_prepare in Heq|].
      apply library_nodes_ids in Hin as (v & _ & [Heq|Heq]).
      - by apply diff_id_not_build in Heq.
      - by apply diff_id_not_pricing in Heq. }
  rewrite register_snoc.
  2:{ rewrite node_ids_snoc, elem_of_app, list_elem_of_singleton.
      unfold node_ids, with_nodes. simpl. rewrite elem_of_cons.
      intros [[Heq|Hin]|Heq]; [by apply notify_id_not_prepare in Heq| |].
      - apply library_nodes_ids in Hin as (v & _ & [Heq|Heq]).
        + by apply notify_id_not_build in Heq.
        + by apply notify_id_not_pricing in Heq.
      - by apply notify_id_not_diff in Heq. }
  unfold ret. rewrite length_alter, length_app in Hl. simpl in Hl.
  unfold snoc_node, with_nodes, run_type_nodes. simpl.
  rewrite <- !app_assoc. eexists. exists fr'.
  split; [reflexivity|]. cbn [frames next_flow].
  split; [done|]. split; [lia|]. split; [done|]. split.
  { intros a Ha. rewrite Hoth by done. rewrite list_lookup_alter_ne by done.
    destruct (decide (a < length (frames w))) as [Hlt|Hge].
    - by rewrite lookup_app_l.
    - rewrite lookup_app_r by lia. rewrite (lookup_ge_None_2 (frames w)) by lia.
      apply lookup_ge_None_2. simpl. unfold env in *. lia. }
  assert (Hp : fr' !! "params" = Some (VDict d)).
  { rewrite Hkeep by done. unfold fr0. by simplify_map_eq. }
  assert (Hr : fr' !! "run_type" = Some (VStr s)).
  { rewrite Hkeep by done. unfold fr0. by simplify_map_eq. }
  split; [done|]. split; [done|].
  destruct (last versions) as [v|] eqn:Elast.
  - destruct Hlast as [Hver Htasks]. split; [|done]. by apply Htasks.
  - subst fr'. apply last_None in Elast as ->. unfold fr0. split; by simplify_map_eq.
Qed.

Lemma library_step_inv env rt st lib w st' w' :
  library_step env rt st lib w = (Ok st', w') →
  ∃ v, py_get lib "version" VNone = Ok v.
Proof.
  unfold library_step. intros Hstep.
  apply bind_lift_ok in Hstep as (v & Hv & _). eauto.
Qed.

Lemma for_each_library_step_inv env rt libs : ∀ st w st' w',
  for_each (library_step env rt) libs st w = (Ok st', w') →
  ∃ versions, versions_of libs = Ok versions.
Proof.
  induction libs as [|lib libs IH]; intros st w st' w' Hloop.
  - by exists [].
  - rewrite for_each_cons in Hloop.
    apply bind_ok in Hloop as (st1 & w1 & Hstep & Hrest).
    apply library_step_inv in Hstep as [v Hv].
    apply IH in Hrest as [vs Hvs].
    exists (v :: vs). unfold versions_of in *. simpl. by rewrite Hv, Hvs.
Qed.

Lemma build_run_type_flow_inv params run_type w f :
  (build_run_type_flow params run_type w).1 = Ok f →
  ∃ d s libraries libs versions,
    params = VDict d ∧ run_type = VStr s ∧
    py_get params "libraries" (VList []) = Ok libraries ∧
    py_iter libraries = Ok libs ∧
    versions_of libs = Ok versions ∧
    NoDup (py_str <$> versions).
Proof.
  intros Hf.
  destruct (build_run_type_flow_outcome params run_type w) as (_ & _ & _ & _ & Hok).
  destruct (Hok f Hf) as (_ & [d ->] & [s ->]).
  assert (Hrun : ∃ w', build_run_type_flow (VDict d) (VStr s) w = (Ok f, w')).
  { destruct (build_run_type_flow (VDict d) (VStr s) w) as [r w']; simpl in Hf.
    subst r. eauto. }
  destruct Hrun as [w' Hrun].
  unfold build_run_type_flow in Hrun.
  rewrite bind_new_frame, bind_AsyncFlow in Hrun. unfold task in Hrun.
  cbn [py_upper py_get lift bind emit set_cell fst snd frames next_flow trace] in Hrun.
  rewrite register_snoc in Hrun by apply not_elem_of_nil.
  cbn [lift bind] in Hrun.
  set (libraries := default (VList []) (assoc_get "libraries" d)) in *.
  destruct (py_iter libraries) as [libs|e] eqn:Hiter; [|discriminate].
  apply bind_ok in Hrun as (st & w1 & Hloop & _).
  apply for_each_library_step_inv in Hloop as [versions Hv].
  exists d, s, libraries, libs, versions. repeat split; try done.
  destruct (decide (NoDup (py_str <$> versions))) as [Hnd|Hdup]; [done|].
  destruct (build_run_type_flow_duplicate d s libraries libs versions w
              eq_refl Hiter Hv Hdup) as (k & v & _ & _ & _ & Hraise).
  rewrite Hraise in Hf. discriminate.
Qed.

End forward_nodes.

(** X1. [build_run_type_flow] returns a Flow exactly when [run_type] is a
    str, [params] is a dict, its libraries value (the empty list when the
    key is missing) can be iterated, every item is a dict, and the texts of
    the versions are pairwise distinct. *)
Theorem build_run_type_flow_succeeds_iff `{Externals} params run_type w :
  (∃ f, (build_run_type_flow params run_type w).1 = Ok f) ↔
  ∃ d s libraries libs versions,
    params = VDict d ∧ run_type = VStr s ∧
    py_get params "libraries" (VList []) = Ok libraries ∧
    py_iter libraries = Ok libs ∧
    versions_of libs = Ok versions ∧
    NoDup (py_str <$> versions).
Proof.
  split.
  - intros [f Hf]. by eapply build_run_type_flow_inv.
  - intros (d & s & libraries & libs & versions & -> & -> & Hl & Hi & Hv & Hnd).
    destruct (build_run_type_flow_nodes d s libraries libs versions w Hl Hi Hv Hnd)
      as (w' & fr' & Hrun & _).
    eexists. by rewrite Hrun.
Qed.

Lemma library_nodes_length `{Externals} env s libs versions :
  length libs = length versions →
  length (flat_map (library_nodes env s) (zip libs versions)) = 2 * length libs.
Proof.
  revert versions. induction libs as [|lib libs IH]; intros [|v vs] Hlen;
    simpl in *; try lia.
  rewrite (IH vs) by lia. lia.
Qed.

(** X2. Every Flow that [build_run_type_flow] returns is a new object named
    {run_type}_flow, bound to the store, whose nodes are, in registration
    order: the prepare task; per library its build subflow (with the library
    dict as params, after prepare) and its pricing subflow (params None,
    after that build); the diff task after all pricing nodes; the notify
    task after diff, with the display names of the source.  It has two
    nodes per library and three more. *)
Theorem build_run_type_flow_returns `{Externals} params run_type w f :
  (build_run_type_flow params run_type w).1 = Ok f →
  ∃ s libraries libs versions,
    run_type = VStr s ∧
    py_get params "libraries" (VList []) = Ok libraries ∧
    py_iter libraries = Ok libs ∧
    versions_of libs = Ok versions ∧
    f = mkFlow (next_flow w) (s +:+ "_flow") store
               (run_type_nodes (length (frames w)) s libs versions) ∧
    length (flow_nodes f) = 2 * length libs + 3.
Proof.
  intros Hf.
  destruct (build_run_type_flow_inv params run_type w f Hf)
    as (d & s & libraries & libs & versions & -> & -> & Hl & Hi & Hv & Hnd).
  destruct (build_run_type_flow_nodes d s libraries libs versions w Hl Hi Hv Hnd)
    as (w' & fr' & Hrun & _).
  rewrite Hrun in Hf. injection Hf as <-.
  exists s, libraries, libs, versions. repeat split; try done.
  unfold run_type_nodes. simpl. rewrite length_app, library_nodes_length.
  - simpl. lia.
  - symmetry. by eapply map_result_length.
Qed.

Lemma build_run_type_flow_returns_witness :
  ∃ f,
    (build_run_type_flow (H:=sample_externals) sample_params (VStr "ftb")
       empty_world).1 = Ok f ∧
    ∃ s libraries libs versions,
      VStr "ftb" = VStr s ∧
      py_get sample_params "libraries" (VList []) = Ok libraries ∧
      py_iter libraries = Ok libs ∧
      versions_of libs = Ok versions ∧
      f = mkFlow (next_flow empty_world) (s +:+ "_flow") (store (Externals:=sample_externals))
                 (run_type_nodes (H:=sample_externals) (length (frames empty_world)) s
                    libs versions) ∧
      length (flow_nodes f) = 2 * length libs + 3.
Proof.
  eexists. split; [vm_compute; reflexivity|].
  apply (build_run_type_flow_returns (H:=sample_externals) sample_params
           (VStr "ftb") empty_world).
  vm_compute. reflexivity.
Defined.




Section run_type_callables.
Context `{Externals}.

Lemma build_run_type_flow_frame params run_type w f :
  (build_run_type_flow params run_type w).1 = Ok f →
  ∃ d s libraries libs versions fr,
    params = VDict d ∧ run_type = VStr s ∧
    py_get params "libraries" (VList []) = Ok libraries ∧
    py_iter libraries = Ok libs ∧
    versions_of libs = Ok versions ∧
    flow_nodes f = run_type_nodes (length (frames w)) s libs versions ∧
    frames (build_run_type_flow params run_type w).2 !! length (frames w) = Some fr ∧
    run_type_frame d s versions fr.
Proof.
  intros Hf.
  destruct (build_run_type_flow_inv params run_type w f Hf)
    as (d & s & libraries & libs & versions & -> & -> & Hl & Hi & Hv & Hnd).
  destruct (build_run_type_flow_nodes d s libraries libs versions w Hl Hi Hv Hnd)
    as (w' & fr' & Hrun & _ & _ & Hfr & _ & Hp & Hr & Ht & Hver).
  rewrite Hrun in Hf. injection Hf as <-.
  exists d, s, libraries, libs, versions, fr'. rewrite Hrun.
  repeat split; done.
Qed.


Lemma calculate_differences_run env d s versions fr ctx w :
  frames w !! env = Some fr →
  run_type_frame d s versions fr →
  calculate_differences env ctx w =
    (Ok (mkContext (state ctx)
                   (logs ctx ++ calculate_differences_logs s (length versions))),
     mkWorld (frames w) (next_flow w)
             (trace w ++ (EvLog <$> calculate_differences_logs s (length versions)))).
Proof.
  intros Hfr [_ Hr Ht _]. unfold calculate_differences.
  erewrite bind_read_cell by eauto. rewrite bind_log.
  erewrite bind_read_cell by eauto.
  cbn [py_len lift bind]. rewrite !length_fmap.
  unfold log, emit, bind, ret. simpl. rewrite <- !app_assoc. reflexivity.
Qed.

Lemma notify_complete_run env d s versions fr ctx w :
  frames w !! env = Some fr →
  run_type_frame d s versions fr →
  notify_complete env ctx w =
    (Ok (mkContext (state ctx)
                   (logs ctx ++ ["Sending notification for " +:+ s +:+ " completion"])),
     mkWorld (frames w) (next_flow w)
             (trace w ++ [EvLog ("Sending notification for " +:+ s +:+ " completion")])).
Proof.
  intros Hfr [_ Hr _ _]. unfold notify_complete.
  erewrite bind_read_cell by eauto. reflexivity.
Qed.

Lemma build_library_image_run env d s versions v fr ctx w :
  frames w !! env = Some fr →
  run_type_frame d s versions fr →
  last versions = Some v →
  build_library_image env ctx w =
    (do! emit (EvCall (Call_build_firebird_image_flow (s +:+ "_" +:+ py_str v))) in
     build_firebird_image_flow (s +:+ "_" +:+ py_str v)) w.
Proof.
  intros Hfr [_ Hr _ Hv] Hlast. rewrite Hlast in Hv. unfold build_library_image.
  erewrite bind_read_cell by eauto. erewrite bind_read_cell by eauto.
  reflexivity.
Qed.

Lemma run_library_pricing_run env d s versions v fr ctx w :
  frames w !! env = Some fr →
  run_type_frame d s versions fr →
  last versions = Some v →
  run_library_pricing env ctx w =
    (do! emit (EvCall (Call_build_pricing_flow
                         (s +:+ "_" +:+ py_str v +:+ "_pricing"))) in
     build_pricing_flow (s +:+ "_" +:+ py_str v +:+ "_pricing")) w.
Proof.
  intros Hfr [_ Hr _ Hv] Hlast. rewrite Hlast in Hv. unfold run_library_pricing.
  erewrite bind_read_cell by eauto. erewrite bind_read_cell by eauto.
  reflexivity.
Qed.

Lemma run_type_nodes_inv env s libs versions n :
  n ∈ run_type_nodes env s libs versions →
  n = prepare_node env s ∨
  (∃ lib v, (lib, v) ∈ zip libs versions ∧
            (n = build_node env s lib v ∨ n = pricing_node env s v)) ∨
  n = diff_node env s versions ∨ n = notify_node env s.
Proof.
  unfold run_type_nodes. rewrite elem_of_cons, elem_of_app.
  intros [->|[Hin|Hin]]; [by left| |].
  - right. left. apply list_elem_of_In, in_flat_map in Hin as ([lib v] & Hlv & Hn).
    exists lib, v. split; [by apply list_elem_of_In|].
    simpl in Hn. destruct Hn as [Hn|[Hn|Hn]]; [subst n; auto..|done].
  - rewrite elem_of_cons, list_elem_of_singleton in Hin.
    destruct Hin as [-> | ->]; auto.
Qed.

Lemma zip_nonempty_last {A B} (l : list A) (k : list B) x :
  x ∈ zip l k → ∃ y, last k = Some y.
Proof.
  intros Hin. destruct k as [|b k].
  - destruct l; by apply elem_of_nil in Hin.
  - destruct (last (b :: k)) as [y|] eqn:E; [eauto|]. by apply last_None in E.
Qed.

End run_type_callables.

Section run_type_callables_after_build.
Context `{Externals}.

Lemma registered_closure params run_type w f n :
  (build_run_type_flow params run_type w).1 = Ok f →
  n ∈ flow_nodes f →
  ∃ d s libraries libs versions fr,
    params = VDict d ∧ run_type = VStr s ∧
    py_get params "libraries" (VList []) = Ok libraries ∧
    py_iter libraries = Ok libs ∧
    versions_of libs = Ok versions ∧
    frames (build_run_type_flow params run_type w).2 !! length (frames w) = Some fr ∧
    run_type_frame d s versions fr ∧
    node_fn n = Closure (fn_code (node_fn n)) (length (frames w)) ∧
    (fn_code (node_fn n) = Fn_build_library_image ∨
     fn_code (node_fn n) = Fn_run_library_pricing →
     ∃ v, last versions = Some v).
Proof.
  intros Hf Hn.
  destruct (build_run_type_flow_frame params run_type w f Hf)
    as (d & s & libraries & libs & versions & fr &
        -> & -> & Hl & Hi & Hv & Hnodes & Hfr & Hframe).
  exists d, s, libraries, libs, versions, fr. split_and!; try done.
  - rewrite Hnodes in Hn. apply run_type_nodes_inv in Hn
      as [->|[(lib & v & _ & [->| ->])|[->| ->]]]; reflexivity.
  - rewrite Hnodes in Hn. apply run_type_nodes_inv in Hn
      as [->|[(lib & v & Hin & _)|[->| ->]]]; simpl;
      try (by intros [?|?]).
    intros _. by eapply zip_nonempty_last.
Qed.


(** X4. Called after a build that succeeded, the callables
    calculate_differences and notify_complete always return, leave the state
    of the Context as it is and push nothing.  calculate_differences logs the
    length of pricing_flow_tasks, which is the number of libraries. *)
Theorem log_only_tasks_return params run_type w f n w2 ctx :
  (build_run_type_flow params run_type w).1 = Ok f →
  n ∈ flow_nodes f →
  frames w2 !! length (frames w) =
    frames (build_run_type_flow params run_type w).2 !! length (frames w) →
  ∃ s libraries libs,
    run_type = VStr s ∧
    py_get params "libraries" (VList []) = Ok libraries ∧
    py_iter libraries = Ok libs ∧
    (fn_code (node_fn n) = Fn_calculate_differences →
     invoke (node_fn n) ctx w2 =
       (Ok (mkContext (state ctx)
                      (logs ctx ++ calculate_differences_logs s (length libs)), None),
        mkWorld (frames w2) (next_flow w2)
                (trace w2 ++ (EvLog <$> calculate_differences_logs s (length libs))))) ∧
    (fn_code (node_fn n) = Fn_notify_complete →
     invoke (node_fn n) ctx w2 =
       (Ok (mkContext (state ctx)
                      (logs ctx ++ ["Sending notification for " +:+ s +:+ " completion"]),
            None),
        mkWorld (frames w2) (next_flow w2)
                (trace w2 ++
                 [EvLog ("Sending notification for " +:+ s +:+ " completion")]))).
Proof.
  intros Hf Hn Hw2.
  destruct (registered_closure params run_type w f n Hf Hn)
    as (d & s & libraries & libs & versions & fr &
        -> & -> & Hl & Hi & Hv & Hfr & Hframe & Hfn & _).
  exists s, libraries, libs. split_and!; try done.
  - intros Hcode. rewrite Hfn, Hcode. unfold invoke. cbn [fn_code fn_env].
    unfold bind. rewrite Hfr in Hw2.
    rewrite (calculate_differences_run _ d s versions fr ctx w2) by done.
    by rewrite (map_result_length _ _ _ Hv).
  - intros Hcode. rewrite Hfn, Hcode. unfold invoke. cbn [fn_code fn_env].
    unfold bind. rewrite Hfr in Hw2.
    by rewrite (notify_complete_run _ d s versions fr ctx w2).
Qed.

(** X5. After a build that succeeded, every build_library_image callable,
    whichever library it was registered for, calls
    build_firebird_image_flow("{run_type}_{v}") where [v] is the version of
    the last library, and every run_library_pricing callable calls
    build_pricing_flow("{run_type}_{v}_pricing") for that same [v]: they
    read [version] from the frame when they are called. *)
Theorem library_callables_read_last_version params run_type w f n w2 ctx :
  (build_run_type_flow params run_type w).1 = Ok f →
  n ∈ flow_nodes f →
  fn_code (node_fn n) = Fn_build_library_image ∨
  fn_code (node_fn n) = Fn_run_library_pricing →
  frames w2 !! length (frames w) =
    frames (build_run_type_flow params run_type w).2 !! length (frames w) →
  ∃ s libraries libs versions v,
    run_type = VStr s ∧
    py_get params "libraries" (VList []) = Ok libraries ∧
    py_iter libraries = Ok libs ∧
    versions_of libs = Ok versions ∧
    last versions = Some v ∧
    (fn_code (node_fn n) = Fn_build_library_image →
     invoke (node_fn n) ctx w2 =
       (let! g := (do! emit (EvCall (Call_build_firebird_image_flow
                                       (s +:+ "_" +:+ py_str v))) in
                   build_firebird_image_flow (s +:+ "_" +:+ py_str v)) in
        ret (ctx, Some g)) w2) ∧
    (fn_code (node_fn n) = Fn_run_library_pricing →
     invoke (node_fn n) ctx w2 =
       (let! g := (do! emit (EvCall (Call_build_pricing_flow
                                       (s +:+ "_" +:+ py_str v +:+ "_pricing"))) in
                   build_pricing_flow (s +:+ "_" +:+ py_str v +:+ "_pricing")) in
        ret (ctx, Some g)) w2).
Proof.
  intros Hf Hn Hcode Hw2.
  destruct (registered_closure params run_type w f n Hf Hn)
    as (d & s & libraries & libs & versions & fr &
        -> & -> & Hl & Hi & Hv & Hfr & Hframe & Hfn & Hlast).
  destruct (Hlast Hcode) as [v Hv_last].
  exists s, libraries, libs, versions, v. split_and!; try done.
  - intros Hc. rewrite Hfn, Hc. unfold invoke. cbn [fn_code fn_env].
    rewrite Hfr in Hw2. unfold bind at 1 3.
    by rewrite (build_library_image_run _ d s versions v fr ctx w2).
  - intros Hc. rewrite Hfn, Hc. unfold invoke. cbn [fn_code fn_env].
    rewrite Hfr in Hw2. unfold bind at 1 3.
    by rewrite (run_library_pricing_run _ d s versions v fr ctx w2).
Qed.

End run_type_callables_after_build.


Section forward_night.
Context `{Externals}.

Lemma run_type_step_nodes env st d t w :
  default VNone (assoc_get "type" d) = VStr t →
  run_flow_id (VStr t) ∉ node_ids st.1 →
  run_type_step env st (VDict d) w =
    (Ok (snoc_node st.1 (run_flow_node env t), st.2 ++ [run_flow_id (VStr t)]),
     mkWorld (alter (insert "run_type" (VStr t)) env (frames w)) (next_flow w)
             (trace w ++ [EvRegister (node_ids st.1) (run_flow_node env t)])).
Proof.
  intros Ht Hfresh. unfold run_type_step, subflow.
  cbn [py_get lift bind emit set_cell fst snd]. rewrite Ht.
  cbn [py_upper lift bind emit set_cell fst snd].
  rewrite register_snoc by done. reflexivity.
Qed.

Lemma for_each_run_type_step_nodes env cfgs : ∀ ts st w fr,
  types_of cfgs = Ok (VStr <$> ts) →
  NoDup ts →
  (∀ t, t ∈ ts → run_flow_id (VStr t) ∉ node_ids st.1) →
  frames w !! env = Some fr →
  ∃ w' fr',
    for_each (run_type_step env) cfgs st w =
      (Ok (with_nodes st.1 (flow_nodes st.1 ++ (run_flow_node env <$> ts)),
           st.2 ++ (run_flow_id <$> (VStr <$> ts))), w') ∧
    next_flow w' = next_flow w ∧
    length (frames w') = length (frames w) ∧
    frames w' !! env = Some fr' ∧
    (∀ a, a ≠ env → frames w' !! a = frames w !! a) ∧
    (∀ y, y ≠ "run_type" → fr' !! y = fr !! y) ∧
    match last ts with
    | Some t => fr' !! "run_type" = Some (VStr t)
    | None => fr' = fr
    end.
Proof.
  induction cfgs as [|cfg cfgs IH]; intros ts st w fr Ht Hnd Hfresh Hfr.
  - destruct ts as [|t ts]; [|by rewrite fmap_cons in Ht]. simpl. exists w, fr.
    rewrite !app_nil_r. destruct st as [[a n st0 nodes] tasks].
    split_and!; done.
  - destruct ts as [|t ts].
    { apply map_result_cons in Ht as (? & ? & _ & _ & [=]). }
    rewrite fmap_cons in Ht.
    apply map_result_cons in Ht as (t0 & ts0 & Hcfg & Hts & Heq).
    injection Heq as <- <-.
    destruct cfg as [| | | | |d]; try discriminate. injection Hcfg as Hty.
    apply NoDup_cons in Hnd as [Ht_new Hnd].
    pose proof (Hfresh t (list_elem_of_here _ _)) as Hf.
    pose proof (run_type_step_nodes env st d t w Hty Hf) as Hstep.
    rewrite for_each_cons. erewrite bind_eq_ok by exact Hstep.
    set (fr1 := <["run_type" := VStr t]> fr).
    match goal with |- context [for_each _ cfgs ?st1 ?w1] =>
      destruct (IH ts st1 w1 fr1 Hts Hnd)
        as (w' & fr' & Hloop & Hn & Hl & Hfr' & Hoth & Hkeep & Hlast)
    end.
    { intros t' Hin. cbn [fst]. rewrite node_ids_snoc. simpl.
      rewrite elem_of_app, list_elem_of_singleton.
      intros [Hold|Heq].
      - by apply (Hfresh t' (list_elem_of_further _ _ _ Hin)).
      - apply run_flow_id_inj in Heq. simpl in Heq. by subst. }
    { cbn [frames]. by rewrite list_lookup_alter_eq, Hfr. }
    exists w', fr'. rewrite Hloop. cbn [fst snd frames next_flow] in *.
    rewrite length_alter in Hl.
    split.
    { rewrite !fmap_cons, <- (app_assoc st.2). unfold with_nodes, snoc_node.
      simpl. by rewrite <- !app_assoc. }
    split; [done|]. split; [done|]. split; [done|]. split.
    { intros a Ha. rewrite Hoth by done. by rewrite list_lookup_alter_ne. }
    split.
    + intros y Hy. rewrite Hkeep by done. unfold fr1. by rewrite lookup_insert_ne.
    + destruct ts as [|t1 ts'].
      * cbn [last] in *. subst fr'. unfold fr1. by rewrite lookup_insert_eq.
      * change (last (t :: t1 :: ts')) with (last (t1 :: ts')).
        destruct (last (t1 :: ts')) eqn:Elast; [exact Hlast|].
        by apply last_None in Elast.
Qed.

Lemma build_night_batch_flow_nodes d run_types cfgs ts w :
  py_get (VDict d) "run_types" (VList []) = Ok run_types →
  py_iter run_types = Ok cfgs →
  types_of cfgs = Ok (VStr <$> ts) →
  NoDup ts →
  ∃ w' fr',
    build_night_batch_flow (Some (VDict d)) w =
      (Ok (mkFlow (next_flow w) "Night Batch Flow" store
                  (night_batch_nodes (length (frames w)) ts)), w') ∧
    next_flow w' = S (next_flow w) ∧
    length (frames w') = S (length (frames w)) ∧
    frames w' !! length (frames w) = Some fr' ∧
    (∀ a, a ≠ length (frames w) → frames w' !! a = frames w !! a) ∧
    fr' !! "params" = Some (VDict d) ∧
    fr' !! "run_type" = VStr <$> last ts.
Proof.
  intros Hrt Hiter Ht Hnd. unfold build_night_batch_flow.
  cbv zeta. change (default VNone (Some (VDict d))) with (VDict d).
  rewrite bind_new_frame, bind_AsyncFlow. unfold task.
  cbn [lift bind emit fst snd frames next_flow trace].
  rewrite register_snoc by apply not_elem_of_nil.
  rewrite Hrt. cbn [lift bind]. rewrite Hiter.
  set (env := length (frames w)).
  set (fr0 := ({["params" := VDict d]} : gmap string pyval)).
  match goal with |- context [bind (for_each ?b cfgs ?st) ?kont ?w1] =>
    destruct (for_each_run_type_step_nodes env cfgs ts st w1 fr0 Ht Hnd)
      as (w2 & fr' & Hloop & Hn & Hl & Hfr' & Hoth & Hkeep & Hlast)
  end.
  { intros t _. cbn [fst]. rewrite node_ids_snoc. simpl.
    rewrite list_elem_of_singleton. apply run_flow_id_not_prepare. }
  { cbn [frames next_flow trace].
    rewrite lookup_app_r by (unfold env; lia).
    unfold env. by rewrite Nat.sub_diag. }
  erewrite bind_eq_ok by exact Hloop.
  cbn [lift bind emit fst snd frames next_flow trace app] in *.
  rewrite register_snoc.
  2:{ unfold node_ids, with_nodes. simpl. rewrite elem_of_cons.
      intros [Heq|Hin]; [discriminate|].
      rewrite <- list_fmap_compose in Hin.
      apply list_elem_of_fmap in Hin as (t & Heq & _). simpl in Heq.
      symmetry in Heq. by apply run_flow_id_not_notify in Heq. }
  unfold ret. rewrite length_app in Hl. simpl in Hl.
  unfold snoc_node, with_nodes, night_batch_nodes. simpl.
  eexists. exists fr'.
  split; [reflexivity|]. cbn [frames next_flow].
  split; [done|]. split; [lia|]. split; [done|]. split.
  { intros a Ha. rewrite Hoth by done.
    destruct (decide (a < length (frames w))) as [Hlt|Hge].
    - by rewrite lookup_app_l.
    - rewrite lookup_app_r by lia. rewrite (lookup_ge_None_2 (frames w)) by lia.
      apply lookup_ge_None_2. simpl. unfold env in *. lia. }
  split.
  { rewrite Hkeep by done. unfold fr0. by simplify_map_eq. }
  destruct (last ts) as [t|] eqn:Elast; [done|].
  subst fr'. unfold fr0. by simplify_map_eq.
Qed.

End forward_night.

Section night_inversion.
Context `{Externals}.

Lemma py_str_strs (ts : list string) : py_str <$> (VStr <$> ts) = ts.
Proof. rewrite <- list_fmap_compose. simpl. apply list_fmap_id. Qed.

Lemma strs_are_str (ts : list string) : Forall is_str (VStr <$> ts).
Proof. apply Forall_fmap, Forall_forall. intros t _. by exists t. Qed.

Lemma run_type_step_inv env st cfg w st' w' :
  run_type_step env st cfg w = (Ok st', w') →
  ∃ t, py_get cfg "type" VNone = Ok (VStr t).
Proof.
  unfold run_type_step. intros Hstep.
  apply bind_lift_ok in Hstep as (v & Hv & Hstep).
  apply bind_ok in Hstep as (u & w1 & _ & Hstep).
  apply bind_lift_ok in Hstep as (up & Hup & _).
  apply py_upper_ok in Hup as [t ->]. eauto.
Qed.

Lemma for_each_run_type_step_inv env cfgs : ∀ st w st' w',
  for_each (run_type_step env) cfgs st w = (Ok st', w') →
  ∃ ts, types_of cfgs = Ok (VStr <$> ts).
Proof.
  induction cfgs as [|cfg cfgs IH]; intros st w st' w' Hloop.
  - by exists [].
  - rewrite for_each_cons in Hloop.
    apply bind_ok in Hloop as (st1 & w1 & Hstep & Hrest).
    apply run_type_step_inv in Hstep as [t Ht].
    apply IH in Hrest as [ts Hts].
    exists (t :: ts). unfold types_of in *. simpl. by rewrite Ht, Hts.
Qed.

Lemma build_night_batch_flow_inv arg w f :
  (build_night_batch_flow arg w).1 = Ok f →
  ∃ d run_types cfgs ts,
    arg = Some (VDict d) ∧
    py_get (VDict d) "run_types" (VList []) = Ok run_types ∧
    py_iter run_types = Ok cfgs ∧
    types_of cfgs = Ok (VStr <$> ts) ∧
    NoDup ts.
Proof.
  intros Hf.
  destruct (build_night_batch_flow_outcome arg w) as (_ & _ & _ & _ & Hok).
  destruct (Hok f Hf) as (_ & params & -> & [d ->]).
  assert (Hrun : ∃ w', build_night_batch_flow (Some (VDict d)) w = (Ok f, w')).
  { destruct (build_night_batch_flow (Some (VDict d)) w) as [r w']; simpl in Hf.
    subst r. eauto. }
  destruct Hrun as [w' Hrun].
  unfold build_night_batch_flow in Hrun. cbv zeta in Hrun.
  change (default VNone (Some (VDict d))) with (VDict d) in Hrun.
  rewrite bind_new_frame, bind_AsyncFlow in Hrun. unfold task in Hrun.
  cbn [py_get lift bind emit fst snd frames next_flow trace] in Hrun.
  rewrite register_snoc in Hrun by apply not_elem_of_nil.
  cbn [lift bind] in Hrun.
  set (run_types := default (VList []) (assoc_get "run_types" d)) in *.
  destruct (py_iter run_types) as [cfgs|e] eqn:Hiter; [|discriminate].
  apply bind_ok in Hrun as (st & w1 & Hloop & _).
  apply for_each_run_type_step_inv in Hloop as [ts Ht].
  exists d, run_types, cfgs, ts. split_and!; try done.
  destruct (decide (NoDup ts)) as [Hnd|Hdup]; [done|].
  destruct (build_night_batch_flow_duplicate d run_types cfgs (VStr <$> ts) w
              eq_refl Hiter Ht (strs_are_str ts))
    as (k & v & _ & _ & _ & Hraise).
  { by rewrite py_str_strs. }
  rewrite Hraise in Hf. discriminate.
Qed.

End night_inversion.

(** X6. [build_night_batch_flow] returns a Flow exactly when [params] is
    given and is a dict, its run_types value (the empty list when the key is
    missing) can be iterated, every item is a dict whose type is a str, and
    the types are pairwise distinct.  The libraries are not looked at. *)
Theorem build_night_batch_flow_succeeds_iff `{Externals} arg w :
  (∃ f, (build_night_batch_flow arg w).1 = Ok f) ↔
  ∃ d run_types cfgs ts,
    arg = Some (VDict d) ∧
    py_get (VDict d) "run_types" (VList []) = Ok run_types ∧
    py_iter run_types = Ok cfgs ∧
    types_of cfgs = Ok (VStr <$> ts) ∧
    NoDup ts.
Proof.
  split.
  - intros [f Hf]. by eapply build_night_batch_flow_inv.
  - intros (d & run_types & cfgs & ts & -> & Hrt & Hi & Ht & Hnd).
    destruct (build_night_batch_flow_nodes d run_types cfgs ts w Hrt Hi Ht Hnd)
      as (w' & fr' & Hrun & _).
    eexists. by rewrite Hrun.
Qed.


Section night_callables.
Context `{Externals}.

Lemma night_batch_nodes_inv env ts n :
  n ∈ night_batch_nodes env ts →
  n = prepare_batch_node env ∨ (∃ t, t ∈ ts ∧ n = run_flow_node env t) ∨
  n = notify_batch_node env ts.
Proof.
  unfold night_batch_nodes. rewrite elem_of_cons, elem_of_app.
  intros [->|[Hin|Hin]]; [by left| |].
  - right. left. apply list_elem_of_fmap in Hin as (t & -> & Ht). eauto.
  - apply list_elem_of_singleton in Hin as ->. auto.
Qed.

Lemma build_night_batch_flow_frame arg w f :
  (build_night_batch_flow arg w).1 = Ok f →
  ∃ d run_types cfgs ts fr,
    arg = Some (VDict d) ∧
    py_get (VDict d) "run_types" (VList []) = Ok run_types ∧
    py_iter run_types = Ok cfgs ∧
    types_of cfgs = Ok (VStr <$> ts) ∧
    NoDup ts ∧
    f = mkFlow (next_flow w) "Night Batch Flow" store
               (night_batch_nodes (length (frames w)) ts) ∧
    frames (build_night_batch_flow arg w).2 !! length (frames w) = Some fr ∧
    fr !! "params" = Some (VDict d) ∧
    fr !! "run_type" = VStr <$> last ts.
Proof.
  intros Hf.
  destruct (build_night_batch_flow_inv arg w f Hf)
    as (d & run_types & cfgs & ts & -> & Hrt & Hi & Ht & Hnd).
  destruct (build_night_batch_flow_nodes d run_types cfgs ts w Hrt Hi Ht Hnd)
    as (w' & fr' & Hrun & _ & _ & Hfr & _ & Hp & Hr).
  rewrite Hrun in Hf. injection Hf as <-.
  exists d, run_types, cfgs, ts, fr'. rewrite Hrun. split_and!; done.
Qed.

Lemma execute_run_type_flow_run env d t fr ctx w :
  frames w !! env = Some fr →
  fr !! "params" = Some (VDict d) →
  fr !! "run_type" = Some (VStr t) →
  execute_run_type_flow env ctx w =
    (do! emit (EvCall (Call_build_run_type_flow (VDict d) (VStr t))) in
     build_run_type_flow (VDict d) (VStr t)) w.
Proof.
  intros Hfr Hp Hr. unfold execute_run_type_flow.
  erewrite bind_read_cell by eauto. erewrite bind_read_cell by eauto.
  reflexivity.
Qed.

Lemma prepare_batch_data_run env d fr run_types cfgs types libraries ctx w :
  frames w !! env = Some fr →
  fr !! "params" = Some (VDict d) →
  py_get (VDict d) "run_types" (VList []) = Ok run_types →
  py_iter run_types = Ok cfgs →
  types_of cfgs = Ok types →
  py_get (VDict d) "libraries" (VList []) = Ok libraries →
  (∀ libs versions,
     py_iter libraries = Ok libs → versions_of libs = Ok versions →
     prepare_batch_data env ctx w =
       (Ok (mkContext
              (<["libraries" := libraries]> (<["run_types" := run_types]> (state ctx)))
              (logs ctx ++ prepare_batch_data_logs types versions)),
        mkWorld (frames w) (next_flow w)
                (trace w ++ (EvLog <$> prepare_batch_data_logs types versions) ++
                 [EvPush [("run_types", run_types); ("libraries", libraries)]]))) ∧
  (∀ e, py_iter libraries = Raise e →
     prepare_batch_data env ctx w =
       (Raise e,
        mkWorld (frames w) (next_flow w)
                (trace w ++ [EvLog "Preparing night batch data";
                             EvLog ("Run types: " +:+ py_str (VList types))]))) ∧
  (∀ libs e, py_iter libraries = Ok libs → versions_of libs = Raise e →
     prepare_batch_data env ctx w =
       (Raise e,
        mkWorld (frames w) (next_flow w)
                (trace w ++ [EvLog "Preparing night batch data";
                             EvLog ("Run types: " +:+ py_str (VList types))]))).
Proof.
  intros Hfr Hp Hrt Hi Ht Hl. unfold prepare_batch_data.
  split_and!.
  - intros libs versions Hli Hv.
    rewrite bind_log. erewrite bind_read_cell by eauto.
    rewrite Hrt. cbn [lift bind]. erewrite bind_read_cell by eauto.
    rewrite Hl. cbn [lift bind]. rewrite Hi.
    unfold types_of in Ht. rewrite Ht. rewrite bind_log. cbn [lift bind].
    rewrite Hli. unfold versions_of in Hv. rewrite Hv. rewrite bind_log.
    unfold push, emit, bind, ret. simpl. rewrite <- !app_assoc. reflexivity.
  - intros e Hli.
    rewrite bind_log. erewrite bind_read_cell by eauto.
    rewrite Hrt. cbn [lift bind]. erewrite bind_read_cell by eauto.
    rewrite Hl. cbn [lift bind]. rewrite Hi.
    unfold types_of in Ht. rewrite Ht. rewrite bind_log. cbn [lift bind].
    rewrite Hli. simpl. rewrite <- !app_assoc. reflexivity.
  - intros libs e Hli Hv.
    rewrite bind_log. erewrite bind_read_cell by eauto.
    rewrite Hrt. cbn [lift bind]. erewrite bind_read_cell by eauto.
    rewrite Hl. cbn [lift bind]. rewrite Hi.
    unfold types_of in Ht. rewrite Ht. rewrite bind_log. cbn [lift bind].
    rewrite Hli. unfold versions_of in Hv. rewrite Hv.
    simpl. rewrite <- !app_assoc. reflexivity.
Qed.

End night_callables.

Lemma depends_node f n d : n ∈ flow_nodes f → d ∈ depends_on n → depends f (node_id n) d.
Proof. intros Hn Hd. by exists n. Qed.

(** X7. Every Flow that [build_night_batch_flow] returns is a new object
    named "Night Batch Flow", bound to the store, whose nodes are, in
    registration order: prepare_batch_data; per run type the subflow
    run_{type}_flow after prepare_batch_data; notify_batch_complete after
    all of these.  It has one node per run type and two more.  In a run, a
    run type flow is dispatched only when prepare_batch_data has Succeeded
    and notify_batch_complete only when every run type flow has. *)
Theorem build_night_batch_flow_returns `{Externals} arg w f :
  (build_night_batch_flow arg w).1 = Ok f →
  ∃ d run_types cfgs ts,
    arg = Some (VDict d) ∧
    py_get (VDict d) "run_types" (VList []) = Ok run_types ∧
    py_iter run_types = Ok cfgs ∧
    types_of cfgs = Ok (VStr <$> ts) ∧
    f = mkFlow (next_flow w) "Night Batch Flow" store
               (night_batch_nodes (length (frames w)) ts) ∧
    length (flow_nodes f) = length cfgs + 2 ∧
    ∀ st, reachable f st →
      (∀ t, t ∈ ts → started st (run_flow_id (VStr t)) →
            st "prepare_batch_data" = Succeeded) ∧
      (started st "notify_batch_complete" →
       ∀ t, t ∈ ts → st (run_flow_id (VStr t)) = Succeeded ∧
                     st "prepare_batch_data" = Succeeded).
Proof.
  intros Hf.
  destruct (build_night_batch_flow_frame arg w f Hf)
    as (d & run_types & cfgs & ts & fr & -> & Hrt & Hi & Ht & Hnd & Hnodes & _).
  assert (Hids : NoDup (node_ids f)).
  { destruct (build_night_batch_flow_outcome (Some (VDict d)) w) as (_ & _ & _ & _ & Hok).
    destruct (Hok f Hf) as ([[Hids _] _ _ _ _] & _). exact Hids. }
  exists d, run_types, cfgs, ts. split_and!; try done.
  { rewrite Hnodes. unfold night_batch_nodes. simpl.
    rewrite length_app, length_fmap. simpl.
    apply map_result_length in Ht. rewrite length_fmap in Ht. lia. }
  set (env := length (frames w)) in *.
  assert (Hrun : ∀ t, t ∈ ts →
            depends f (run_flow_id (VStr t)) "prepare_batch_data").
  { intros t Hin. apply (depends_node f (run_flow_node env t)); [|by left].
    rewrite Hnodes. simpl. right. apply elem_of_app. left.
    apply list_elem_of_fmap. eauto. }
  assert (Hnotify : ∀ t, t ∈ ts →
            depends f "notify_batch_complete" (run_flow_id (VStr t))).
  { intros t Hin. apply (depends_node f (notify_batch_node env ts)).
    - rewrite Hnodes. simpl. right. apply elem_of_app. right. left.
    - simpl. apply list_elem_of_fmap. exists (VStr t). split; [done|].
      apply list_elem_of_fmap. eauto. }
  intros st Hreach. split.
  - intros t Hin Hstart. eapply started_after_dependencies; eauto.
    apply tc_once. auto.
  - intros Hstart t Hin. split.
    + eapply started_after_dependencies; eauto. apply tc_once. auto.
    + eapply started_after_dependencies; eauto.
      eapply tc_l; [by apply Hnotify|]. apply tc_once. auto.
Qed.

(** X8. After a build that succeeded, every execute_run_type_flow
    callable, whichever run type it was registered for, calls
    build_run_type_flow(params, t) where [t] is the last run type: it reads
    [run_type] from the frame when it is called. *)
Theorem run_type_callables_read_last_type `{Externals} arg w f n w2 ctx :
  (build_night_batch_flow arg w).1 = Ok f →
  n ∈ flow_nodes f →
  fn_code (node_fn n) = Fn_execute_run_type_flow →
  frames w2 !! length (frames w) =
    frames (build_night_batch_flow arg w).2 !! length (frames w) →
  ∃ d run_types cfgs ts t,
    arg = Some (VDict d) ∧
    py_get (VDict d) "run_types" (VList []) = Ok run_types ∧
    py_iter run_types = Ok cfgs ∧
    types_of cfgs = Ok (VStr <$> ts) ∧
    last ts = Some t ∧
    invoke (node_fn n) ctx w2 =
      (let! g := (do! emit (EvCall (Call_build_run_type_flow (VDict d) (VStr t))) in
                  build_run_type_flow (VDict d) (VStr t)) in
       ret (ctx, Some g)) w2.
Proof.
  intros Hf Hn Hcode Hw2.
  destruct (build_night_batch_flow_frame arg w f Hf)
    as (d & run_types & cfgs & ts & fr & -> & Hrt & Hi & Ht & Hnd & -> & Hfr & Hp & Hr).
  simpl in Hn. apply night_batch_nodes_inv in Hn as [->|[(t0 & Ht0 & ->)| ->]];
    try discriminate.
  assert (Hlast : ∃ t, last ts = Some t).
  { destruct (last ts) as [t|] eqn:E; [eauto|].
    apply last_None in E as ->. by apply elem_of_nil in Ht0. }
  destruct Hlast as [t Hlast]. rewrite Hlast in Hr. simpl in Hr.
  exists d, run_types, cfgs, ts, t. split_and!; try done.
  unfold invoke. cbn [node_fn run_flow_node kind fn_code fn_env].
  rewrite Hfr in Hw2. unfold bind at 1 3.
  by rewrite (execute_run_type_flow_run _ d t fr ctx w2).
Qed.

(** X9. The build of the night batch flow does not look at the libraries,
    so prepare_batch_data can raise in a flow that was built.  Called in a
    state where the variables of that build are as the build left them (so
    [params], the caller's dict, has not been changed since), it returns,
    with three messages logged and run_types and libraries pushed, when the
    libraries value can be iterated and every item is a dict; otherwise it
    raises (TypeError or AttributeError) after two messages and pushes
    nothing. *)
Theorem prepare_batch_data_may_raise `{Externals} arg w f n w2 ctx :
  (build_night_batch_flow arg w).1 = Ok f →
  n ∈ flow_nodes f →
  fn_code (node_fn n) = Fn_prepare_batch_data →
  frames w2 !! length (frames w) =
    frames (build_night_batch_flow arg w).2 !! length (frames w) →
  ∃ d run_types libraries cfgs ts,
    arg = Some (VDict d) ∧
    py_get (VDict d) "run_types" (VList []) = Ok run_types ∧
    py_get (VDict d) "libraries" (VList []) = Ok libraries ∧
    py_iter run_types = Ok cfgs ∧
    types_of cfgs = Ok (VStr <$> ts) ∧
    (∀ libs versions,
       py_iter libraries = Ok libs → versions_of libs = Ok versions →
       invoke (node_fn n) ctx w2 =
         (Ok (mkContext
                (<["libraries" := libraries]> (<["run_types" := run_types]> (state ctx)))
                (logs ctx ++ prepare_batch_data_logs (VStr <$> ts) versions), None),
          mkWorld (frames w2) (next_flow w2)
                  (trace w2 ++
                   (EvLog <$> prepare_batch_data_logs (VStr <$> ts) versions) ++
                   [EvPush [("run_types", run_types); ("libraries", libraries)]]))) ∧
    (∀ e, py_iter libraries = Raise e ∨
          (∃ libs, py_iter libraries = Ok libs ∧ versions_of libs = Raise e) →
       invoke (node_fn n) ctx w2 =
         (Raise e,
          mkWorld (frames w2) (next_flow w2)
                  (trace w2 ++ [EvLog "Preparing night batch data";
                                EvLog ("Run types: " +:+ py_str (VList (VStr <$> ts)))]))).
Proof.
  intros Hf Hn Hcode Hw2.
  destruct (build_night_batch_flow_frame arg w f Hf)
    as (d & run_types & cfgs & ts & fr & -> & Hrt & Hi & Ht & Hnd & -> & Hfr & Hp & Hr).
  simpl in Hn. apply night_batch_nodes_inv in Hn as [->|[(t0 & Ht0 & ->)| ->]];
    try discriminate.
  rewrite Hfr in Hw2.
  destruct (prepare_batch_data_run (length (frames w)) d fr run_types cfgs
              (VStr <$> ts) (default (VList []) (assoc_get "libraries" d)) ctx w2
              Hw2 Hp Hrt Hi Ht eq_refl) as (Hok & Hraise1 & Hraise2).
  exists d, run_types, (default (VList []) (assoc_get "libraries" d)), cfgs, ts.
  split_and!; try done.
  - intros libs versions Hli Hv.
    unfold invoke. cbn [node_fn prepare_batch_node kind fn_code fn_env].
    unfold bind. by rewrite (Hok libs versions Hli Hv).
  - intros e [He|(libs & Hli & He)];
      unfold invoke; cbn [node_fn prepare_batch_node kind fn_code fn_env];
      unfold bind.
    + by rewrite (Hraise1 e He).
    + by rewrite (Hraise2 libs e Hli He).
Qed.

(** ** Instances of the properties above *)


Lemma log_only_tasks_return_witness :
  let n := diff_node (H:=sample_externals) 0 "ftb" [VStr "1.0"; VStr "2.0"] in
  ∃ s libraries libs,
    VStr "ftb" = VStr s ∧
    py_get sample_params "libraries" (VList []) = Ok libraries ∧
    py_iter libraries = Ok libs ∧
    (fn_code (node_fn n) = Fn_calculate_differences →
     invoke (H:=sample_externals) (node_fn n) empty_context sample_world =
       (Ok (mkContext (state empty_context)
                      (logs empty_context ++
                       calculate_differences_logs s (length libs)), None),
        mkWorld (frames sample_world) (next_flow sample_world)
                (trace sample_world ++
                 (EvLog <$> calculate_differences_logs s (length libs))))) ∧
    (fn_code (node_fn n) = Fn_notify_complete →
     invoke (H:=sample_externals) (node_fn n) empty_context sample_world =
       (Ok (mkContext (state empty_context)
                      (logs empty_context ++
                       ["Sending notification for " +:+ s +:+ " completion"]),
            None),
        mkWorld (frames sample_world) (next_flow sample_world)
                (trace sample_world ++
                 [EvLog ("Sending notification for " +:+ s +:+ " completion")]))).
Proof.
  intros n.
  apply (log_only_tasks_return (H:=sample_externals) sample_params (VStr "ftb")
           empty_world sample_flow n sample_world empty_context).
  - vm_compute. reflexivity.
  - subst n. do 5 right. left.
  - reflexivity.
Defined.

Lemma library_callables_read_last_version_witness :
  let n := build_node (H:=sample_externals) 0 "ftb" (library (VStr "1.0")) (VStr "1.0") in
  ∃ s libraries libs versions v,
    VStr "ftb" = VStr s ∧
    py_get sample_params "libraries" (VList []) = Ok libraries ∧
    py_iter libraries = Ok libs ∧
    versions_of libs = Ok versions ∧
    last versions = Some v ∧
    (fn_code (node_fn n) = Fn_build_library_image →
     invoke (H:=sample_externals) (node_fn n) empty_context sample_world =
       (let! g := (do! emit (EvCall (Call_build_firebird_image_flow
                                       (s +:+ "_" +:+ py_str (H:=sample_externals) v))) in
                   build_firebird_image_flow (Externals:=sample_externals)
                     (s +:+ "_" +:+ py_str (H:=sample_externals) v)) in
        ret (empty_context, Some g)) sample_world) ∧
    (fn_code (node_fn n) = Fn_run_library_pricing →
     invoke (H:=sample_externals) (node_fn n) empty_context sample_world =
       (let! g := (do! emit (EvCall (Call_build_pricing_flow
                                       (s +:+ "_" +:+ py_str (H:=sample_externals) v
                                        +:+ "_pricing"))) in
                   build_pricing_flow (Externals:=sample_externals)
                     (s +:+ "_" +:+ py_str (H:=sample_externals) v +:+ "_pricing")) in
        ret (empty_context, Some g)) sample_world).
Proof.
  intros n.
  apply (library_callables_read_last_version (H:=sample_externals) sample_params
           (VStr "ftb") empty_world sample_flow n sample_world empty_context).
  - vm_compute. reflexivity.
  - subst n. right. left.
  - left. reflexivity.
  - reflexivity.
Defined.

Lemma build_night_batch_flow_returns_witness :
  ∃ d run_types cfgs ts,
    Some sample_params = Some (VDict d) ∧
    py_get (VDict d) "run_types" (VList []) = Ok run_types ∧
    py_iter run_types = Ok cfgs ∧
    types_of cfgs = Ok (VStr <$> ts) ∧
    sample_night_flow =
      mkFlow (next_flow empty_world) "Night Batch Flow"
             (store (Externals:=sample_externals))
             (night_batch_nodes (H:=sample_externals) (length (frames empty_world)) ts) ∧
    length (flow_nodes sample_night_flow) = length cfgs + 2 ∧
    ∀ st, reachable sample_night_flow st →
      (∀ t, t ∈ ts → started st (run_flow_id (H:=sample_externals) (VStr t)) →
            st "prepare_batch_data" = Succeeded) ∧
      (started st "notify_batch_complete" →
       ∀ t, t ∈ ts → st (run_flow_id (H:=sample_externals) (VStr t)) = Succeeded ∧
                     st "prepare_batch_data" = Succeeded).
Proof.
  apply (build_night_batch_flow_returns (H:=sample_externals) (Some sample_params)
           empty_world sample_night_flow).
  vm_compute. reflexivity.
Defined.

Lemma run_type_callables_read_last_type_witness :
  let n := run_flow_node (H:=sample_externals) 0 "ftb" in
  ∃ d run_types cfgs ts t,
    Some sample_params = Some (VDict d) ∧
    py_get (VDict d) "run_types" (VList []) = Ok run_types ∧
    py_iter run_types = Ok cfgs ∧
    types_of cfgs = Ok (VStr <$> ts) ∧
    last ts = Some t ∧
    invoke (H:=sample_externals) (node_fn n) empty_context sample_night_world =
      (let! g := (do! emit (EvCall (Call_build_run_type_flow (VDict d) (VStr t))) in
                  build_run_type_flow (H:=sample_externals) (VDict d) (VStr t)) in
       ret (empty_context, Some g)) sample_night_world.
Proof.
  intros n.
  apply (run_type_callables_read_last_type (H:=sample_externals) (Some sample_params)
           empty_world sample_night_flow n sample_night_world empty_context).
  - vm_compute. reflexivity.
  - subst n. right. left.
  - reflexivity.
  - reflexivity.
Defined.

Lemma prepare_batch_data_may_raise_witness :
  let n := prepare_batch_node 0 in
  let w2 := (build_night_batch_flow (H:=sample_externals) (Some unchecked_params)
               empty_world).2 in
  ∃ d run_types libraries cfgs ts,
    Some unchecked_params = Some (VDict d) ∧
    py_get (VDict d) "run_types" (VList []) = Ok run_types ∧
    py_get (VDict d) "libraries" (VList []) = Ok libraries ∧
    py_iter run_types = Ok cfgs ∧
    types_of cfgs = Ok (VStr <$> ts) ∧
    (∀ libs versions,
       py_iter libraries = Ok libs → versions_of libs = Ok versions →
       invoke (H:=sample_externals) (node_fn n) empty_context w2 =
         (Ok (mkContext
                (<["libraries" := libraries]>
                   (<["run_types" := run_types]> (state empty_context)))
                (logs empty_context ++
                 prepare_batch_data_logs (H:=sample_externals) (VStr <$> ts) versions),
              None),
          mkWorld (frames w2) (next_flow w2)
                  (trace w2 ++
                   (EvLog <$> prepare_batch_data_logs (H:=sample_externals)
                                (VStr <$> ts) versions) ++
                   [EvPush [("run_types", run_types); ("libraries", libraries)]]))) ∧
    (∀ e, py_iter libraries = Raise e ∨
          (∃ libs, py_iter libraries = Ok libs ∧ versions_of libs = Raise e) →
       invoke (H:=sample_externals) (node_fn n) empty_context w2 =
         (Raise e,
          mkWorld (frames w2) (next_flow w2)
                  (trace w2 ++
                   [EvLog "Preparing night batch data";
                    EvLog ("Run types: " +:+
                           py_str (H:=sample_externals) (VList (VStr <$> ts)))]))).
Proof.
  intros n w2.
  apply (prepare_batch_data_may_raise (H:=sample_externals) (Some unchecked_params)
           empty_world
           (mkFlow 0 "Night Batch Flow" 0 (night_batch_nodes (H:=sample_externals) 0 ["ftb"]))
           n w2 empty_context).
  - vm_compute. reflexivity.
  - subst n. left.
  - reflexivity.
  - reflexivity.
Defined.

